(* ===== verification/_CoqProject ===== *)
-Q . S2P
Prelude.v
PyBuiltins.v
FeatureStore.v
ClassIndex.v
Sampler.v
Generator.v
Config.v
Vgg.v
Extraction.v
Model.v
Pipeline.v
