(* ===== verification/Prelude.v ===== *)
(** * A verification development of devise-keras's data pipeline

    The repository trains a DeViSE-style model: images are embedded by a
    VGG16 network, words by pretrained word vectors, and a model is trained
    to bring an image's embedding close to its class word's vector.  This
    development models the data side of it, in
    [src/extract_features_and_dump.py]:

    - the configuration, [load_configs] (lines 23-52), which reads
      [local.cfg] with [ConfigParser] and assigns ten module globals;
    - the feature store, an HDF5 file of a float table and a string table,
      grown by [dump_to_h5] / [dump_wv_to_h5] (lines 128-161) and created
      by [main] (lines 256-268);
    - the class index, [get_class_ranges] (lines 58-68), mapping a class
      (the parent directory of a file) to the first and last row of its
      files;
    - the negative sampler (lines 105-109): rows outside the anchor's class
      range drawn by [np.random.choice(..., replace=False)] and sorted;
    - the batch generator [data_generator] (lines 70-125): a Python
      generator yielding, for each anchor row in turn, the anchor's
      features and class embedding followed by [batch_size] negatives;
    - the VGG16 feature extractor, [define_model] (lines 163-212): the
      layer stack, built by Keras on a channels-first input and loaded
      with pretrained weights by layer name;
    - the extraction driver, [create_indices] and [main] (lines 214-302):
      walk the image folder, build the network, extract features chunk by
      chunk, append them to the store, and pickle the class ranges of the
      store; the script entry runs [load_configs()] at import (line 55)
      and then [main()] (lines 304-305).

    and, in [src/simplified_complete_model.py], the evaluation model
    [FullModel], whose [custom_distance_function] (lines 37-65) scores an
    image against a caption, and the [TEST] harness (lines 81-94) that
    runs it on one image with two captions.

    The driver calls the configuration, the store and the class index; the
    generator reads what the driver wrote (the store and the pickle) and
    calls the class index's [class_name] and the sampler.

    ** Files
    - [Prelude] (this file): Python exceptions [exn], the result type
      [res] (Ok/Err) and the state-exception monad [io S A = S -> S * res A]
      in which a raise keeps the state mutated before it, as Python does;
      their notations ([py_scope]), hint databases [py] and [py_rw], and
      shared lemmas on [res_mapM], binds and loops ([io_for_seq_inv]).
    - [PyBuiltins]: [str.split], negative indexing, [range],
      [xrange] (ValueError on step 0), [izip], [sorted], [os.path.join]
      (library semantics the program calls; no theorem is about them
      alone).
    - [FeatureStore] (Module [FeatureStore]): a dataset is its rows, its
      width and its maxshape; [ds_resize], [ds_write_row] (numpy
      broadcasting of a row), [ds_fancy_read] (h5py's increasing-index
      rule); an [h5file] is two gmaps of datasets; [dump_pair] is the
      body shared by [dump_to_h5] and [dump_wv_to_h5], in [io h5file].
    - [ClassIndex] (Module [ClassIndex]): [class_name], the loop
      [get_class_ranges_loop] over a gmap, and its abstract specification
      [is_range] / [ranges_of_labels] with the refinement theorem.
    - [Sampler] (Module [Sampler]): numpy's legacy [choice(replace=False)]
      as its argument checks in numpy's order followed by a Fisher-Yates
      permutation ([shuffle_down]) whose random draws come from the
      typeclass [RandomInterval] (the Mersenne Twister is abstract; an LCG
      instance evaluates the examples); [select_negatives] is lines 107-109.
    - [Generator] (Module [Generator]): [gen_setup] (lines 76-90), one loop
      iteration [gen_step] (lines 97-118) with numpy's [zeros], row
      assignment and [concatenate], and the generator object as a state
      machine [gen_state] (created / suspended at an anchor with its frame
      / closed) with [gen_next] = one [next()] and [gen_run] = several.
    - [Config] (Module [Config]): [ConfigParser]'s sections with
      [optionxform], [get]/[getint] with their exceptions, and
      [load_configs] as assignments to a [globals] record.
    - [Extraction] (Module [Extraction]): [create_indices], the chunk loop
      [process_chunk] and [extraction_main] over a [world] of HDF5 files,
      pickles, directories and open handles; the image loader and the
      forward pass of the network are section variables, the Keras
      environment (data format, weights files) is a [keras_env];
      [script_main] adds the import-time [load_configs()].
    - [Vgg] (Module [Vgg]): Keras layers as an inductive type, their
      shape inference ([conv_output_length] with the backend's refusal
      of a window larger than its input, [Flatten]'s zero-dimension
      check), [build_layers], [keras_Model] (unique names) and
      [load_weights_by_name]; [define_model] is [vgg16_layers] on
      [(3, 224, 224)] followed by the weights.
    - [Model] (Module [FullModel]), for [src/simplified_complete_model.py]:
      [custom_distance_function] over rows of reals with Keras' slicing,
      reductions and broadcasting, and the asserts of [__init__] and
      [predict] around the two external networks, and [TEST].
    - [Pipeline] (Module [Pipeline]): the contract between the driver and
      the generator: [gen_open] opens the store, pickle and embedding
      store [data_generator] names, in the world [main] leaves.

    ** Theorems
    - Sampling (C1, C2, C9): every batch's negatives are [batch_size]
      distinct, increasing rows of the store, none of the anchor's class
      (so the spec's open question on contiguity is answered: the negatives
      are always outside the class range, and hence of other classes);
      [choice] raises before any draw when the batch is too large.
    - Class index (C3, C17-C19): the loop refines its specification
      (first and last index per class); under contiguity every range it
      returns holds only its class; without contiguity a range is too
      wide, never too narrow (it covers every row of the class and every
      other-class row between two of them); its only error is the
      IndexError of a file with no parent directory.
    - Generator (C4, C5, C15, C16, C20-C22): a step yields the expected X
      and y; on a non-empty store the generator yields forever, cycling
      through the anchors; a class without an embedding raises [KeyError]
      before any draw; on an empty store [next()] never returns; the word
      mapping keeps a word's last row; the hard-coded widths 4096/50 and
      [batch_size = 0] make it raise.
    - Store (C7, C8, C10, C11): any sequence of [dump_to_h5] calls appends
      exactly its rows in order and keeps the invariant that both tables
      have the same number of rows; a count mismatch changes nothing, but
      a width mismatch leaves grown tables.
    - Driver (C6, C12-C14, C35): the refinement theorem of [main]: on any
      world where its checks pass, with at least two images and a
      row-wise extractor, [main] appends one row per image in [os.walk]
      order, pickles [get_class_ranges] of every stored name and closes
      the store; the chunks cover every file once in order; on any world
      with a single image the clamp makes the xrange step 0 and [main]
      raises with the tables created and the store left open.
    - Evaluation model (C23-C25): [custom_distance_function] is the cosine
      similarity of the two halves of the first row of [y_pred], in
      [[-1, 1]], and fails to broadcast on other widths.
    - Configuration and the script entry (C26-C28): every successful run
      of the script has read the training options, because of the
      import-time [load_configs()], so a validation-only configuration
      fails (Example [script_main_valid_only]); a bad run type raises with
      the run paths unchanged; ["TRAIN"] selects the training paths.
    - The batch shape (C29): every successful step yields [(1 + k) x 4096]
      and [(1 + k) x 50] arrays.
    - Composition (C30): after [main], [gen_open] over the store and
      pickle [main] wrote gives a well-formed environment, so the
      generator theorems apply to what the driver produced.
    - Termination (C31): with two passes of fuel, every [next()] on a
      non-empty store returns.
    - The network (C32-C35, with C35 under Driver): on a channels-first input [(c, h, w)] the
      VGG16 stack builds exactly when [h, w >= 32] and outputs [IMAGE_DIM]
      features; with the pretrained weights [define_model] succeeds exactly
      when [IMAGE_DIM] is their width (4096, 134,260,544 parameters); on a
      channels-last backend it always raises; and when it raises, [main]
      raises before the store is opened.  [TEST_runs]: [TEST] prints the
      losses for both captions on a channels-first backend and fails its
      shape assert on a channels-last one.

    ** Fuel and bounds
    [while 1] in [data_generator] is bounded by a fuel counting the passes
    over [range(DATASET_SIZE)] that one [next()] may make.  On a non-empty
    store fuel 2 is enough for every call (a call resumes at [i+1] and
    wraps at most once), which [gen_cycle] uses; on an empty store no fuel
    is enough, which [gen_empty_store_spins] proves for every fuel.
    Python ints are unbounded, so sizes and indices are [nat] or [Z]
    without wrap-around; float values are kept abstract as [Z] (no
    arithmetic is done on them by the modelled code).

    ** Not modelled
    The numeric forward pass of VGG16 (convolutions with the loaded
    weights) and image decoding are parameters of the driver: their values
    come from the weights file and the image files, not from the program;
    [define_model]'s architecture, shape checks and weight loading are
    modelled, and [convert_all_kernels_in_model] only permutes kernel
    values.  Keras session handling and printing have no effect on the
    modelled state; the HDF5 file format and pickle encoding are
    abstracted into maps; the imports (lines 1-19) and [np.random.seed]
    (line 21) are library set-up, the seed standing for the abstract
    random source of the sampler.  In [src/simplified_complete_model.py]
    the two networks [FullModel] loads are parameters; floats are reals
    there, without rounding or NaN. *)

From Stdlib Require Export Ascii String ZArith Lia.
From stdpp Require Export base list gmap strings sorting.

(** ** Python exceptions and fallible results *)

(** The exceptions the modelled code raises, by Python class.  The message
    is kept where the code or the library gives one. *)
Inductive exn : Type :=
  | AssertionError (msg : string)
  | KeyError (key : string)
  | IndexError (msg : string)
  | ValueError (msg : string)
  | TypeError (msg : string)
  | IOError (msg : string)
  | NameError (name : string)
  | NoSectionError (section : string)
  | NoOptionError (option section : string).

(** A Python expression that returns or raises. *)
Inductive res (A : Type) : Type :=
  | Ok (a : A)
  | Err (e : exn).
Arguments Ok {A} a.
Arguments Err {A} e.

#[export] Instance res_ret : MRet res := λ A a, Ok a.
#[export] Instance res_bind : MBind res :=
  λ A B f r, match r with Ok a => f a | Err e => Err e end.
#[export] Instance res_fmap : FMap res :=
  λ A B f r, match r with Ok a => Ok (f a) | Err e => Err e end.

Definition is_ok {A} (r : res A) : bool :=
  match r with Ok _ => true | Err _ => false end.

(** Code that mutates a store [S] in place and may raise: an exception
    leaves the mutations already done in place, as an exception does in
    the Python program (h5py writes straight to the file). *)
Definition io (S A : Type) : Type := S → S * res A.

#[export] Instance io_ret {S} : MRet (io S) := λ A a s, (s, Ok a).
#[export] Instance io_bind {S} : MBind (io S) :=
  λ A B f m s, let '(s', r) := m s in
               match r with Ok a => f a s' | Err e => (s', Err e) end.

Definition io_raise {S A} (e : exn) : io S A := λ s, (s, Err e).
Definition io_lift {S A} (r : res A) : io S A := λ s, (s, r).
Definition io_get {S} : io S S := λ s, (s, Ok s).
Definition io_put {S} (s : S) : io S unit := λ _, (s, Ok ()).

(** [for x in xs: body(x)] in the io monad. *)
Fixpoint io_for {S A} (xs : list A) (body : A → io S unit) : io S unit :=
  match xs with
  | [] => mret ()
  | x :: xs' => body x ≫= λ _, io_for xs' body
  end.

(** [map(f, xs)] with an [f] that may raise: the first exception wins. *)
Fixpoint res_mapM {A B} (f : A → res B) (xs : list A) : res (list B) :=
  match xs with
  | [] => Ok []
  | x :: xs' => y ← f x; ys ← res_mapM f xs'; Ok (y :: ys)
  end.

(** [d[k]] on a dict: [KeyError] when absent. *)
Definition dict_get {K V} `{Countable K} (m : gmap K V) (k : K) (err : exn) : res V :=
  match m !! k with Some v => Ok v | None => Err err end.

(** [l[i]] on a list, [i >= 0]. *)
Definition list_get {A} (l : list A) (i : nat) : res A :=
  match l !! i with Some x => Ok x | None => Err (IndexError "list index out of range") end.

(** ** Notation scope of the development *)

Declare Scope py_scope.
Delimit Scope py_scope with py.
Notation "'raise' e" := (Err e) (at level 10, only parsing) : py_scope.
Notation "'try!' c" := (io_lift c) (at level 10) : py_scope.

(** ** Automation *)

Create HintDb py discriminated.
Create Rewrite HintDb py_rw.

Lemma res_bind_Ok {A B} (c : res A) (k : A → res B) b :
  (c ≫= k) = Ok b ↔ ∃ a, c = Ok a ∧ k a = Ok b.
Proof.
  destruct c as [a|e]; simpl; split.
  - eauto.
  - by intros (? & [= ->] & ?).
  - done.
  - by intros (? & ? & ?).
Qed.

Lemma res_bind_Err {A B} (c : res A) (k : A → res B) e :
  (c ≫= k) = Err e ↔ c = Err e ∨ ∃ a, c = Ok a ∧ k a = Err e.
Proof.
  destruct c as [a|e']; simpl; split.
  - eauto.
  - by intros [|(? & [= ->] & ?)].
  - intros [= ->]. auto.
  - by intros [[= ->]|(? & ? & ?)].
Qed.

Lemma res_fmap_Ok {A B} (f : A → B) (c : res A) b :
  (f <$> c) = Ok b ↔ ∃ a, c = Ok a ∧ b = f a.
Proof.
  destruct c as [a|e]; simpl; split.
  - intros [= <-]. eauto.
  - by intros (? & [= ->] & ->).
  - done.
  - by intros (? & ? & ?).
Qed.

Lemma res_mapM_length {A B} (f : A → res B) xs ys :
  res_mapM f xs = Ok ys → length ys = length xs.
Proof.
  revert ys. induction xs as [|x xs IH]; intros ys H; simpl in H.
  - by injection H as <-.
  - apply res_bind_Ok in H as (y & _ & H).
    apply res_bind_Ok in H as (ys' & Hys & [= <-]). simpl. f_equal. auto.
Qed.

Lemma res_mapM_lookup {A B} (f : A → res B) xs ys i x :
  res_mapM f xs = Ok ys → xs !! i = Some x → ∃ y, ys !! i = Some y ∧ f x = Ok y.
Proof.
  revert ys i. induction xs as [|x' xs IH]; intros ys i H Hi; simpl in H; [done|].
  apply res_bind_Ok in H as (y & Hy & H).
  apply res_bind_Ok in H as (ys' & Hys & [= <-]).
  destruct i as [|i]; simpl in Hi.
  - injection Hi as <-. eauto.
  - simpl. eauto.
Qed.

Lemma res_mapM_lookup_rev {A B} (f : A → res B) xs ys i y :
  res_mapM f xs = Ok ys → ys !! i = Some y → ∃ x, xs !! i = Some x ∧ f x = Ok y.
Proof.
  revert ys i. induction xs as [|x' xs IH]; intros ys i H Hi; simpl in H.
  - injection H as <-. done.
  - apply res_bind_Ok in H as (y' & Hy & H).
    apply res_bind_Ok in H as (ys' & Hys & [= <-]).
    destruct i as [|i]; simpl in Hi; [injection Hi as <-|]; eauto.
Qed.

Lemma res_mapM_app {A B} (f : A → res B) xs1 xs2 :
  res_mapM f (xs1 ++ xs2) =
  (ys1 ← res_mapM f xs1; ys2 ← res_mapM f xs2; Ok (ys1 ++ ys2)).
Proof.
  induction xs1 as [|x xs1 IH]; simpl.
  - by destruct (res_mapM f xs2).
  - destruct (f x); simpl; [|done]. rewrite IH.
    destruct (res_mapM f xs1); simpl; [|done]. by destruct (res_mapM f xs2).
Qed.

(** Running a bind in the io monad. *)
Lemma io_bind_run {S A B} (m : io S A) (k : A → io S B) s :
  (m ≫= k) s = let '(s', r) := m s in
               match r with Ok a => k a s' | Err e => (s', Err e) end.
Proof. reflexivity. Qed.

Lemma res_bind_ret {A B} (a : A) (k : A → res B) : (Ok a ≫= k) = k a.
Proof. reflexivity. Qed.

Lemma res_bind_ok_eq {A B} (c : res A) (k : A → res B) a : c = Ok a → (c ≫= k) = k a.
Proof. by intros ->. Qed.

Lemma io_lift_bind_ok {S A B} (r : res A) (k : A → io S B) a s :
  r = Ok a → (io_lift r ≫= k) s = k a s.
Proof. by intros ->. Qed.

Lemma io_lift_bind_err {S A B} (r : res A) (k : A → io S B) e s :
  r = Err e → (io_lift r ≫= k) s = (s, Err e).
Proof. by intros ->. Qed.

Lemma res_mapM_ok {A B} (f : A → res B) (g : A → B) xs :
  (∀ x, x ∈ xs → f x = Ok (g x)) → res_mapM f xs = Ok (g <$> xs).
Proof.
  induction xs as [|x xs IH]; intros Hf; [done|]. simpl.
  rewrite (Hf x) by (by left). simpl. rewrite IH; [done|].
  intros y Hy. apply Hf. by right.
Qed.

Lemma list_get_ok {A} `{!Inhabited A} (l : list A) i : i < length l → list_get l i = Ok (l !!! i).
Proof. intros Hi. unfold list_get. by rewrite (list_lookup_lookup_total_lt l i Hi). Qed.

(** Reading every index of a list in order gives the list back. *)
Lemma fmap_lookup_total_seq {A} `{!Inhabited A} (l : list A) : (λ k, l !!! k) <$> seq 0 (length l) = l.
Proof.
  apply list_eq. intros i. rewrite list_lookup_fmap.
  destruct (decide (i < length l)).
  - rewrite lookup_seq_lt by done. simpl. by rewrite <-list_lookup_lookup_total_lt.
  - rewrite lookup_seq_ge, lookup_ge_None_2 by lia. done.
Qed.

Lemma concat_fmap_fmap {A B C} (f : B → C) (g : A → list B) (l : list A) :
  concat ((λ x, f <$> g x) <$> l) = f <$> concat (g <$> l).
Proof.
  induction l as [|x l IH]; [done|]. rewrite !fmap_cons. simpl. by rewrite fmap_app, IH.
Qed.

Lemma elem_of_concat_intro {A} (x : A) (l : list A) (ls : list (list A)) :
  x ∈ l → l ∈ ls → x ∈ concat ls.
Proof. rewrite !list_elem_of_In. intros Hx Hl. apply in_concat. eauto. Qed.

(** [alter] on a present key is an [insert] of the altered value. *)
Lemma alter_some_insert `{Countable K} {V} (g : V → V) (m : gmap K V) k x :
  m !! k = Some x → alter g k m = <[k := g x]> m.
Proof. intros Hk. rewrite <-(insert_id m k x Hk) at 1. apply alter_insert_eq. Qed.

#[export] Hint Rewrite @res_mapM_app : py_rw.
#[export] Hint Resolve res_mapM_length : py.

(** Split a hypothesis [c ≫= k = Ok b] into its two steps. *)
Ltac inv_bind :=
  repeat match goal with
  | H : (_ ≫= _) = Ok _ |- _ =>
      let a := fresh "a" in let Ha := fresh "Ha" in
      apply res_bind_Ok in H as (a & Ha & H)
  | H : Ok _ = Ok _ |- _ => injection H as H
  | H : Err _ = Ok _ |- _ => discriminate H
  | H : Ok _ = Err _ |- _ => discriminate H
  end.

(** A [for i in range(i0, k)] loop whose body succeeds and advances an
    invariant [P i] to [P (S i)] succeeds and ends in [P k]. *)
Lemma io_for_seq_inv {S} (P : nat → S → Prop) (body : nat → io S unit) (k : nat) :
  (∀ i s, i < k → P i s → ∃ s', body i s = (s', Ok ()) ∧ P (Datatypes.S i) s') →
  ∀ m i s, i + m = k → P i s → ∃ s', io_for (seq i m) body s = (s', Ok ()) ∧ P k s'.
Proof.
  intros Hbody m. induction m as [|m IH]; intros i s Hik HP; simpl.
  - exists s. split; [done|]. by replace k with i by lia.
  - rewrite io_bind_run. destruct (Hbody i s) as (s' & -> & HP'); [lia|done|].
    apply (IH (Datatypes.S i)); [lia|done].
Qed.

(** A [for] loop whose body, on states of an invariant [Inv], succeeds
    with the state [step s x]: the loop folds [step] over the list. *)
Lemma io_for_fold {S A} (Inv : S → Prop) (step : S → A → S) (body : A → io S unit) xs :
  (∀ x s, x ∈ xs → Inv s → body x s = (step s x, Ok ()) ∧ Inv (step s x)) →
  ∀ s, Inv s → io_for xs body s = (foldl step s xs, Ok ()) ∧ Inv (foldl step s xs).
Proof.
  induction xs as [|x xs IH]; intros Hb s Hs; [done|]. simpl. rewrite io_bind_run.
  destruct (Hb x s) as [-> Hs']; [by left|done|].
  apply IH; [|done]. intros y s' Hy. apply Hb. by right.
Qed.
