(* ===== verification/PyBuiltins.v ===== *)
(** * Python built-ins the pipeline calls

    [str.split] with a one-character separator, indexing with negative
    indices ([fname.split("/")[-2]]), [range], Python 2's [xrange] and
    [izip] (used by [create_indices]), [sorted] on ints, and
    [os.path.join] on two arguments.  These are library semantics, written
    from the documented behaviour of CPython 2.7 and [posixpath]. *)

From S2P Require Import Prelude.
Local Open Scope Z_scope.

(** ** [str.split(sep)] for a one-character separator *)

(** CPython splits at every occurrence and keeps empty pieces:
    ["a//b".split("/") = ["a", "", "b"]], [" ".split("/") = [" "]]. *)
Fixpoint py_split (sep : Ascii.ascii) (s : string) : list string :=
  match s with
  | EmptyString => [EmptyString]
  | String c s' =>
      if decide (c = sep) then EmptyString :: py_split sep s'
      else match py_split sep s' with
           | p :: ps => String c p :: ps
           | [] => [String c EmptyString]
           end
  end.

(** Whether a string contains a character. *)
Fixpoint str_has (c : Ascii.ascii) (s : string) : bool :=
  match s with
  | EmptyString => false
  | String c' s' => bool_decide (c' = c) || str_has c s'
  end.

(** ** [seq[k]] with Python's negative indices *)

Definition py_getitem {A} (l : list A) (k : Z) : res A :=
  let k' := if Z.ltb k 0 then k + Z.of_nat (length l) else k in
  if Z.ltb k' 0 then Err (IndexError "list index out of range")
  else match l !! Z.to_nat k' with
       | Some x => Ok x
       | None => Err (IndexError "list index out of range")
       end.

(** ** [range], [xrange], [izip], [sorted] *)

(** [range(a, b)] on non-negative ints. *)
Definition py_range (a b : nat) : list nat := seq a (b - a).

(** The length of [xrange(start, stop, step)] for a non-zero step. *)
Definition xrange_len (start stop step : Z) : nat :=
  if Z.ltb 0 step then Z.to_nat ((stop - start + step - 1) / step)
  else Z.to_nat ((start - stop - step - 1) / (- step)).

(** [xrange(start, stop, step)]: a zero step raises [ValueError]. *)
Definition py_xrange (start stop step : Z) : res (list Z) :=
  if Z.eqb step 0 then Err (ValueError "xrange() arg 3 must not be zero")
  else Ok ((λ k : nat, start + Z.of_nat k * step) <$> seq 0 (xrange_len start stop step)).

(** [izip(xs, ys)] stops at the shorter argument. *)
Definition py_izip {A B} (xs : list A) (ys : list B) : list (A * B) := zip xs ys.

(** [sorted(l)] on a list of ints, ascending. *)
Definition py_sorted (l : list nat) : list nat := merge_sort Nat.le l.

(** ** [os.path.join(a, b)] (posixpath) *)

(** An absolute [b] replaces [a]; otherwise a '/' is inserted unless [a]
    is empty or already ends with one. *)
Definition ends_with_slash (s : string) : bool :=
  match String.get (String.length s - 1) s with
  | Some c => bool_decide (c = "/"%char) && negb (String.eqb s EmptyString)
  | None => false
  end.

Definition os_path_join (a b : string) : string :=
  match b with
  | String "/"%char _ => b
  | _ => if String.eqb a EmptyString || ends_with_slash a then (a ++ b)%string
         else (a ++ String "/"%char b)%string
  end.

(** ** Lemmas *)

Lemma py_split_nonempty sep s : py_split sep s ≠ [].
Proof.
  induction s as [|c s IH]; simpl; [done|].
  case_decide; [done|]. by destruct (py_split sep s).
Qed.

(** Splitting at a separator splits the pieces. *)
Lemma py_split_app sep a b :
  py_split sep (a ++ String sep b)%string = py_split sep a ++ py_split sep b.
Proof.
  induction a as [|c a IH]; simpl.
  - by rewrite decide_True.
  - case_decide; [by rewrite IH|]. rewrite IH.
    pose proof (py_split_nonempty sep a). by destruct (py_split sep a).
Qed.

Lemma py_split_no_sep sep s : str_has sep s = false → py_split sep s = [s].
Proof.
  induction s as [|c s IH]; simpl; [done|].
  intros [Hc Hs]%orb_false_iff. rewrite decide_False.
  - by rewrite IH.
  - intros ->. by rewrite bool_decide_eq_true_2 in Hc.
Qed.

(** No piece contains the separator. *)
Lemma py_split_pieces sep s : Forall (λ p, str_has sep p = false) (py_split sep s).
Proof.
  induction s as [|c s IH]; simpl; [by constructor|].
  case_decide; [by constructor|].
  destruct (py_split sep s) as [|p ps]; inversion IH; subst;
    constructor; simpl; try done; apply orb_false_iff; split; try done;
    by apply bool_decide_eq_false_2.
Qed.

Lemma py_getitem_neg2 {A} (l : list A) x :
  py_getitem l (-2) = Ok x ↔ (2 ≤ length l)%nat ∧ l !! (length l - 2)%nat = Some x.
Proof.
  unfold py_getitem. simpl.
  destruct (Z.ltb_spec (-2 + Z.of_nat (length l)) 0).
  - split; [done|lia].
  - replace (Z.to_nat (-2 + Z.of_nat (length l))) with (length l - 2)%nat by lia.
    destruct (l !! (length l - 2)%nat) eqn:E; split; intros H'; try done.
    + injection H' as ->. split; [lia|done].
    + by destruct H' as [_ [= ->]].
    + by destruct H'.
Qed.

Lemma py_getitem_neg2_app {A} (l : list A) x y :
  py_getitem (l ++ [x; y]) (-2) = Ok x.
Proof.
  apply py_getitem_neg2. rewrite length_app. simpl. split; [lia|].
  rewrite lookup_app_r; [|lia].
  replace (length l + 2 - 2 - length l)%nat with 0%nat by lia. done.
Qed.

Lemma py_sorted_Permutation l : py_sorted l ≡ₚ l.
Proof. apply merge_sort_Permutation. Qed.

Lemma py_sorted_elem_of l x : x ∈ py_sorted l ↔ x ∈ l.
Proof. by rewrite py_sorted_Permutation. Qed.

Lemma py_sorted_length l : length (py_sorted l) = length l.
Proof. by rewrite py_sorted_Permutation. Qed.

(** Sorting a list of distinct ints gives a strictly increasing list: the
    order h5py's fancy indexing requires. *)
Lemma py_sorted_strict l : NoDup l → StronglySorted Nat.lt (py_sorted l).
Proof.
  intros Hnd.
  assert (Hs : StronglySorted Nat.le (py_sorted l)).
  { apply StronglySorted_merge_sort; [intros ???; lia | intros a b; lia]. }
  assert (Hnd' : NoDup (py_sorted l)) by (by rewrite py_sorted_Permutation).
  clear Hnd. induction Hs as [|x l' Hs IH Hall]; constructor.
  - apply IH. by inversion Hnd'.
  - apply NoDup_cons in Hnd' as [Hx _]. apply Forall_forall. intros y Hy.
    eapply Forall_forall in Hall; [|done].
    assert (x ≠ y) by (intros ->; apply Hx; by apply list_elem_of_In). lia.
Qed.

#[export] Hint Resolve py_split_nonempty py_sorted_strict : py.
#[export] Hint Rewrite py_split_app py_sorted_length : py_rw.
