(* ===== verification/FeatureStore.v ===== *)
(** * Feature Store: the HDF5 tables and [dump_to_h5] / [dump_wv_to_h5]

    An HDF5 file is modelled by its datasets, a float table or a
    variable-length string table per path ("data/features",
    "data/fnames", "data/word_embeddings", "data/word_names").  A dataset
    has its rows, its current number of columns, and the bound on columns
    its [maxshape] fixes.  The operations are h5py's: [resize] (new cells
    hold the fill value: [0.0] for floats, the empty string for strings),
    row assignment with numpy's broadcasting of a scalar or a length-1
    row, reading one row, and fancy reading of a list of rows, which h5py
    accepts only in increasing order.  Writes go straight to the file, so
    an exception leaves the writes before it in place: the operations run
    in the [io] monad of the prelude, whose state is the file.

    [dump_to_h5] (lines 128-145) and [dump_wv_to_h5] (lines 147-161) have
    the same body on different tables; both are [dump_pair] applied to
    their table names. *)

From S2P Require Import Prelude PyBuiltins.

Module FeatureStore.

(** ** Datasets *)

Record dataset (A : Type) := mk_dataset {
  ds_rows : list (list A);
  ds_cols : nat;
  ds_maxcols : option nat   (** [None]: unlimited *)
}.
Arguments mk_dataset {A}.
Arguments ds_rows {A}.
Arguments ds_cols {A}.
Arguments ds_maxcols {A}.

Section Dataset.
Context {A : Type} (fill : A).

(** A row after the second dimension is resized to [d]. *)
Definition fit_row (d : nat) (r : list A) : list A :=
  take d r ++ replicate (d - length r) fill.

(** [ds.resize((n, d))]. *)
Definition ds_resize (n : nat) (d : Z) (ds : dataset A) : res (dataset A) :=
  if (d <? 0)%Z then Err (ValueError "negative dimensions are not allowed")
  else if match ds_maxcols ds with Some mc => (mc <? Z.to_nat d)%nat | None => false end
  then Err (ValueError "Unable to set extent of dataset (dimension exceeds maximum)")
  else Ok (mk_dataset
             (fit_row (Z.to_nat d) <$> (take n (ds_rows ds) ++ replicate (n - length (ds_rows ds)) []))
             (Z.to_nat d) (ds_maxcols ds)).

(** Broadcasting a row value into a row of [cols] cells: the same width,
    or a single cell repeated; otherwise [err] (h5py raises [TypeError],
    numpy [ValueError]). *)
Definition broadcast_row (err : exn) (cols : nat) (v : list A) : res (list A) :=
  if (length v =? cols)%nat then Ok v
  else match v with
       | [x] => Ok (replicate cols x)
       | _ => Err err
       end.

(** [ds[r] = v]. *)
Definition ds_write_row (r : nat) (v : list A) (ds : dataset A) : res (dataset A) :=
  if (length (ds_rows ds) <=? r)%nat then Err (IndexError "Index out of range")
  else v' ← broadcast_row (TypeError "Can't broadcast") (ds_cols ds) v;
       Ok (mk_dataset (<[r := v']> (ds_rows ds)) (ds_cols ds) (ds_maxcols ds)).

(** [ds[i]]. *)
Definition ds_get_row (i : nat) (ds : dataset A) : res (list A) :=
  match ds_rows ds !! i with
  | Some r => Ok r
  | None => Err (IndexError "Index out of range")
  end.

(** [ds[idx]] for a list [idx]: h5py requires increasing indices. *)
Definition ds_fancy_read (idx : list nat) (ds : dataset A) : res (list (list A)) :=
  if bool_decide (StronglySorted Nat.lt idx) then res_mapM (λ i, ds_get_row i ds) idx
  else Err (TypeError "Indexing elements must be in increasing order").

End Dataset.

(** ** Files *)

Record h5file := mk_h5file {
  h5_float : gmap string (dataset Z);
  h5_str : gmap string (dataset string)
}.

(** An empty file: what [!!!] returns for a path with no file. *)
#[export] Instance h5file_inhabited : Inhabited h5file := populate (mk_h5file ∅ ∅).

Definition float_fill : Z := 0%Z.
Definition str_fill : string := EmptyString.

(** [hf[key]] on a float / string table. *)
Definition get_float (key : string) : io h5file (dataset Z) :=
  λ f, (f, match h5_float f !! key with Some d => Ok d | None => Err (KeyError key) end).
Definition get_str (key : string) : io h5file (dataset string) :=
  λ f, (f, match h5_str f !! key with Some d => Ok d | None => Err (KeyError key) end).

Definition put_float (key : string) (d : dataset Z) : io h5file unit :=
  λ f, (mk_h5file (<[key := d]> (h5_float f)) (h5_str f), Ok ()).
Definition put_str (key : string) (d : dataset string) : io h5file unit :=
  λ f, (mk_h5file (h5_float f) (<[key := d]> (h5_str f)), Ok ()).

(** [hf[key].resize((n, d))] and [hf[key][r] = v], on the file. *)
Definition resize_float (key : string) (n : nat) (d : Z) : io h5file unit :=
  ds ← get_float key; ds' ← io_lift (ds_resize float_fill n d ds); put_float key ds'.
Definition resize_str (key : string) (n : nat) (d : Z) : io h5file unit :=
  ds ← get_str key; ds' ← io_lift (ds_resize str_fill n d ds); put_str key ds'.
Definition write_float (key : string) (r : nat) (v : list Z) : io h5file unit :=
  ds ← get_float key; ds' ← io_lift (ds_write_row r v ds); put_float key ds'.
Definition write_str (key : string) (r : nat) (x : string) : io h5file unit :=
  ds ← get_str key; ds' ← io_lift (ds_write_row r [x] ds); put_str key ds'.

(** ** [dump_to_h5] and [dump_wv_to_h5] *)

(** The shared body: assert the lengths agree, grow both tables to
    [cur_rows + len(names)] rows (the string table to the row count read
    from the float table), then write row after row. *)
Definition dump_pair (msg vkey skey : string) (dim : Z)
    (names : list string) (scores : list (list Z)) : io h5file unit :=
  if negb (length scores =? length names)%nat then io_raise (AssertionError msg)
  else
    x_h5 ← get_float vkey;
    _ ← get_str skey;
    let cur_rows := length (ds_rows x_h5) in
    let new_rows := cur_rows + length names in
    resize_float vkey new_rows dim;;
    resize_str skey new_rows 1;;
    io_for (seq 0 (length names)) (λ i,
      write_float vkey (cur_rows + i) (scores !!! i);;
      write_str skey (cur_rows + i) (names !!! i)).

(** [dump_to_h5(names, scores, hf)] (lines 128-145). *)
Definition dump_to_h5 (IMAGE_DIM : Z) (names : list string) (scores : list (list Z))
    : io h5file unit :=
  dump_pair "Number of output scores == number of file names to dump"
    "data/features" "data/fnames" IMAGE_DIM names scores.

(** [dump_wv_to_h5(words, vectors, hf)] (lines 147-161). *)
Definition dump_wv_to_h5 (WORD_DIM : Z) (words : list string) (vectors : list (list Z))
    : io h5file unit :=
  dump_pair "Number of words == number of vectors"
    "data/word_embeddings" "data/word_names" WORD_DIM words vectors.

(** [data.get(name) is None] then [create_dataset(name, (0, dim),
    maxshape=(None, dim))], else the existing table (lines 259-268). *)
Definition create_or_get_float (key : string) (dim : Z) : io h5file (dataset Z) :=
  λ f, match h5_float f !! key with
       | Some d => (f, Ok d)
       | None =>
           if (dim <? 0)%Z then (f, Err (ValueError "negative dimensions are not allowed"))
           else let d := mk_dataset [] (Z.to_nat dim) (Some (Z.to_nat dim)) in
                (mk_h5file (<[key := d]> (h5_float f)) (h5_str f), Ok d)
       end.
Definition create_or_get_str (key : string) (dim : Z) : io h5file (dataset string) :=
  λ f, match h5_str f !! key with
       | Some d => (f, Ok d)
       | None =>
           if (dim <? 0)%Z then (f, Err (ValueError "negative dimensions are not allowed"))
           else let d := mk_dataset [] (Z.to_nat dim) (Some (Z.to_nat dim)) in
                (mk_h5file (h5_float f) (<[key := d]> (h5_str f)), Ok d)
       end.

(** Reading a table of a file opened read-only ([F["data/features"]]). *)
Definition read_float (f : h5file) (key : string) : res (dataset Z) := (get_float key f).2.
Definition read_str (f : h5file) (key : string) : res (dataset string) := (get_str key f).2.

(** [map(lambda a: a[0], ds[:])]: the first cell of every row. *)
Definition first_cell (r : list string) : res string :=
  match r with x :: _ => Ok x | [] => Err (IndexError "index 0 is out of bounds") end.
Definition read_first_column (ds : dataset string) : res (list string) :=
  res_mapM first_cell (ds_rows ds).

(** ** Well-formed tables *)

(** Every row has the table's width, and the width respects [maxshape]. *)
Definition ds_wf {A} (ds : dataset A) : Prop :=
  Forall (λ r, length r = ds_cols ds) (ds_rows ds) ∧
  match ds_maxcols ds with Some mc => ds_cols ds ≤ mc | None => True end.

(** The store invariant of the spec: both tables exist, are well formed,
    the float table is [dim] wide, the name table one wide, and they have
    as many rows ([len(vectors) == len(source_ids)]). *)
Definition store_wf (vkey skey : string) (dim : nat) (f : h5file) : Prop :=
  ∃ X F, h5_float f !! vkey = Some X ∧ h5_str f !! skey = Some F ∧
    ds_wf X ∧ ds_wf F ∧ ds_cols X = dim ∧ ds_cols F = 1 ∧
    length (ds_rows X) = length (ds_rows F).

(** The table after [i] of the [k] new rows have been written. *)
Definition partly_written {A} (old new : list (list A)) (z : list A) (i : nat) : list (list A) :=
  old ++ take i new ++ replicate (length new - i) z.

(** The number of rows of the float table. *)
Definition store_size (vkey : string) (f : h5file) : nat :=
  match h5_float f !! vkey with Some X => length (ds_rows X) | None => 0 end.

(** The specification of an append (spec 4.1): the file with [scores]
    added at the tail of the float table [vkey] and [names] at the tail of
    the name table [skey], every other table and row unchanged. *)
Definition appended (vkey skey : string) (names : list string) (scores : list (list Z))
    (f : h5file) : h5file :=
  mk_h5file (alter (λ X, mk_dataset (ds_rows X ++ scores) (ds_cols X) (ds_maxcols X)) vkey (h5_float f))
            (alter (λ F, mk_dataset (ds_rows F ++ ((λ x, [x]) <$> names)) (ds_cols F) (ds_maxcols F))
                   skey (h5_str f)).

(** The file after [main]'s two [create_or_get] calls (lines 259-268). *)
Definition with_tables (dim : nat) (f : h5file) : h5file :=
  (create_or_get_str "data/fnames" 1 (create_or_get_float "data/features" (Z.of_nat dim) f).1).1.

(** A file [main] can append to: both tables present and well formed, or
    both absent (they are then created empty). *)
Definition store_ready (dim : nat) (f : h5file) : Prop :=
  store_wf "data/features" "data/fnames" dim f ∨
  (h5_float f !! "data/features" = None ∧ h5_str f !! "data/fnames" = None).

(** The names the store holds, as line 296 reads them. *)
Definition stored_names (f : h5file) : res (list string) :=
  match h5_str f !! "data/fnames" with Some F => read_first_column F | None => Ok [] end.

(** A batch [(names, scores)] fits a table of width [dim]. *)
Definition batch_ok (dim : nat) (b : list string * list (list Z)) : Prop :=
  length b.2 = length b.1 ∧ Forall (λ v, length v = dim) b.2.

(** A sequence of [dump_to_h5] calls on one file, as the extraction loop
    makes them (one per chunk, lines 272-293). *)
Definition dump_batches (IMAGE_DIM : Z) (batches : list (list string * list (list Z)))
    : io h5file unit :=
  io_for batches (λ b, dump_to_h5 IMAGE_DIM b.1 b.2).

Section DatasetLemmas.
Context {A : Type} (fill : A).

Lemma fit_row_id d (r : list A) : length r = d → fit_row fill d r = r.
Proof. intros <-. unfold fit_row. rewrite take_ge by lia. by rewrite Nat.sub_diag, app_nil_r. Qed.

Lemma fit_rows_id d (rows : list (list A)) :
  Forall (λ r, length r = d) rows → fit_row fill d <$> rows = rows.
Proof.
  induction 1 as [|r rows Hr _ IH]; [done|]. by rewrite fmap_cons, fit_row_id, IH.
Qed.

(** Growing a well-formed table keeps its rows and appends filled rows. *)
Lemma ds_resize_grow (ds : dataset A) k :
  ds_wf ds →
  ds_resize fill (length (ds_rows ds) + k) (Z.of_nat (ds_cols ds)) ds =
  Ok (mk_dataset (ds_rows ds ++ replicate k (replicate (ds_cols ds) fill))
                 (ds_cols ds) (ds_maxcols ds)).
Proof.
  intros [Hrows Hmax]. unfold ds_resize.
  destruct (Z.ltb_spec (Z.of_nat (ds_cols ds)) 0); [lia|].
  rewrite Nat2Z.id.
  assert (Hfit : fit_row fill (ds_cols ds) <$>
            (take (length (ds_rows ds) + k) (ds_rows ds) ++
             replicate (length (ds_rows ds) + k - length (ds_rows ds)) []) =
          ds_rows ds ++ replicate k (replicate (ds_cols ds) fill)).
  { rewrite take_ge; [|lia].
    replace (length (ds_rows ds) + k - length (ds_rows ds)) with k by lia.
    rewrite fmap_app, fmap_replicate, fit_rows_id by done.
    unfold fit_row. by rewrite take_nil, Nat.sub_0_r. }
  rewrite Hfit.
  destruct (ds_maxcols ds) as [mc|]; [|done].
  by destruct (Nat.ltb_spec mc (ds_cols ds)); [lia|].
Qed.

Lemma ds_write_row_ok (r : nat) (v : list A) (ds : dataset A) :
  r < length (ds_rows ds) → length v = ds_cols ds →
  ds_write_row r v ds = Ok (mk_dataset (<[r := v]> (ds_rows ds)) (ds_cols ds) (ds_maxcols ds)).
Proof.
  intros Hr Hv. unfold ds_write_row, broadcast_row.
  destruct (Nat.leb_spec (length (ds_rows ds)) r); [lia|].
  by rewrite (proj2 (Nat.eqb_eq _ _) Hv).
Qed.

Lemma partly_written_step (old new : list (list A)) z i :
  i < length new →
  <[length old + i := new !!! i]> (partly_written old new z i) =
  partly_written old new z (S i).
Proof.
  intros Hi. unfold partly_written.
  rewrite insert_app_r. replace (length new - i) with (S (length new - S i)) by lia.
  simpl. rewrite insert_app_r_alt; rewrite length_take; [|lia].
  replace (i - i `min` length new) with 0 by lia. simpl.
  rewrite (take_S_r _ _ (new !!! i)); [|by apply list_lookup_lookup_total_lt].
  by rewrite <-app_assoc.
Qed.

Lemma partly_written_start (old new : list (list A)) z :
  partly_written old new z 0 = old ++ replicate (length new) z.
Proof. unfold partly_written. by rewrite Nat.sub_0_r. Qed.

Lemma partly_written_end (old new : list (list A)) z :
  partly_written old new z (length new) = old ++ new.
Proof. unfold partly_written. by rewrite take_ge, Nat.sub_diag, app_nil_r. Qed.

Lemma length_partly_written (old new : list (list A)) z i :
  i ≤ length new → length (partly_written old new z i) = length old + length new.
Proof. intros. unfold partly_written. rewrite !length_app, length_take, length_replicate. lia. Qed.

Lemma partly_written_wf (old new : list (list A)) d i :
  Forall (λ r, length r = d) old → Forall (λ r, length r = d) new →
  Forall (λ r, length r = d) (partly_written old new (replicate d fill) i).
Proof.
  intros Ho Hn. unfold partly_written. apply Forall_app. split; [done|].
  apply Forall_app. split; [by apply Forall_take|].
  apply Forall_replicate. apply length_replicate.
Qed.

End DatasetLemmas.

(** ** The file-level operations on a present table *)

Lemma write_float_step key r v rows c mc f :
  h5_float f !! key = Some (mk_dataset rows c mc) → r < length rows → length v = c →
  write_float key r v f =
    (mk_h5file (<[key := mk_dataset (<[r := v]> rows) c mc]> (h5_float f)) (h5_str f), Ok ()).
Proof.
  intros Hk Hr Hv. unfold write_float. rewrite !io_bind_run. unfold get_float at 1.
  rewrite Hk. simpl. by rewrite (ds_write_row_ok r v (mk_dataset rows c mc)).
Qed.

Lemma write_str_step key r x rows mc f :
  h5_str f !! key = Some (mk_dataset rows 1 mc) → r < length rows →
  write_str key r x f =
    (mk_h5file (h5_float f) (<[key := mk_dataset (<[r := [x]]> rows) 1 mc]> (h5_str f)), Ok ()).
Proof.
  intros Hk Hr. unfold write_str. rewrite !io_bind_run. unfold get_str at 1.
  rewrite Hk. simpl. by rewrite (ds_write_row_ok r [x] (mk_dataset rows 1 mc)).
Qed.

Lemma resize_float_step key X k f :
  h5_float f !! key = Some X → ds_wf X →
  resize_float key (length (ds_rows X) + k) (Z.of_nat (ds_cols X)) f =
    (mk_h5file (<[key := mk_dataset (ds_rows X ++ replicate k (replicate (ds_cols X) float_fill))
                                   (ds_cols X) (ds_maxcols X)]> (h5_float f)) (h5_str f), Ok ()).
Proof.
  intros Hk Hwf. unfold resize_float. rewrite !io_bind_run. unfold get_float at 1.
  rewrite Hk. simpl. by rewrite ds_resize_grow.
Qed.

Lemma resize_str_step key F k f :
  h5_str f !! key = Some F → ds_wf F → ds_cols F = 1 →
  resize_str key (length (ds_rows F) + k) 1 f =
    (mk_h5file (h5_float f) (<[key := mk_dataset (ds_rows F ++ replicate k [str_fill])
                                   1 (ds_maxcols F)]> (h5_str f)), Ok ()).
Proof.
  intros Hk Hwf H1. unfold resize_str. rewrite !io_bind_run. unfold get_str at 1.
  rewrite Hk. simpl. pose proof (ds_resize_grow str_fill F k Hwf) as Hr.
  rewrite H1 in Hr. change (Z.of_nat 1) with 1%Z in Hr. by rewrite Hr.
Qed.

Lemma singleton_rows_lookup (names : list string) i :
  i < length names → ((λ x, [x]) <$> names) !!! i = [names !!! i].
Proof.
  intros Hi. apply list_lookup_total_correct. rewrite list_lookup_fmap.
  by rewrite (list_lookup_lookup_total_lt names i Hi).
Qed.

(** ** Appending *)

(** The run of [dump_pair] on a well-formed store: the resizes, then the write loop by the invariant [partly_written]. *)
Lemma dump_pair_run msg vkey skey dim names scores f :
  store_wf vkey skey dim f →
  length scores = length names →
  Forall (λ v, length v = dim) scores →
  ∃ X F, h5_float f !! vkey = Some X ∧ h5_str f !! skey = Some F ∧
    dump_pair msg vkey skey (Z.of_nat dim) names scores f =
    (mk_h5file (<[vkey := mk_dataset (ds_rows X ++ scores) dim (ds_maxcols X)]> (h5_float f))
               (<[skey := mk_dataset (ds_rows F ++ ((λ x, [x]) <$> names)) 1 (ds_maxcols F)]>
                  (h5_str f)), Ok ()).
Proof.
  intros (X & F & HX & HF & HwX & HwF & HcX & HcF & Hlen) Hk Hdim.
  exists X, F. split; [done|]. split; [done|].
  unfold dump_pair. rewrite (proj2 (Nat.eqb_eq _ _) Hk). simpl.
  rewrite io_bind_run. unfold get_float at 1. rewrite HX. simpl.
  rewrite io_bind_run. unfold get_str at 1. rewrite HF. simpl.
  rewrite io_bind_run, <-HcX, resize_float_step by done. simpl.
  rewrite io_bind_run, Hlen, resize_str_step by done. simpl.
  set (P := λ i s, s = mk_h5file
     (<[vkey := mk_dataset (partly_written (ds_rows X) scores (replicate (ds_cols X) float_fill) i)
                 (ds_cols X) (ds_maxcols X)]> (h5_float f))
     (<[skey := mk_dataset (partly_written (ds_rows F) ((λ x, [x]) <$> names) [str_fill] i)
                 1 (ds_maxcols F)]> (h5_str f))).
  match goal with |- io_for (seq 0 _) ?body ?s0 = _ =>
    assert (Hbody : ∀ i s, i < length names → P i s →
                    ∃ s', body i s = (s', Ok ()) ∧ P (S i) s');
    [|destruct (io_for_seq_inv P body (length names) Hbody (length names) 0 s0)
        as (s' & Hrun & Hs'); [lia| |rewrite Hrun, Hs']]
  end.
  - intros i s Hi ->. rewrite io_bind_run.
    erewrite write_float_step; [|simpl; by rewrite lookup_insert_eq|..].
    2:{ rewrite length_partly_written; lia. }
    2:{ rewrite HcX. by apply Forall_lookup_total_1; [|lia]. }
    simpl. erewrite write_str_step; [|simpl; by rewrite lookup_insert_eq|].
    2:{ rewrite length_partly_written; rewrite ?length_fmap; lia. }
    assert (HX' : <[length (ds_rows F) + i := scores !!! i]>
              (partly_written (ds_rows X) scores (replicate (ds_cols X) float_fill) i) =
            partly_written (ds_rows X) scores (replicate (ds_cols X) float_fill) (S i)).
    { rewrite <-Hlen. apply partly_written_step. lia. }
    assert (HF' : <[length (ds_rows F) + i := [names !!! i]]>
              (partly_written (ds_rows F) ((λ x, [x]) <$> names) [str_fill] i) =
            partly_written (ds_rows F) ((λ x, [x]) <$> names) [str_fill] (S i)).
    { rewrite <-(singleton_rows_lookup names i) by lia.
      apply partly_written_step. rewrite length_fmap. lia. }
    eexists. split; [reflexivity|]. unfold P. simpl.
    by rewrite !insert_insert_eq, HX', HF'.
  - unfold P. rewrite !partly_written_start, length_fmap, Hk. done.
  - rewrite <-Hk at 1. rewrite partly_written_end.
    rewrite <-(length_fmap (λ x, [x]) names), partly_written_end, HcX. done.
Qed.

(** C8: on a well-formed store, appending [k] names with [k] vectors of the
    table's width succeeds; the float table becomes its old rows followed
    by the vectors and the name table its old rows followed by the names,
    in order (existing row ids keep their data); nothing else changes. *)
Theorem dump_pair_append msg vkey skey dim names scores f :
  store_wf vkey skey dim f →
  length scores = length names →
  Forall (λ v, length v = dim) scores →
  ∃ X F, h5_float f !! vkey = Some X ∧ h5_str f !! skey = Some F ∧
    dump_pair msg vkey skey (Z.of_nat dim) names scores f =
    (mk_h5file (<[vkey := mk_dataset (ds_rows X ++ scores) dim (ds_maxcols X)]> (h5_float f))
               (<[skey := mk_dataset (ds_rows F ++ ((λ x, [x]) <$> names)) 1 (ds_maxcols F)]>
                  (h5_str f)), Ok ()).
Proof. apply dump_pair_run. Qed.

Lemma dump_pair_append_witness :
  let f := mk_h5file {["data/features" := mk_dataset [[1; 2]]%Z 2 (Some 2)]}
                     {["data/fnames" := mk_dataset [["r/a/0.jpg"]] 1 (Some 1)]} in
  ∃ X F, h5_float f !! "data/features" = Some X ∧ h5_str f !! "data/fnames" = Some F ∧
    dump_pair "m" "data/features" "data/fnames" (Z.of_nat 2) ["r/b/1.jpg"] [[3; 4]]%Z f =
    (mk_h5file (<["data/features" := mk_dataset (ds_rows X ++ [[3; 4]]%Z) 2 (ds_maxcols X)]>
                  (h5_float f))
               (<["data/fnames" := mk_dataset (ds_rows F ++ ((λ x, [x]) <$> ["r/b/1.jpg"]))
                                   1 (ds_maxcols F)]> (h5_str f)), Ok ()).
Proof.
  intros f. apply dump_pair_append; [|done|repeat constructor].
  eexists _, _. split; [reflexivity|]. split; [reflexivity|].
  repeat split; simpl; try lia; repeat constructor.
Defined.

(** ** The append specification *)

Lemma dump_pair_appended msg vkey skey dim names scores f :
  store_wf vkey skey dim f → length scores = length names →
  Forall (λ v, length v = dim) scores →
  dump_pair msg vkey skey (Z.of_nat dim) names scores f = (appended vkey skey names scores f, Ok ()).
Proof.
  intros Hwf Hk Hdim. pose proof Hwf as (X0 & F0 & HX0 & HF0 & _ & _ & HcX & HcF & _).
  destruct (dump_pair_run msg vkey skey dim names scores f Hwf Hk Hdim) as (X & F & HX & HF & ->).
  rewrite HX in HX0. rewrite HF in HF0. injection HX0 as <-. injection HF0 as <-.
  unfold appended. rewrite (alter_some_insert _ _ _ _ HX), (alter_some_insert _ _ _ _ HF).
  by rewrite HcX, HcF.
Qed.

Lemma appended_wf vkey skey dim names scores f :
  store_wf vkey skey dim f → length scores = length names →
  Forall (λ v, length v = dim) scores →
  store_wf vkey skey dim (appended vkey skey names scores f).
Proof.
  intros (X & F & HX & HF & [HrX HmX] & [HrF HmF] & HcX & HcF & Hlen) Hk Hdim.
  eexists _, _. unfold appended. simpl. rewrite !lookup_alter_eq, HX, HF.
  split; [done|]. split; [done|]. simpl. split_and!; try done.
  - split; [|done]. apply Forall_app. split; [done|]. by rewrite HcX.
  - split; [|done]. apply Forall_app. split; [done|]. rewrite HcF.
    apply Forall_fmap, Forall_true. done.
  - rewrite !length_app, length_fmap. lia.
Qed.

Lemma appended_app vkey skey names1 scores1 names2 scores2 f :
  appended vkey skey names2 scores2 (appended vkey skey names1 scores1 f) =
  appended vkey skey (names1 ++ names2) (scores1 ++ scores2) f.
Proof.
  unfold appended. simpl. rewrite !alter_alter_eq. f_equal; apply alter_ext; intros ? _;
    simpl; by rewrite ?fmap_app, <-app_assoc.
Qed.

Lemma appended_nil vkey skey f : appended vkey skey [] [] f = f.
Proof.
  destruct f as [fl st]. unfold appended. simpl.
  f_equal; apply alter_id; intros [] _; simpl; by rewrite app_nil_r.
Qed.

Lemma store_size_appended vkey skey names scores f :
  store_size vkey (appended vkey skey names scores f) =
  match h5_float f !! vkey with Some _ => store_size vkey f + length scores | None => 0 end.
Proof.
  unfold store_size, appended. simpl. rewrite lookup_alter_eq.
  destruct (h5_float f !! vkey); simpl; [by rewrite length_app|done].
Qed.

Lemma get_str_appended vkey skey names scores f F :
  h5_str f !! skey = Some F →
  get_str skey (appended vkey skey names scores f) =
    (appended vkey skey names scores f,
     Ok (mk_dataset (ds_rows F ++ ((λ x, [x]) <$> names)) (ds_cols F) (ds_maxcols F))).
Proof. intros HF. unfold get_str at 1. simpl. by rewrite lookup_alter_eq, HF. Qed.

Lemma get_float_appended vkey skey names scores f X :
  h5_float f !! vkey = Some X →
  get_float vkey (appended vkey skey names scores f) =
    (appended vkey skey names scores f,
     Ok (mk_dataset (ds_rows X ++ scores) (ds_cols X) (ds_maxcols X))).
Proof. intros HX. unfold get_float at 1. simpl. by rewrite lookup_alter_eq, HX. Qed.

Lemma foldl_appended {B} vkey skey (nm : B → list string) (sc : B → list (list Z)) (bs : list B) f :
  foldl (λ f b, appended vkey skey (nm b) (sc b) f) f bs =
  appended vkey skey (concat (nm <$> bs)) (concat (sc <$> bs)) f.
Proof.
  revert f. induction bs as [|b bs IH]; intros f; simpl; [by rewrite appended_nil|].
  by rewrite IH, appended_app.
Qed.

(** ** Creating the tables *)

Lemma create_or_get_float_ok key (dim : Z) f :
  (0 ≤ dim)%Z →
  ∃ d, create_or_get_float key dim f = ((create_or_get_float key dim f).1, Ok d).
Proof.
  intros Hd. unfold create_or_get_float. destruct (h5_float f !! key); [by eexists|].
  destruct (Z.ltb_spec dim 0); [lia|]. by eexists.
Qed.

Lemma create_or_get_str_ok key (dim : Z) f :
  (0 ≤ dim)%Z →
  ∃ d, create_or_get_str key dim f = ((create_or_get_str key dim f).1, Ok d).
Proof.
  intros Hd. unfold create_or_get_str. destruct (h5_str f !! key); [by eexists|].
  destruct (Z.ltb_spec dim 0); [lia|]. by eexists.
Qed.

Lemma with_tables_wf dim f :
  store_ready dim f → store_wf "data/features" "data/fnames" dim (with_tables dim f).
Proof.
  intros [(X & F & HX & HF & Hw)|[HX HF]]; unfold with_tables, create_or_get_float, create_or_get_str.
  - rewrite HX. simpl. rewrite HF. exists X, F. tauto.
  - rewrite HX. destruct (Z.ltb_spec (Z.of_nat dim) 0); [lia|]. simpl. rewrite HF. simpl.
    unfold store_wf. simpl. rewrite !lookup_insert_eq, Nat2Z.id.
    eexists _, _. split_and!; try done; simpl; try lia; split; try constructor; simpl; lia.
Qed.

Lemma stored_names_with_tables dim f names :
  store_ready dim f → stored_names f = Ok names → stored_names (with_tables dim f) = Ok names.
Proof.
  intros [(X & F & HX & HF & Hw)|[HX HF]]; unfold with_tables, create_or_get_float, create_or_get_str.
  - rewrite HX. simpl. by rewrite HF.
  - rewrite HX. destruct (Z.ltb_spec (Z.of_nat dim) 0); [lia|]. simpl. rewrite HF.
    unfold stored_names. rewrite HF. simpl. rewrite lookup_insert_eq. by intros [= <-].
Qed.

Lemma read_first_column_app (F : dataset string) names new c mc :
  read_first_column F = Ok names →
  read_first_column (mk_dataset (ds_rows F ++ ((λ x, [x]) <$> new)) c mc) = Ok (names ++ new).
Proof.
  unfold read_first_column. intros Hr. cbn [ds_rows]. rewrite res_mapM_app, Hr. simpl.
  assert (Hn : res_mapM first_cell ((λ x, [x]) <$> new) = Ok new).
  { induction new as [|x new IH]; [done|]. rewrite fmap_cons. simpl. by rewrite IH. }
  by rewrite Hn.
Qed.

(** C7: the append invariant of the spec, for any sequence of appends:
    on a well-formed store, calling [dump_to_h5] on batches that each have
    as many vectors as names, of the table's width, succeeds, keeps the
    store well formed, and leaves the tables as their old rows followed by
    every batch's vectors and names in call order; the size grows by the
    total number of rows. *)
Theorem dump_batches_append dim bs f :
  store_wf "data/features" "data/fnames" dim f → Forall (batch_ok dim) bs →
  dump_batches (Z.of_nat dim) bs f =
    (appended "data/features" "data/fnames" (concat (fst <$> bs)) (concat (snd <$> bs)) f, Ok ()) ∧
  store_wf "data/features" "data/fnames" dim
    (appended "data/features" "data/fnames" (concat (fst <$> bs)) (concat (snd <$> bs)) f) ∧
  store_size "data/features"
    (appended "data/features" "data/fnames" (concat (fst <$> bs)) (concat (snd <$> bs)) f) =
  store_size "data/features" f + sum_list (length <$> (fst <$> bs)).
Proof.
  intros Hwf Hbs. rewrite <-foldl_appended. unfold dump_batches.
  destruct (io_for_fold (store_wf "data/features" "data/fnames" dim)
              (λ f b, appended "data/features" "data/fnames" b.1 b.2 f)
              (λ b, dump_to_h5 (Z.of_nat dim) b.1 b.2) bs) with (s := f) as [-> Hwf'];
    [|done|].
  { intros b s Hb Hs. rewrite Forall_forall in Hbs. destruct (Hbs b Hb) as [Hk Hd].
    split; [by apply dump_pair_appended|by apply appended_wf]. }
  split; [done|]. split; [done|]. rewrite foldl_appended, store_size_appended.
  pose proof Hwf as (X0 & _ & HX0 & _). rewrite HX0. f_equal.
  clear -Hbs. induction Hbs as [|[ns vs] bs [Hk _] _ IH]; [done|].
  simpl in Hk. rewrite !fmap_cons. cbn [concat sum_list fst snd]. rewrite length_app, IH. unfold id. lia.
Qed.

Lemma dump_batches_append_witness :
  let f := mk_h5file {["data/features" := mk_dataset [[1; 2]]%Z 2 (Some 2)]}
                     {["data/fnames" := mk_dataset [["r/a/0.jpg"]] 1 (Some 1)]} in
  let bs := [(["r/a/1.jpg"; "r/b/2.jpg"], [[3; 4]; [5; 6]]%Z); (["r/c/3.jpg"], [[7; 8]]%Z)] in
  store_wf "data/features" "data/fnames" 2 f ∧ Forall (batch_ok 2) bs ∧
  (dump_batches (Z.of_nat 2) bs f =
    (appended "data/features" "data/fnames" (concat (fst <$> bs)) (concat (snd <$> bs)) f, Ok ()) ∧
  store_wf "data/features" "data/fnames" 2
    (appended "data/features" "data/fnames" (concat (fst <$> bs)) (concat (snd <$> bs)) f) ∧
  store_size "data/features"
    (appended "data/features" "data/fnames" (concat (fst <$> bs)) (concat (snd <$> bs)) f) =
  store_size "data/features" f + sum_list (length <$> (fst <$> bs))).
Proof.
  intros f bs.
  assert (Hwf : store_wf "data/features" "data/fnames" 2 f).
  { eexists _, _. split; [reflexivity|]. split; [reflexivity|].
    repeat split; simpl; try lia; repeat constructor. }
  assert (Hbs : Forall (batch_ok 2) bs) by (repeat constructor).
  split; [done|]. split; [done|]. apply dump_batches_append; done.
Defined.

(** C10: names and vectors of different counts fail the [assert] before
    anything is read or written. *)
Theorem dump_pair_count_mismatch msg vkey skey dim names scores f :
  length scores ≠ length names →
  dump_pair msg vkey skey dim names scores f = (f, Err (AssertionError msg)).
Proof.
  intros Hne. unfold dump_pair.
  by destruct (Nat.eqb_spec (length scores) (length names)).
Qed.

Lemma dump_pair_count_mismatch_witness :
  length [[1; 2]]%Z ≠ length ([] : list string) ∧
  dump_pair "m" "data/features" "data/fnames" 2 [] [[1; 2]]%Z (mk_h5file ∅ ∅) =
    (mk_h5file ∅ ∅, Err (AssertionError "m")).
Proof. split; [simpl; lia|]. apply dump_pair_count_mismatch. simpl. lia. Defined.

Lemma write_float_badrow key r v rows c mc f :
  h5_float f !! key = Some (mk_dataset rows c mc) → r < length rows →
  length v ≠ c → length v ≠ 1 →
  write_float key r v f = (f, Err (TypeError "Can't broadcast")).
Proof.
  intros Hk Hr Hv Hv1. unfold write_float. rewrite !io_bind_run. unfold get_float at 1.
  rewrite Hk. simpl. unfold ds_write_row, broadcast_row. simpl.
  destruct (Nat.leb_spec (length rows) r); [lia|].
  destruct (Nat.eqb_spec (length v) c); [lia|].
  destruct v as [|x [|y v]]; [done| simpl in Hv1; lia|done].
Qed.

(** C11: a first vector whose width is neither the table's nor 1 makes
    the first row write raise [TypeError] after both tables were resized:
    the exception leaves [k] rows of zeros in the float table and [k]
    empty names in the name table.  The spec says a shape mismatch is
    rejected before any store mutation; that holds for the count check
    only. *)
Theorem dump_pair_bad_width msg vkey skey dim names scores f v :
  store_wf vkey skey dim f →
  length scores = length names →
  scores !! 0 = Some v → length v ≠ dim → length v ≠ 1 →
  ∃ X F, h5_float f !! vkey = Some X ∧ h5_str f !! skey = Some F ∧
    dump_pair msg vkey skey (Z.of_nat dim) names scores f =
    (mk_h5file (<[vkey := mk_dataset (ds_rows X ++ replicate (length names)
                                        (replicate dim float_fill)) dim (ds_maxcols X)]>
                  (h5_float f))
               (<[skey := mk_dataset (ds_rows F ++ replicate (length names) [str_fill])
                             1 (ds_maxcols F)]> (h5_str f)),
     Err (TypeError "Can't broadcast")).
Proof.
  intros (X & F & HX & HF & HwX & HwF & HcX & HcF & Hlen) Hk Hv Hvd Hv1.
  exists X, F. split; [done|]. split; [done|].
  destruct names as [|nm names]; [by destruct scores|].
  unfold dump_pair. rewrite (proj2 (Nat.eqb_eq _ _) Hk). simpl.
  rewrite io_bind_run. unfold get_float at 1. rewrite HX. simpl.
  rewrite io_bind_run. unfold get_str at 1. rewrite HF. simpl.
  rewrite io_bind_run, <-HcX, resize_float_step by done. simpl.
  rewrite io_bind_run, Hlen, resize_str_step by done. simpl.
  rewrite !io_bind_run, Nat.add_0_r.
  rewrite (list_lookup_total_correct _ _ _ Hv).
  erewrite write_float_badrow; [done|simpl; by rewrite lookup_insert_eq|..].
  - rewrite length_app. simpl. lia.
  - by rewrite HcX.
  - done.
Qed.

Lemma dump_pair_bad_width_witness :
  let f := mk_h5file {["data/features" := mk_dataset [] 2 (Some 2)]}
                     {["data/fnames" := mk_dataset [] 1 (Some 1)]} in
  store_wf "data/features" "data/fnames" 2 f ∧
  ∃ X F, h5_float f !! "data/features" = Some X ∧ h5_str f !! "data/fnames" = Some F ∧
    dump_pair "m" "data/features" "data/fnames" (Z.of_nat 2) ["r/a/1.jpg"] [[7; 7; 7]]%Z f =
    (mk_h5file (<["data/features" := mk_dataset (ds_rows X ++ replicate 1
                                        (replicate 2 float_fill)) 2 (ds_maxcols X)]>
                  (h5_float f))
               (<["data/fnames" := mk_dataset (ds_rows F ++ replicate 1 [str_fill])
                             1 (ds_maxcols F)]> (h5_str f)),
     Err (TypeError "Can't broadcast")).
Proof.
  intros f. assert (Hwf : store_wf "data/features" "data/fnames" 2 f).
  { eexists _, _. split; [reflexivity|]. split; [reflexivity|].
    repeat split; simpl; try lia; constructor. }
  split; [done|].
  apply (dump_pair_bad_width "m" "data/features" "data/fnames" 2 ["r/a/1.jpg"] [[7; 7; 7]]%Z
           f [7; 7; 7]%Z Hwf); simpl; done || lia.
Defined.

End FeatureStore.
