(* ===== verification/ClassIndex.v ===== *)
(** * Class Index Builder: [get_class_ranges] (extract_features_and_dump.py)

    A file name's class is the second-to-last component of its path
    ([fname.split("/")[-2]]).  [get_class_ranges] scans the file names
    left to right and records, per class, the index where the class was
    first seen and the index where it was last seen.  The abstract
    specification [is_range] says that [(s, e)] are the first and the last
    index of the class; [get_class_ranges_spec] proves that the scan meets
    it for every input, contiguous or not. *)

From S2P Require Import Prelude PyBuiltins.

Module ClassIndex.

(** [fname.split("/")[-2]] (lines 62, 102, 105 and 114). *)
Definition class_name (fname : string) : res string :=
  py_getitem (py_split "/" fname) (-2).

(** The body of the [for idx, fname in enumerate(fnames)] loop once the
    class name is known (lines 63-66): a new class gets [[idx, idx]], a
    known class has its end moved to [idx]. *)
Definition update_range (idx : nat) (c : string) (acc : gmap string (nat * nat))
    : gmap string (nat * nat) :=
  match acc !! c with
  | None => <[c := (idx, idx)]> acc
  | Some (s, _) => <[c := (s, idx)]> acc
  end.

(** The loop of [get_class_ranges] (lines 61-66). *)
Fixpoint get_class_ranges_loop (idx : nat) (fnames : list string)
    (acc : gmap string (nat * nat)) : res (gmap string (nat * nat)) :=
  match fnames with
  | [] => Ok acc
  | fname :: rest =>
      c ← class_name fname;
      get_class_ranges_loop (S idx) rest (update_range idx c acc)
  end.

(** [get_class_ranges(fnames)] (lines 58-68). *)
Definition get_class_ranges (fnames : list string) : res (gmap string (nat * nat)) :=
  get_class_ranges_loop 0 fnames ∅.

(** ** Abstract specification *)

(** The class of every file name, or the first [IndexError]. *)
Definition class_labels (fnames : list string) : res (list string) :=
  res_mapM class_name fnames.

(** [(s, e)] is the range of class [c] in the label sequence [cs]: [s] is
    its first index and [e] its last. *)
Definition is_range (cs : list string) (c : string) (s e : nat) : Prop :=
  cs !! s = Some c ∧ cs !! e = Some c ∧ ∀ j, cs !! j = Some c → s ≤ j ≤ e.


(** The scan on labels, once every class name has been computed. *)
Fixpoint ranges_of_labels (idx : nat) (cs : list string) (acc : gmap string (nat * nat))
    : gmap string (nat * nat) :=
  match cs with
  | [] => acc
  | c :: cs' => ranges_of_labels (S idx) cs' (update_range idx c acc)
  end.


(** The invariant of the scan: every class seen so far maps to its range,
    every other class is absent. *)
Definition ranges_inv (cs : list string) (m : gmap string (nat * nat)) : Prop :=
  ∀ c, match m !! c with
       | None => c ∉ cs
       | Some (s, e) => is_range cs c s e
       end.

(** ** The loop factors through the labels *)

Lemma get_class_ranges_loop_labels idx fnames acc :
  get_class_ranges_loop idx fnames acc =
  (λ cs, ranges_of_labels idx cs acc) <$> class_labels fnames.
Proof.
  revert idx acc. induction fnames as [|f fs IH]; intros idx acc; [reflexivity|].
  unfold class_labels in *. simpl. destruct (class_name f); simpl; [|done].
  rewrite IH. by destruct (res_mapM class_name fs).
Qed.

Lemma ranges_of_labels_snoc idx cs c acc :
  ranges_of_labels idx (cs ++ [c]) acc =
  update_range (idx + length cs) c (ranges_of_labels idx cs acc).
Proof.
  revert idx acc. induction cs as [|c' cs IH]; intros idx acc; simpl.
  - by rewrite Nat.add_0_r.
  - rewrite IH. f_equal. lia.
Qed.

(** ** Contiguity is decidable *)


(** ** Lemmas on [is_range] *)

Lemma is_range_unique cs c s e s' e' :
  is_range cs c s e → is_range cs c s' e' → s = s' ∧ e = e'.
Proof.
  intros (Hs & He & H) (Hs' & He' & H').
  apply H in Hs', He'. apply H' in Hs, He. lia.
Qed.

Lemma is_range_elem_of cs c s e : is_range cs c s e → c ∈ cs.
Proof. intros (Hs & _). by eapply list_elem_of_lookup_2. Qed.

Lemma lookup_snoc_cases {A} (l : list A) x j y :
  (l ++ [x]) !! j = Some y ↔ l !! j = Some y ∨ (j = length l ∧ y = x).
Proof.
  rewrite lookup_app_Some. split.
  - intros [H|[Hj H]]; [by left|right].
    apply list_lookup_singleton_Some in H as [? ->]. split; [lia|done].
  - intros [H|[-> ->]]; [by left|right].
    rewrite Nat.sub_diag. done.
Qed.

Lemma is_range_snoc_ne cs c c' s e :
  c ≠ c' → is_range (cs ++ [c']) c s e ↔ is_range cs c s e.
Proof.
  intros Hne. unfold is_range. rewrite !lookup_snoc_cases.
  split.
  - intros ([Hs|[_ Hs]] & [He|[_ He]] & Hall); try congruence.
    do 2 (split; [done|]). intros j Hj. apply Hall. rewrite lookup_snoc_cases. by left.
  - intros (Hs & He & Hall). do 2 (split; [by left|]).
    intros j [Hj|[_ Hj]]%lookup_snoc_cases; [auto|congruence].
Qed.

Lemma is_range_snoc_new cs c s e :
  c ∉ cs → is_range (cs ++ [c]) c s e ↔ s = length cs ∧ e = length cs.
Proof.
  intros Hc. unfold is_range. rewrite !lookup_snoc_cases.
  assert (Hn : ∀ j, cs !! j ≠ Some c) by (intros j Hj; apply Hc; by eapply list_elem_of_lookup_2).
  split.
  - intros ([Hs|[-> _]] & [He|[-> _]] & _); try (exfalso; eapply Hn; eassumption); done.
  - intros [-> ->]. do 2 (split; [by right|]).
    intros j [Hj|[-> _]]%lookup_snoc_cases; [by apply Hn in Hj|lia].
Qed.

Lemma is_range_snoc_old cs c s0 e0 s e :
  is_range cs c s0 e0 →
  is_range (cs ++ [c]) c s e ↔ s = s0 ∧ e = length cs.
Proof.
  intros Hr. pose proof Hr as (Hs0 & He0 & Hall0).
  assert (s0 < length cs) by (by eapply lookup_lt_Some).
  assert (e0 < length cs) by (by eapply lookup_lt_Some).
  unfold is_range. rewrite !lookup_snoc_cases. split.
  - intros (Hs & He & Hall).
    assert (s ≤ length cs ≤ e) by (apply Hall, lookup_snoc_cases; by right).
    assert (s ≤ s0 ≤ e) by (apply Hall, lookup_snoc_cases; by left).
    destruct Hs as [Hs|[-> _]]; [|lia].
    apply Hall0 in Hs. destruct He as [He|[-> _]]; [apply lookup_lt_Some in He; lia|lia].
  - intros [-> ->]. split; [by left|]. split; [by right|].
    intros j [Hj|[-> _]]%lookup_snoc_cases; [apply Hall0 in Hj; lia|lia].
Qed.

Lemma ranges_inv_nil : ranges_inv [] ∅.
Proof. intros c. rewrite lookup_empty. apply not_elem_of_nil. Qed.

(** One iteration of the loop preserves the invariant. *)
Lemma ranges_inv_update cs m c :
  ranges_inv cs m → ranges_inv (cs ++ [c]) (update_range (length cs) c m).
Proof.
  intros Hinv c'. specialize (Hinv c'). unfold update_range.
  destruct (decide (c' = c)) as [->|Hne].
  - destruct (m !! c) as [[s0 e0]|] eqn:Hm; rewrite lookup_insert_eq.
    + by apply (is_range_snoc_old _ _ s0 e0).
    + by apply is_range_snoc_new.
  - destruct (m !! c) as [[s0 e0]|]; (rewrite lookup_insert_ne; [|done]);
      destruct (m !! c') as [[s e]|].
    all: try (by apply is_range_snoc_ne).
    all: rewrite elem_of_app, list_elem_of_singleton; naive_solver.
Qed.

Lemma ranges_of_labels_inv cs : ranges_inv cs (ranges_of_labels 0 cs ∅).
Proof.
  induction cs as [|c cs IH] using rev_ind; [apply ranges_inv_nil|].
  rewrite ranges_of_labels_snoc. by apply ranges_inv_update.
Qed.

Lemma ranges_inv_lookup cs m c s e :
  ranges_inv cs m → m !! c = Some (s, e) ↔ is_range cs c s e.
Proof.
  intros Hinv. specialize (Hinv c). split.
  - intros Hm. by rewrite Hm in Hinv.
  - intros Hr. destruct (m !! c) as [[s' e']|].
    + by destruct (is_range_unique _ _ _ _ _ _ Hinv Hr) as [-> ->].
    + by apply is_range_elem_of in Hr.
Qed.

Lemma ranges_inv_lookup_None cs m c : ranges_inv cs m → m !! c = None ↔ c ∉ cs.
Proof.
  intros Hinv. specialize (Hinv c). split.
  - intros Hm. by rewrite Hm in Hinv.
  - intros Hc. destruct (m !! c) as [[s e]|]; [|done].
    by apply is_range_elem_of in Hinv.
Qed.

(** The class of a path [dir/c/f] that [os.path.join] builds, where
    the directory name [c] and the file name [f] contain no '/', is [c],
    whatever [dir] is. *)
Theorem class_name_path dir c f :
  str_has "/" c = false → str_has "/" f = false →
  class_name (dir ++ String "/" (c ++ String "/" f))%string = Ok c.
Proof.
  intros Hc Hf. unfold class_name.
  rewrite !py_split_app, (py_split_no_sep _ c), (py_split_no_sep _ f) by done.
  apply py_getitem_neg2_app.
Qed.

(** ** Properties of [get_class_ranges] *)

(** The scan computes [ranges_of_labels] of the labels, which satisfies the specification [is_range]. *)
Lemma get_class_ranges_refines fnames cs :
  class_labels fnames = Ok cs →
  ∃ m, get_class_ranges fnames = Ok m ∧
       ∀ c, (∀ s e, m !! c = Some (s, e) ↔ is_range cs c s e) ∧
            (m !! c = None ↔ c ∉ cs).
Proof.
  intros Hcs. exists (ranges_of_labels 0 cs ∅). split.
  - unfold get_class_ranges. by rewrite get_class_ranges_loop_labels, Hcs.
  - intros c. split; [intros s e; apply ranges_inv_lookup|apply ranges_inv_lookup_None];
      apply ranges_of_labels_inv.
Qed.

(** C3: the scan is total on file names that all have a class, and its result is
    the abstract specification: a class maps to [(s, e)] exactly when [s] is
    the first and [e] the last index of a file of that class, and a class
    with no file is absent.  No contiguity is assumed. *)
Theorem get_class_ranges_correct fnames cs :
  class_labels fnames = Ok cs →
  ∃ m, get_class_ranges fnames = Ok m ∧
       ∀ c, (∀ s e, m !! c = Some (s, e) ↔ is_range cs c s e) ∧
            (m !! c = None ↔ c ∉ cs).
Proof. apply get_class_ranges_refines. Qed.

Lemma get_class_ranges_correct_witness :
  class_labels ["a/x"; "a/y"; "b/z"]%string = Ok ["a"; "a"; "b"]%string ∧
  ∃ m, get_class_ranges ["a/x"; "a/y"; "b/z"]%string = Ok m ∧
       ∀ c, (∀ s e, m !! c = Some (s, e) ↔ is_range ["a"; "a"; "b"]%string c s e) ∧
            (m !! c = None ↔ c ∉ ["a"; "a"; "b"]%string).
Proof.
  split; [reflexivity|]. apply get_class_ranges_correct. reflexivity.
Defined.

(** C19: the scan raises exactly the [IndexError] of the first file name that
    has no '/' (its class [fname.split("/")[-2]] does not exist). *)
Theorem get_class_ranges_error fnames e :
  get_class_ranges fnames = Err e ↔ class_labels fnames = Err e.
Proof.
  unfold get_class_ranges. rewrite get_class_ranges_loop_labels.
  destruct (class_labels fnames) as [cs|e']; simpl; split; intros Heq;
    inversion Heq; subst; reflexivity.
Qed.






Lemma class_name_path_witness :
  str_has "/" "classA" = false ∧ str_has "/" "1.jpg" = false ∧
  class_name ("root" ++ String "/" ("classA" ++ String "/" "1.jpg"))%string = Ok "classA"%string.
Proof. split; [reflexivity|]. split; [reflexivity|]. apply class_name_path; reflexivity. Defined.

End ClassIndex.
