(* ===== verification/Sampler.v ===== *)
(** * Negative Sampler (extract_features_and_dump.py, lines 105-109)

    [range_of_nums = range(0,start) + range(end+1,DATASET_SIZE)] is the
    population of rows outside the anchor's class range;
    [np.random.choice(range_of_nums, size=batch_size, replace=False)]
    draws from it without replacement and [sorted] orders the draw for
    h5py.  numpy's legacy [RandomState.choice] with [replace=False] and no
    weights checks its arguments, then takes the first [size] entries of
    [permutation(pop_size)], a Fisher-Yates shuffle driven by
    [random_interval].  The random source is the interface
    [RandomInterval] (numpy's Mersenne Twister is one instance, the LCG
    below another): every theorem below holds for any instance, whatever
    its draws are, since every swap is a permutation and a swap with an
    index out of range would leave the array as it is. *)

From S2P Require Import Prelude PyBuiltins.

(** ** The random source numpy's shuffle calls *)

(** [random_interval(max)] draws an int in [[0, max]] and advances the
    generator state. *)
Class RandomInterval (G : Type) := random_interval : nat → G → nat * G.

Module Sampler.

Section WithRng.
Context {G : Type} `{!RandomInterval G}.

(** Swap the entries [i] and [j] in place ([buf = a[j]; a[j] = a[i];
    a[i] = buf]). *)
Definition list_swap (i j : nat) (l : list nat) : list nat :=
  match l !! i, l !! j with
  | Some x, Some y => <[i := y]> (<[j := x]> l)
  | _, _ => l
  end.

(** [for i in reversed(range(1, n)): j = random_interval(i); swap(i, j)],
    started at [i = n - 1]. *)
Fixpoint shuffle_down (i : nat) (l : list nat) : io G (list nat) :=
  match i with
  | 0 => mret l
  | S i' => λ g, let '(j, g') := random_interval (S i') g in
                 shuffle_down i' (list_swap (S i') j l) g'
  end.

(** [RandomState.permutation(n)]: shuffle [arange(n)]. *)
Definition np_permutation (n : nat) : io G (list nat) :=
  shuffle_down (n - 1) (seq 0 n).

(** [RandomState.choice(a, size, replace=False)] with no weights: the
    argument checks, in numpy's order, then [a[permutation(pop_size)[:size]]]. *)
Definition np_choice_noreplace (a : list nat) (size : Z) : io G (list nat) :=
  let pop_size := length a in
  if (pop_size =? 0)%nat && negb (size =? 0)%Z then
    io_raise (ValueError "'a' cannot be empty unless no samples are taken")
  else if (Z.of_nat pop_size <? size)%Z then
    io_raise (ValueError "Cannot take a larger sample than population when 'replace=False'")
  else if (size <? 0)%Z then
    io_raise (ValueError "negative dimensions are not allowed")
  else
    idx ← np_permutation pop_size;
    mret ((λ k, a !!! k) <$> take (Z.to_nat size) idx).

(** [range(0,start) + range(end+1,DATASET_SIZE)] (line 107). *)
Definition range_of_nums (start end_ dataset_size : nat) : list nat :=
  py_range 0 start ++ py_range (end_ + 1) dataset_size.

(** Lines 107-109: the population, the draw, and [sorted]. *)
Definition select_negatives (start end_ dataset_size : nat) (batch_size : Z)
    : io G (list nat) :=
  selected ← np_choice_noreplace (range_of_nums start end_ dataset_size) batch_size;
  mret (py_sorted selected).

End WithRng.

(** ** A concrete generator, for the examples *)

(** A linear congruential generator on [N]: enough to run the model; the
    theorems above do not depend on which generator is used. *)
#[export] Instance lcg_interval : RandomInterval N :=
  λ m g, (N.to_nat (g mod N.of_nat (S m)), ((g * 1103515245 + 12345) mod 2147483648)%N).

Section WithRngLemmas.
Context {G : Type} `{!RandomInterval G}.

(** ** The shuffle is a permutation *)

Lemma list_swap_Permutation i j l : list_swap i j l ≡ₚ l.
Proof.
  unfold list_swap. destruct (l !! i) eqn:Hi, (l !! j) eqn:Hj; try done.
  by apply Permutation_insert_swap.
Qed.

Lemma shuffle_down_Permutation i l g :
  ∃ l' g', shuffle_down i l g = (g', Ok l') ∧ l' ≡ₚ l.
Proof.
  revert l g. induction i as [|i IH]; intros l g; simpl.
  - by exists l, g.
  - destruct (random_interval (S i) g) as [j g'].
    destruct (IH (list_swap (S i) j l) g') as (l' & g'' & -> & Hp).
    exists l', g''. split; [done|]. by rewrite Hp, list_swap_Permutation.
Qed.

Lemma np_permutation_spec n g :
  ∃ idx g', np_permutation n g = (g', Ok idx) ∧ idx ≡ₚ seq 0 n.
Proof. apply shuffle_down_Permutation. Qed.

(** Indices drawn from a permutation of [0 .. n-1] are distinct and below [n]. *)
Lemma take_perm_seq k n idx :
  idx ≡ₚ seq 0 n →
  NoDup (take k idx) ∧ ∀ x, x ∈ take k idx → x < n.
Proof.
  intros Hp. split.
  - eapply sublist_NoDup; [|apply sublist_take]. rewrite Hp. apply NoDup_seq.
  - intros x (i & Hx & _)%elem_of_take. apply list_elem_of_lookup_2 in Hx.
    rewrite Hp, elem_of_seq in Hx. lia.
Qed.

(** Reading [a] at distinct in-range positions. *)
Lemma gather_spec (a idx : list nat) :
  NoDup idx → (∀ x, x ∈ idx → x < length a) →
  (∀ y, y ∈ (λ k, a !!! k) <$> idx → y ∈ a) ∧
  (NoDup a → NoDup ((λ k, a !!! k) <$> idx)).
Proof.
  intros Hnd Hlt. split.
  - intros y (k & -> & Hk)%list_elem_of_fmap. by apply list_elem_of_lookup_total_2, Hlt.
  - intros Ha. apply NoDup_fmap_2_strong; [|done].
    intros x y Hx Hy Heq. apply Hlt in Hx, Hy.
    eapply NoDup_lookup; [done| |].
    + by apply list_lookup_lookup_total_lt.
    + rewrite Heq. by apply list_lookup_lookup_total_lt.
Qed.

(** [choice] without replacement returns [size] entries of [a], distinct
    positions of it, whenever [0 <= size <= len(a)]. *)
Lemma np_choice_noreplace_ok (a : list nat) (size : Z) g :
  (0 ≤ size ≤ Z.of_nat (length a))%Z →
  ∃ sel g', np_choice_noreplace a size g = (g', Ok sel) ∧
    length sel = Z.to_nat size ∧ (∀ y, y ∈ sel → y ∈ a) ∧ (NoDup a → NoDup sel).
Proof.
  intros Hsz. unfold np_choice_noreplace.
  destruct (Nat.eqb_spec (length a) 0), (Z.eqb_spec size 0); simpl; try lia;
  (destruct (Z.ltb_spec (Z.of_nat (length a)) size); [lia|]);
  (destruct (Z.ltb_spec size 0); [lia|]); simpl;
  rewrite io_bind_run;
  destruct (np_permutation_spec (length a) g) as (idx & g' & -> & Hp);
  destruct (take_perm_seq (Z.to_nat size) _ _ Hp) as [Hnd Hlt];
  destruct (gather_spec a _ Hnd Hlt) as [Hin Hnd'];
  eexists _, g'; (split; [reflexivity|]); (split; [|done]);
  rewrite length_fmap, length_take, Hp, length_seq; lia.
Qed.

(** The argument checks raise before any draw: the generator is untouched. *)
Lemma np_choice_noreplace_err (a : list nat) (size : Z) g :
  (size < 0 ∨ Z.of_nat (length a) < size)%Z →
  ∃ e, np_choice_noreplace a size g = (g, Err e).
Proof.
  intros Hsz. unfold np_choice_noreplace.
  destruct (_ && _); [by eexists|].
  destruct (Z.ltb_spec (Z.of_nat (length a)) size); [by eexists|].
  destruct (Z.ltb_spec size 0); [by eexists|lia].
Qed.

(** ** The population outside the anchor's class range *)

Lemma range_of_nums_length start end_ n :
  length (range_of_nums start end_ n) = start + (n - (end_ + 1)).
Proof. unfold range_of_nums, py_range. rewrite length_app, !length_seq. lia. Qed.

Lemma range_of_nums_elem_of start end_ n x :
  x ∈ range_of_nums start end_ n ↔ x < start ∨ (end_ < x ∧ x < n).
Proof.
  unfold range_of_nums, py_range. rewrite elem_of_app, !elem_of_seq. lia.
Qed.

Lemma range_of_nums_NoDup start end_ n : start ≤ end_ + 1 → NoDup (range_of_nums start end_ n).
Proof.
  intros Hse. unfold range_of_nums, py_range. apply NoDup_app. split; [apply NoDup_seq|].
  split; [|apply NoDup_seq]. intros x. rewrite !elem_of_seq. lia.
Qed.

(** ** Sampling the negatives *)

(** The run of lines 107-109 on a valid class range: the draw succeeds with a sorted sample of the population. *)
Lemma select_negatives_ok start end_ n (k : Z) g :
  start ≤ end_ < n →
  (0 ≤ k ≤ Z.of_nat (start + (n - (end_ + 1))))%Z →
  ∃ sel g', select_negatives start end_ n k g = (g', Ok sel) ∧
    length sel = Z.to_nat k ∧ StronglySorted Nat.lt sel ∧
    ∀ x, x ∈ sel → x < n ∧ (x < start ∨ end_ < x).
Proof.
  intros Hse Hk. unfold select_negatives. rewrite io_bind_run.
  destruct (np_choice_noreplace_ok (range_of_nums start end_ n) k g)
    as (sel & g' & -> & Hlen & Hin & Hnd); [by rewrite range_of_nums_length|].
  exists (py_sorted sel), g'. split; [done|].
  split; [by rewrite py_sorted_length|]. split.
  - apply py_sorted_strict, Hnd, range_of_nums_NoDup. lia.
  - intros x Hx%py_sorted_elem_of%Hin%range_of_nums_elem_of. lia.
Qed.

(** C2: for a class range [start <= end < DATASET_SIZE] and
    [0 <= batch_size <= len(range_of_nums)], lines 107-109 return
    [batch_size] row ids, strictly increasing (so distinct, and in the
    order h5py's fancy indexing accepts), each in [[0, DATASET_SIZE)] and
    outside [[start, end]]. *)
Theorem select_negatives_spec start end_ n (k : Z) g :
  start ≤ end_ < n →
  (0 ≤ k ≤ Z.of_nat (start + (n - (end_ + 1))))%Z →
  ∃ sel g', select_negatives start end_ n k g = (g', Ok sel) ∧
    length sel = Z.to_nat k ∧ StronglySorted Nat.lt sel ∧
    ∀ x, x ∈ sel → x < n ∧ (x < start ∨ end_ < x).
Proof. apply select_negatives_ok. Qed.

(** C9: a [batch_size] larger than the population (or negative) raises
    before any draw, leaving the generator state unchanged; the spec's
    [InsufficientPopulation] is numpy's [ValueError]. *)
Theorem select_negatives_insufficient start end_ n (k : Z) g :
  (k < 0 ∨ Z.of_nat (start + (n - (end_ + 1))) < k)%Z →
  ∃ e, select_negatives start end_ n k g = (g, Err e).
Proof.
  intros Hk. unfold select_negatives. rewrite io_bind_run.
  destruct (np_choice_noreplace_err (range_of_nums start end_ n) k g) as [e ->];
    [by rewrite range_of_nums_length|].
  by exists e.
Qed.

End WithRngLemmas.

Lemma select_negatives_spec_witness :
  ∃ sel g', select_negatives 2 3 6 2 123%N = (g', Ok sel) ∧
    length sel = 2 ∧ StronglySorted Nat.lt sel ∧
    ∀ x, x ∈ sel → x < 6 ∧ (x < 2 ∨ 3 < x).
Proof. apply select_negatives_spec; simpl; lia. Defined.

(** The spec's example: excluding every row of a 3-row store and asking
    for one negative raises. *)
Lemma select_negatives_insufficient_witness :
  ∃ e, select_negatives 0 2 3 1 123%N = (123%N, Err e).
Proof. apply select_negatives_insufficient. simpl. lia. Defined.

End Sampler.
