(* ===== verification/Generator.v ===== *)
(** * Batch Generator: [data_generator] (extract_features_and_dump.py, lines 70-125)

    The generator's setup (lines 76-90) reads the file names of the
    training store, the pickled class ranges, the image features, the word
    embeddings and the word mapping [{name: row}].  Each [next()] then runs
    one iteration of [while 1: for i in range(DATASET_SIZE): ...]: it
    builds [X] and [y] with [1 + batch_size] rows, puts the anchor's
    feature and its class's embedding in row 0, draws [batch_size]
    negatives outside the anchor's class range (the [Sampler]), fills the
    other rows from them, and yields.

    A Python generator is a state machine: [GenCreated] before the first
    [next()], [GenSuspended] at the [yield] with the frame's locals
    ([i], [X], [y], [selected_indices]), [GenClosed] after an exception.
    [gen_next] is one [next()]; its [fuel] bounds the iterations of
    [while 1] that may pass without a [yield], which happens only when
    the store is empty (then [next()] never returns). *)

From S2P Require Import Prelude PyBuiltins FeatureStore ClassIndex Sampler.
Import FeatureStore ClassIndex Sampler.

Module Generator.

(** ** numpy arrays of rows *)

Definition np_broadcast_err : exn := ValueError "could not broadcast input array".

(** [np.zeros((rows, cols))]. *)
Definition np_zeros (rows : Z) (cols : nat) : res (list (list Z)) :=
  if (rows <? 0)%Z then Err (ValueError "negative dimensions are not allowed")
  else Ok (replicate (Z.to_nat rows) (replicate cols 0%Z)).

(** [a[r] = v]. *)
Definition np_set_row (a : list (list Z)) (cols r : nat) (v : list Z) : res (list (list Z)) :=
  if (length a <=? r)%nat then Err (IndexError "index is out of bounds for axis 0")
  else v' ← broadcast_row np_broadcast_err cols v; Ok (<[r := v']> a).

(** [a[1:] = m]: [m] has as many rows as [a[1:]], or one row repeated. *)
Definition np_set_tail (a : list (list Z)) (cols : nat) (m : list (list Z))
    : res (list (list Z)) :=
  let n := length a - 1 in
  rows ← (if (length m =? n)%nat then res_mapM (broadcast_row np_broadcast_err cols) m
          else match m with
               | [r] => r' ← broadcast_row np_broadcast_err cols r; Ok (replicate n r')
               | _ => Err np_broadcast_err
               end);
  Ok (take 1 a ++ rows).

(** [np.concatenate(rows, 0)] of [1 x d] arrays. *)
Definition np_concatenate_rows (rs : list (list Z)) : res (list (list Z)) :=
  match rs with
  | [] => Err (ValueError "need at least one array to concatenate")
  | r :: _ =>
      if forallb (λ r', length r' =? length r)%nat rs then Ok rs
      else Err (ValueError "all the input array dimensions except for the concatenation axis must match exactly")
  end.

(** The widths [data_generator] hard-codes for [X] and [y]. *)
Definition X_COLS : nat := 4096.
Definition Y_COLS : nat := 50.

(** ** The generator's environment (lines 76-90) *)

Record gen_env := mk_env {
  image_fnames : list string;
  class_ranges : gmap string (nat * nat);
  vgg_feats : dataset Z;
  embeddings : dataset Z;
  word_mapping : gmap string nat
}.

(** [{l[0]: i for i, l in enumerate(word_names)}]: a later duplicate
    overwrites an earlier one. *)
Fixpoint build_word_mapping_from (i : nat) (ws : list string) (m : gmap string nat)
    : gmap string nat :=
  match ws with
  | [] => m
  | w :: ws' => build_word_mapping_from (S i) ws' (<[w := i]> m)
  end.

Definition build_word_mapping (ws : list string) : gmap string nat :=
  build_word_mapping_from 0 ws ∅.

(** Lines 76-90; [pickled] is what [pickle.load] returns. *)
Definition gen_setup (train words : h5file) (pickled : gmap string (nat * nat)) : res gen_env :=
  fn ← read_str train "data/fnames";
  fnames ← read_first_column fn;
  feats ← read_float train "data/features";
  emb ← read_float words "data/word_embeddings";
  wn ← read_str words "data/word_names";
  names ← read_first_column wn;
  Ok (mk_env fnames pickled feats emb (build_word_mapping names)).

(** ** One batch (lines 97-118) *)

(** [embeddings[word_mapping[w]]]. *)
Definition embed_row (env : gen_env) (w : string) : res (list Z) :=
  idx ← dict_get (word_mapping env) w (KeyError w);
  ds_get_row idx (embeddings env).

(** [image_fnames[a].split("/")[-2]]. *)
Definition class_of (env : gen_env) (a : nat) : res string :=
  fname ← list_get (image_fnames env) a; class_name fname.

(** The frame at the [yield]: the locals [X], [y], [selected_indices]. *)
Record frame := mk_frame {
  fr_X : list (list Z);
  fr_y : list (list Z);
  fr_selected : list nat
}.

Section WithRng.
Context {G : Type} `{!RandomInterval G}.

Local Notation "'try!' c" := (io_lift (S := G) c) (at level 10).

Definition gen_step (env : gen_env) (batch_size : Z) (i : nat) : io G frame :=
  X ← try! (np_zeros (1 + batch_size) X_COLS);
  y ← try! (np_zeros (1 + batch_size) Y_COLS);
  X ← try! (v ← ds_get_row i (vgg_feats env); np_set_row X X_COLS 0 v);
  y ← try! (w ← class_of env i; e ← embed_row env w; np_set_row y Y_COLS 0 e);
  class_of_first ← try! (class_of env i);
  se ← try! (dict_get (class_ranges env) class_of_first (KeyError class_of_first));
  selected ← select_negatives se.1 se.2 (length (image_fnames env)) batch_size;
  X ← try! (rows ← ds_fancy_read selected (vgg_feats env); np_set_tail X X_COLS rows);
  selected_words ← try! (res_mapM (class_of env) selected);
  selected_embeds ← try! (es ← res_mapM (embed_row env) selected_words; np_concatenate_rows es);
  y ← try! (np_set_tail y Y_COLS selected_embeds);
  mret (mk_frame X y selected).
End WithRng.

(** ** Well-formed environments *)

(** The assumptions under which the generator produces batches: every file
    name has a class ([cs] lists them), the pickled ranges are
    [get_class_ranges] of the current file names, the feature table has a
    row of width [X_COLS] for each file, and every class has an embedding
    row of width [Y_COLS]. *)
Definition env_wf (env : gen_env) (cs : list string) : Prop :=
  class_labels (image_fnames env) = Ok cs ∧
  get_class_ranges (image_fnames env) = Ok (class_ranges env) ∧
  length (image_fnames env) ≤ length (ds_rows (vgg_feats env)) ∧
  Forall (λ r, length r = X_COLS) (ds_rows (vgg_feats env)) ∧
  ∀ c, c ∈ cs → ∃ idx r, word_mapping env !! c = Some idx ∧
                 ds_rows (embeddings env) !! idx = Some r ∧ length r = Y_COLS.

(** Row [k] of the features, and the embedding row of class [c]. *)
Definition vrow (env : gen_env) (k : nat) : list Z := ds_rows (vgg_feats env) !!! k.
Definition erow (env : gen_env) (c : string) : list Z :=
  ds_rows (embeddings env) !!! (word_mapping env !!! c).

(** The number of rows outside class [c]'s range: the population
    [range_of_nums] draws from. *)
Definition neg_pool (env : gen_env) (c : string) : nat :=
  match class_ranges env !! c with
  | Some (s, e) => s + (length (image_fnames env) - (e + 1))
  | None => 0
  end.
(** The batch size fits every anchor's population. *)
Definition bs_fits (env : gen_env) (cs : list string) (bs : Z) : Prop :=
  ∀ i, i < length (image_fnames env) → (1 ≤ bs ≤ Z.of_nat (neg_pool env (cs !!! i)))%Z.

(** ** The generator as a state machine *)

Inductive gen_state :=
  | GenCreated
  | GenSuspended (env : gen_env) (i : nat) (fr : frame)
  | GenClosed.

(** What a call [next(gen)] returns. *)
Inductive outcome :=
  | Yielded (X y : list (list Z))
  | Raised (e : exn)
  | StopIteration.

(** The arguments the generator closes over: [batch_size], the training
    store and the embedding store (global paths), and the pickled ranges. *)
Record gen_args := mk_args {
  ga_batch_size : Z;
  ga_train : h5file;
  ga_words : h5file;
  ga_ranges : gmap string (nat * nat)
}.

(** Resuming [for i in range(n)] at index [j] inside [while 1]: the next
    [i] the loop body runs with, after at most [fuel] iterations of
    [while 1]; [None] when the fuel runs out, which happens for every
    fuel when [n = 0] ([while 1] spins without running the body). *)
Fixpoint next_anchor (fuel n j : nat) : option nat :=
  match fuel with
  | 0 => None
  | S fuel' => if (j <? n)%nat then Some j else next_anchor fuel' n 0
  end.

Section Machine.
Context {G : Type} `{!RandomInterval G}.

(** Run the loop from index [j] to the next [yield] or exception. *)
Definition run_from (fuel : nat) (bs : Z) (env : gen_env) (j : nat) (g : G)
    : option (outcome * gen_state * G) :=
  match next_anchor fuel (length (image_fnames env)) j with
  | None => None
  | Some i =>
      let '(g', r) := gen_step env bs i g in
      Some (match r with
            | Ok fr => (Yielded (fr_X fr) (fr_y fr), GenSuspended env i fr)
            | Err e => (Raised e, GenClosed)
            end, g')
  end.

(** One call [next(gen)]; [None] when it does not return within [fuel]
    iterations of [while 1]. *)
Definition gen_next (fuel : nat) (args : gen_args) (st : gen_state) (g : G)
    : option (outcome * gen_state * G) :=
  match st with
  | GenCreated =>
      match gen_setup (ga_train args) (ga_words args) (ga_ranges args) with
      | Err e => Some (Raised e, GenClosed, g)
      | Ok env => run_from fuel (ga_batch_size args) env 0 g
      end
  | GenSuspended env i _ => run_from fuel (ga_batch_size args) env (S i) g
  | GenClosed => Some (StopIteration, GenClosed, g)
  end.

(** [k] calls of [next(gen)] in a row. *)
Fixpoint gen_run (fuel : nat) (args : gen_args) (k : nat) (st : gen_state) (g : G)
    : option (list outcome * gen_state * G) :=
  match k with
  | 0 => Some ([], st, g)
  | S k' =>
      match gen_next fuel args st g with
      | None => None
      | Some (o, st', g') =>
          match gen_run fuel args k' st' g' with
          | None => None
          | Some (os, st'', g'') => Some (o :: os, st'', g'')
          end
      end
  end.

End Machine.

Definition is_yield (o : outcome) : Prop := match o with Yielded _ _ => True | _ => False end.

(** ** A small store, for the examples *)

(** Four images in three class directories, a feature row and an
    embedding row per class of the hard-coded widths. *)
Definition ex_fnames : list string := ["r/a/0.jpg"; "r/a/1.jpg"; "r/b/2.jpg"; "r/c/3.jpg"].
Definition ex_labels : list string := ["a"; "a"; "b"; "c"].
Definition ex_feats : dataset Z :=
  mk_dataset ((λ k, replicate X_COLS (Z.of_nat k)) <$> seq 0 4) X_COLS (Some X_COLS).
Definition ex_embeds : dataset Z :=
  mk_dataset ((λ k, replicate Y_COLS (Z.of_nat k)) <$> seq 0 3) Y_COLS None.
Definition ex_ranges : gmap string (nat * nat) :=
  <["c" := (3, 3)]> (<["b" := (2, 2)]> {["a" := (0, 1)]}).
Definition ex_train : h5file :=
  mk_h5file {["data/features" := ex_feats]}
            {["data/fnames" := mk_dataset ((λ x, [x]) <$> ex_fnames) 1 (Some 1)]}.
Definition ex_words : h5file :=
  mk_h5file {["data/word_embeddings" := ex_embeds]}
            {["data/word_names" := mk_dataset [["a"]; ["b"]; ["c"]] 1 None]}.
Definition ex_env : gen_env :=
  mk_env ex_fnames ex_ranges ex_feats ex_embeds (<["c" := 2]> (<["b" := 1]> {["a" := 0]})).
Definition ex_args : gen_args := mk_args 2 ex_train ex_words ex_ranges.

(** ** Lemmas on the numpy and lookup steps *)

Lemma broadcast_row_same {A} err cols (v : list A) :
  length v = cols → broadcast_row err cols v = Ok v.
Proof. intros Hv. unfold broadcast_row. by rewrite (proj2 (Nat.eqb_eq _ _) Hv). Qed.

Lemma np_set_row_ok a cols r v :
  r < length a → length v = cols → np_set_row a cols r v = Ok (<[r := v]> a).
Proof.
  intros Hr Hv. unfold np_set_row. destruct (Nat.leb_spec (length a) r); [lia|].
  by rewrite broadcast_row_same.
Qed.

Lemma np_set_tail_ok a cols m :
  length m = length a - 1 → Forall (λ r, length r = cols) m →
  np_set_tail a cols m = Ok (take 1 a ++ m).
Proof.
  intros Hm Hw. unfold np_set_tail. rewrite (proj2 (Nat.eqb_eq _ _) Hm).
  rewrite (res_mapM_ok _ id); [by rewrite list_fmap_id|].
  intros r Hr. apply broadcast_row_same. rewrite Forall_forall in Hw. by apply Hw.
Qed.

Lemma ds_fancy_read_ok {A} idx (ds : dataset A) :
  StronglySorted Nat.lt idx → (∀ k, k ∈ idx → k < length (ds_rows ds)) →
  ds_fancy_read idx ds = Ok ((λ k, ds_rows ds !!! k) <$> idx).
Proof.
  intros Hs Hlt. unfold ds_fancy_read. rewrite bool_decide_eq_true_2 by done.
  apply res_mapM_ok. intros k Hk. unfold ds_get_row.
  by rewrite (list_lookup_lookup_total_lt _ _ (Hlt k Hk)).
Qed.

Lemma class_of_ok env cs a :
  class_labels (image_fnames env) = Ok cs → a < length (image_fnames env) →
  class_of env a = Ok (cs !!! a).
Proof.
  intros Hcs Ha. unfold class_of, list_get.
  destruct (lookup_lt_is_Some_2 _ _ Ha) as [fname Hf]. rewrite Hf. simpl.
  destruct (res_mapM_lookup _ _ _ _ _ Hcs Hf) as (c & Hc & ->).
  by rewrite (list_lookup_total_correct _ _ _ Hc).
Qed.

Lemma class_labels_lookup env cs a :
  class_labels (image_fnames env) = Ok cs → a < length (image_fnames env) →
  cs !! a = Some (cs !!! a).
Proof.
  intros Hcs Ha. apply list_lookup_lookup_total_lt.
  unfold class_labels in Hcs. by rewrite (res_mapM_length _ _ _ Hcs).
Qed.

Lemma embed_row_ok env cs c :
  env_wf env cs → c ∈ cs → embed_row env c = Ok (erow env c) ∧ length (erow env c) = Y_COLS.
Proof.
  intros (_ & _ & _ & _ & Hemb) Hc. destruct (Hemb c Hc) as (idx & r & Hidx & Hr & Hw).
  unfold embed_row, erow, dict_get, ds_get_row. rewrite Hidx. simpl. rewrite Hr.
  rewrite (lookup_total_correct _ _ _ Hidx), (list_lookup_total_correct _ _ _ Hr). done.
Qed.

Lemma np_zeros_ok (rows : Z) cols :
  (0 ≤ rows)%Z → np_zeros rows cols = Ok (replicate (Z.to_nat rows) (replicate cols 0%Z)).
Proof. intros Hr. unfold np_zeros. by destruct (Z.ltb_spec rows 0); [lia|]. Qed.

Lemma np_concatenate_rows_ok rs w :
  rs ≠ [] → Forall (λ r, length r = w) rs → np_concatenate_rows rs = Ok rs.
Proof.
  intros Hne Hw. destruct rs as [|r rs']; [done|]. unfold np_concatenate_rows.
  replace (forallb _ _) with true; [done|]. symmetry. apply forallb_forall.
  intros r' Hr'%list_elem_of_In. apply Nat.eqb_eq.
  rewrite Forall_forall in Hw. rewrite (Hw r'), (Hw r); [done|by left|done].
Qed.

Lemma take_1_insert_0 {A} (v : A) l : l ≠ [] → take 1 (<[0 := v]> l) = [v].
Proof. by destruct l. Qed.

(** A matrix of the given number of rows, each [cols] wide. *)
Lemma broadcast_row_length {A} err cols (v v' : list A) :
  broadcast_row err cols v = Ok v' → length v' = cols.
Proof.
  unfold broadcast_row. destruct (Nat.eqb_spec (length v) cols) as [?|_]; [by intros [= <-]|].
  destruct v as [|x [|y v]]; [done| |done]. intros [= <-]. apply length_replicate.
Qed.

Lemma np_set_row_shape a cols r v a' :
  np_set_row a cols r v = Ok a' → Forall (λ row, length row = cols) a →
  r < length a ∧ length a' = length a ∧ Forall (λ row, length row = cols) a'.
Proof.
  unfold np_set_row. destruct (Nat.leb_spec (length a) r); [done|].
  intros Ha Hw. apply res_bind_Ok in Ha as (v' & Hv & Ha). injection Ha as <-. split; [done|]. split; [apply length_insert|].
  apply Forall_insert; [done|]. by eapply broadcast_row_length.
Qed.

Lemma np_set_tail_shape a cols m a' :
  np_set_tail a cols m = Ok a' → 1 ≤ length a → Forall (λ row, length row = cols) a →
  length a' = length a ∧ Forall (λ row, length row = cols) a'.
Proof.
  unfold np_set_tail. intros H Hl Hw.
  apply res_bind_Ok in H as (rows & Hr & H). injection H as <-.
  assert (Hrows : length rows = length a - 1 ∧ Forall (λ row, length row = cols) rows).
  { destruct (length m =? length a - 1) eqn:E; [apply Nat.eqb_eq in E|apply Nat.eqb_neq in E].
    - split; [by rewrite (res_mapM_length _ _ _ Hr)|].
      apply Forall_forall. intros r' [k Hk]%list_elem_of_lookup.
      destruct (res_mapM_lookup_rev _ _ _ _ _ Hr Hk) as (x & _ & Hx).
      by eapply broadcast_row_length.
    - destruct m as [|r [|r' m]]; [done| |done].
      apply res_bind_Ok in Hr as (r'' & Hb & Hr). injection Hr as <-.
      rewrite length_replicate. split; [done|]. apply Forall_replicate.
      by eapply broadcast_row_length. }
  destruct Hrows as [Hlen Hw0]. rewrite length_app, length_take. split; [lia|].
  apply Forall_app. split; [by apply Forall_take|done].
Qed.

(** The anchor's class has a range in the pickled ranges, and the range
    holds the anchor. *)
Lemma anchor_range env cs i :
  env_wf env cs → i < length (image_fnames env) →
  ∃ s e, class_ranges env !! (cs !!! i) = Some (s, e) ∧ is_range cs (cs !!! i) s e ∧
         s ≤ i ≤ e ∧ e < length (image_fnames env).
Proof.
  intros Hwf Hi. pose proof Hwf as (Hcs & Hcr & _).
  pose proof (class_labels_lookup _ _ _ Hcs Hi) as Hci.
  destruct (get_class_ranges_refines _ _ Hcs) as (m & Hm & Hspec).
  rewrite Hcr in Hm. injection Hm as <-.
  destruct (class_ranges env !! (cs !!! i)) as [[s e]|] eqn:Hse.
  - exists s, e. split; [done|]. apply (proj1 (Hspec _)) in Hse as Hr. split; [done|].
    destruct Hr as (_ & He & Hall). split; [by apply Hall|].
    apply lookup_lt_Some in He. unfold class_labels in Hcs.
    by rewrite (res_mapM_length _ _ _ Hcs) in He.
  - apply (proj2 (Hspec _)) in Hse. exfalso. apply Hse. by eapply list_elem_of_lookup_2.
Qed.

Section StepLemmas.
Context {G : Type} `{!RandomInterval G}.

(** The run of one loop iteration, statement by statement. *)
Lemma gen_step_run env cs (bs : Z) i g :
  env_wf env cs → i < length (image_fnames env) →
  (1 ≤ bs ≤ Z.of_nat (neg_pool env (cs !!! i)))%Z →
  ∃ s e sel g', class_ranges env !! (cs !!! i) = Some (s, e) ∧
    select_negatives s e (length (image_fnames env)) bs g = (g', Ok sel) ∧
    gen_step env bs i g =
      (g', Ok (mk_frame (vrow env <$> i :: sel) ((λ k, erow env (cs !!! k)) <$> i :: sel) sel)).
Proof.
  intros Hwf Hi Hbs. pose proof Hwf as (Hcs & Hcr & Hlen & Hvw & Hemb).
  destruct (anchor_range env cs i Hwf Hi) as (s & e & Hse & Hr & Hsi & HeN).
  unfold neg_pool in Hbs. rewrite Hse in Hbs.
  destruct (select_negatives_ok s e (length (image_fnames env)) bs g)
    as (sel & g' & Hsel & Hlsel & Hsorted & Hsel_in); [lia|lia|].
  exists s, e, sel, g'. split; [done|]. split; [done|].
  assert (Hci : cs !!! i ∈ cs) by (eapply list_elem_of_lookup_2, class_labels_lookup; eauto).
  assert (Hvi : length (vrow env i) = X_COLS).
  { unfold vrow. rewrite Forall_forall in Hvw. apply Hvw, list_elem_of_lookup_total_2. lia. }
  assert (Hselc : ∀ k, k ∈ sel → cs !!! k ∈ cs ∧ k < length (image_fnames env)).
  { intros k Hk. destruct (Hsel_in k Hk) as [Hk' _]. split; [|done].
    eapply list_elem_of_lookup_2, class_labels_lookup; eauto. }
  set (n := Z.to_nat (1 + bs)).
  assert (Hn : n = S (length sel)) by (unfold n; lia).
  unfold gen_step.
  rewrite (io_lift_bind_ok _ _ (replicate n (replicate X_COLS 0%Z))) by (apply np_zeros_ok; lia).
  rewrite (io_lift_bind_ok _ _ (replicate n (replicate Y_COLS 0%Z))) by (apply np_zeros_ok; lia).
  rewrite (io_lift_bind_ok _ _ (<[0 := vrow env i]> (replicate n (replicate X_COLS 0%Z)))).
  2:{ unfold ds_get_row. rewrite (list_lookup_lookup_total_lt _ i) by lia. simpl.
      apply np_set_row_ok; [rewrite length_replicate; lia|done]. }
  destruct (embed_row_ok env cs (cs !!! i) Hwf Hci) as [Hei Hewi].
  rewrite (io_lift_bind_ok _ _ (<[0 := erow env (cs !!! i)]> (replicate n (replicate Y_COLS 0%Z)))).
  2:{ rewrite (res_bind_ok_eq _ _ _ (class_of_ok env cs i Hcs Hi)), (res_bind_ok_eq _ _ _ Hei).
      apply np_set_row_ok; [rewrite length_replicate; lia|done]. }
  rewrite (io_lift_bind_ok _ _ _ _ (class_of_ok env cs i Hcs Hi)).
  rewrite (io_lift_bind_ok _ _ (s, e)) by (unfold dict_get; by rewrite Hse).
  rewrite io_bind_run. simpl fst. simpl snd. rewrite Hsel.
  rewrite (io_lift_bind_ok _ _ (vrow env i :: (vrow env <$> sel))).
  2:{ rewrite (ds_fancy_read_ok sel (vgg_feats env)); [|done|].
      2:{ intros k Hk. destruct (Hselc k Hk). lia. }
      simpl. rewrite np_set_tail_ok.
      - rewrite take_1_insert_0; [done|]. rewrite Hn. done.
      - rewrite length_fmap, length_insert, length_replicate. lia.
      - apply Forall_fmap, Forall_forall. intros k Hk. unfold vrow. simpl.
        rewrite Forall_forall in Hvw. apply Hvw, list_elem_of_lookup_total_2.
        destruct (Hselc k Hk). lia. }
  rewrite (io_lift_bind_ok _ _ ((λ k, cs !!! k) <$> sel)).
  2:{ apply res_mapM_ok. intros k Hk. apply class_of_ok; [done|]. by apply Hselc. }
  assert (Hembs : ∀ k, k ∈ sel → embed_row env (cs !!! k) = Ok (erow env (cs !!! k)) ∧
                                  length (erow env (cs !!! k)) = Y_COLS).
  { intros k Hk. apply (embed_row_ok env cs); [done|]. by apply Hselc. }
  rewrite (io_lift_bind_ok _ _ ((λ k, erow env (cs !!! k)) <$> sel)).
  2:{ rewrite (res_bind_ok_eq _ _ ((λ w, erow env w) <$> ((λ k, cs !!! k) <$> sel))).
      - rewrite <-list_fmap_compose. apply (np_concatenate_rows_ok _ Y_COLS).
        + destruct sel; [simpl in Hlsel; lia|done].
        + apply Forall_fmap, Forall_forall. intros k Hk. by apply Hembs.
      - apply res_mapM_ok. intros w (k & -> & Hk)%list_elem_of_fmap. by apply Hembs. }
  rewrite (io_lift_bind_ok _ _ (erow env (cs !!! i) :: ((λ k, erow env (cs !!! k)) <$> sel))).
  2:{ rewrite np_set_tail_ok.
      - rewrite take_1_insert_0; [done|]. rewrite Hn. done.
      - rewrite length_fmap, length_insert, length_replicate. lia.
      - apply Forall_fmap, Forall_forall. intros k Hk. by apply Hembs. }
  done.
Qed.

(** C4: on a well-formed environment, for an anchor [i] and
    [1 <= batch_size <= neg_pool], one iteration of the loop succeeds: it
    draws [sel] with [select_negatives] on the anchor's class range and
    yields [X] = the feature rows of [i :: sel] and [y] = the embeddings of
    the classes of [i :: sel], in that order: row 0 is the genuine pair and
    row [1 + k] the [k]-th negative, with its own class's embedding. *)
Theorem gen_step_ok env cs (bs : Z) i g :
  env_wf env cs → i < length (image_fnames env) →
  (1 ≤ bs ≤ Z.of_nat (neg_pool env (cs !!! i)))%Z →
  ∃ s e sel g', class_ranges env !! (cs !!! i) = Some (s, e) ∧
    select_negatives s e (length (image_fnames env)) bs g = (g', Ok sel) ∧
    gen_step env bs i g =
      (g', Ok (mk_frame (vrow env <$> i :: sel) ((λ k, erow env (cs !!! k)) <$> i :: sel) sel)).
Proof. apply gen_step_run. Qed.

(** C1: under the same conditions, the batch's negatives are
    [batch_size] distinct row ids in increasing order, all in the store,
    and none of them has the anchor's class: the exclusion by the pickled
    range [[start, end]] never lets a same-class row through, whether or
    not the classes are contiguous in the store. *)
Theorem gen_step_negatives env cs (bs : Z) i g :
  env_wf env cs → i < length (image_fnames env) →
  (1 ≤ bs ≤ Z.of_nat (neg_pool env (cs !!! i)))%Z →
  ∃ fr g', gen_step env bs i g = (g', Ok fr) ∧
    length (fr_selected fr) = Z.to_nat bs ∧ StronglySorted Nat.lt (fr_selected fr) ∧
    ∀ n, n ∈ fr_selected fr →
      n < length (image_fnames env) ∧ cs !! n ≠ Some (cs !!! i).
Proof.
  intros Hwf Hi Hbs.
  destruct (gen_step_run env cs bs i g Hwf Hi Hbs) as (s & e & sel & g' & Hse & Hsel & ->).
  destruct (anchor_range env cs i Hwf Hi) as (s' & e' & Hse' & Hr & Hsi & HeN).
  rewrite Hse in Hse'. injection Hse' as <- <-.
  unfold neg_pool in Hbs. rewrite Hse in Hbs.
  destruct (select_negatives_ok s e (length (image_fnames env)) bs g)
    as (sel' & g'' & Hsel' & Hlen & Hsorted & Hin); [lia|lia|].
  rewrite Hsel in Hsel'. injection Hsel' as <- <-.
  eexists _, _. split; [reflexivity|]. simpl. split; [done|]. split; [done|].
  intros n Hn. destruct (Hin n Hn) as [HnN Hout]. split; [done|].
  intros Hcn. destruct Hr as (_ & _ & Hall). apply Hall in Hcn. lia.
Qed.

(** C21: [X] and [y] are built with the hard-coded widths 4096 and 50,
    not with [IMAGE_DIM] and [WORD_DIM]: a feature table of any other
    width (other than 1, which broadcasts) makes the first row assignment
    [X[0] = vgg_feats[i]] raise, before any draw. *)
Theorem gen_step_width_mismatch env (bs : Z) i r g :
  (0 ≤ bs)%Z → ds_rows (vgg_feats env) !! i = Some r →
  length r ≠ X_COLS → length r ≠ 1 →
  gen_step env bs i g = (g, Err np_broadcast_err).
Proof.
  intros Hbs Hr Hw Hw1. unfold gen_step.
  rewrite (io_lift_bind_ok _ _ _ _ (np_zeros_ok (1 + bs) X_COLS ltac:(lia))).
  rewrite (io_lift_bind_ok _ _ _ _ (np_zeros_ok (1 + bs) Y_COLS ltac:(lia))).
  apply io_lift_bind_err. unfold ds_get_row. rewrite Hr. simpl.
  unfold np_set_row. rewrite length_replicate.
  destruct (Nat.leb_spec (Z.to_nat (1 + bs)) 0); [lia|]. simpl.
  unfold broadcast_row. destruct (Nat.eqb_spec (length r) X_COLS); [done|].
  destruct r as [|x [|y r]]; [done|simpl in Hw1; lia|done].
Qed.

(** C22: with [batch_size = 0] the generator cannot produce a batch: on a
    well-formed store every step raises at [np.concatenate] of an empty
    list (line 115), although [X] and [y] of one row were built. *)
Theorem gen_step_batch_size_zero env cs i g :
  env_wf env cs → i < length (image_fnames env) →
  ∃ g', gen_step env 0 i g = (g', Err (ValueError "need at least one array to concatenate")).
Proof.
  intros Hwf Hi. pose proof Hwf as (Hcs & Hcr & Hlen & Hvw & Hemb).
  destruct (anchor_range env cs i Hwf Hi) as (s & e & Hse & Hr & Hsi & HeN).
  destruct (select_negatives_ok s e (length (image_fnames env)) 0 g)
    as (sel & g' & Hsel & Hlsel & _ & _); [lia|lia|].
  destruct sel; [|done]. exists g'.
  assert (Hci : cs !!! i ∈ cs) by (eapply list_elem_of_lookup_2, class_labels_lookup; eauto).
  destruct (embed_row_ok env cs (cs !!! i) Hwf Hci) as [Hei Hewi].
  assert (Hvi : length (vrow env i) = X_COLS).
  { unfold vrow. rewrite Forall_forall in Hvw. apply Hvw, list_elem_of_lookup_total_2. lia. }
  unfold gen_step.
  rewrite (io_lift_bind_ok _ _ _ _ (np_zeros_ok (1 + 0) X_COLS ltac:(lia))).
  rewrite (io_lift_bind_ok _ _ _ _ (np_zeros_ok (1 + 0) Y_COLS ltac:(lia))).
  rewrite (io_lift_bind_ok _ _ [vrow env i]).
  2:{ rewrite (res_bind_ok_eq _ _ (vrow env i)).
      - rewrite np_set_row_ok; [reflexivity|simpl; lia|done].
      - unfold ds_get_row, vrow. by rewrite (list_lookup_lookup_total_lt _ i) by lia. }
  rewrite (io_lift_bind_ok _ _ [erow env (cs !!! i)]).
  2:{ rewrite (res_bind_ok_eq _ _ _ (class_of_ok env cs i Hcs Hi)), (res_bind_ok_eq _ _ _ Hei).
      rewrite np_set_row_ok; [reflexivity|simpl; lia|done]. }
  rewrite (io_lift_bind_ok _ _ _ _ (class_of_ok env cs i Hcs Hi)).
  rewrite (io_lift_bind_ok _ _ (s, e)) by (unfold dict_get; by rewrite Hse).
  rewrite io_bind_run. simpl fst. simpl snd. rewrite Hsel.
  rewrite (io_lift_bind_ok _ _ [vrow env i]) by reflexivity.
  rewrite (io_lift_bind_ok _ _ []) by reflexivity.
  by apply io_lift_bind_err.
Qed.


(** C15: a class with no word embedding ([MissingMapping] of the spec)
    makes the step raise [KeyError] on the anchor's class at
    [y[0] = embeddings[word_mapping[...]]] (line 102), before any draw:
    the generator state is unchanged. *)
Theorem gen_step_missing_word env cs (bs : Z) i r g :
  class_labels (image_fnames env) = Ok cs → i < length (image_fnames env) →
  (0 ≤ bs)%Z → ds_rows (vgg_feats env) !! i = Some r → length r = X_COLS →
  word_mapping env !! (cs !!! i) = None →
  gen_step env bs i g = (g, Err (KeyError (cs !!! i))).
Proof.
  intros Hcs Hi Hbs Hr Hw Hwm. unfold gen_step.
  rewrite (io_lift_bind_ok _ _ _ _ (np_zeros_ok (1 + bs) X_COLS ltac:(lia))).
  rewrite (io_lift_bind_ok _ _ _ _ (np_zeros_ok (1 + bs) Y_COLS ltac:(lia))).
  rewrite (io_lift_bind_ok _ _ (<[0 := r]> (replicate (Z.to_nat (1 + bs)) (replicate X_COLS 0%Z)))).
  2:{ rewrite (res_bind_ok_eq _ _ r) by (unfold ds_get_row; by rewrite Hr).
      apply np_set_row_ok; [rewrite length_replicate; lia|done]. }
  apply io_lift_bind_err. rewrite (res_bind_ok_eq _ _ _ (class_of_ok env cs i Hcs Hi)).
  unfold embed_row, dict_get. by rewrite Hwm.
Qed.

(** One [try!] step of [gen_step] in a goal [(try! r ≫= k) g = (g', Ok fr) → P]:
    the step succeeds with a named value, or the goal is void. *)
Local Ltac lift_step :=
  match goal with
  | |- (io_lift ?r ≫= _) _ = _ → _ =>
      let x := fresh "x" in let Hx := fresh "Hx" in let e := fresh "e" in
      destruct r as [x|e] eqn:Hx;
      [rewrite (io_lift_bind_ok (Ok x) _ x) by done|rewrite (io_lift_bind_err (Err e) _ e) by done; by intros [=]]
  end.

(** C29: the batch shape of the spec, on every step that succeeds:
    [X] has [1 + batch_size] rows of width 4096 and [y] [1 + batch_size]
    rows of width 50 (the hard-coded widths, whatever [IMAGE_DIM] and
    [WORD_DIM] are). *)
Theorem gen_step_shape env (bs : Z) i g g' fr :
  gen_step env bs i g = (g', Ok fr) →
  length (fr_X fr) = Z.to_nat (1 + bs) ∧ Forall (λ r, length r = X_COLS) (fr_X fr) ∧
  length (fr_y fr) = Z.to_nat (1 + bs) ∧ Forall (λ r, length r = Y_COLS) (fr_y fr).
Proof.
  unfold gen_step. do 6 lift_step.
  rewrite io_bind_run. destruct (select_negatives _ _ _ _ _) as [g1 [sel|e]]; [|by intros [=]].
  do 4 lift_step. intros [= _ <-]. simpl.
  assert (Hz : ∀ c (M : list (list Z)), np_zeros (1 + bs) c = Ok M →
                 length M = Z.to_nat (1 + bs) ∧ Forall (λ r, length r = c) M).
  { intros c M. unfold np_zeros. destruct (Z.ltb_spec (1 + bs) 0); [done|]. intros [= <-].
    rewrite length_replicate. split; [done|]. apply Forall_replicate, length_replicate. }
  destruct (Hz _ _ Hx) as [HlX HwX], (Hz _ _ Hx0) as [Hly Hwy].
  apply res_bind_Ok in Hx1 as (v & _ & Hx1). apply res_bind_Ok in Hx2 as (w & _ & Hx2).
  apply res_bind_Ok in Hx2 as (e & _ & Hx2).
  destruct (np_set_row_shape _ _ _ _ _ Hx1 HwX) as (H0X & HlX1 & HwX1).
  destruct (np_set_row_shape _ _ _ _ _ Hx2 Hwy) as (H0y & Hly1 & Hwy1).
  apply res_bind_Ok in Hx5 as (rows & _ & Hx5).
  destruct (np_set_tail_shape _ _ _ _ Hx5) as [HlX2 HwX2]; [lia|done|].
  destruct (np_set_tail_shape _ _ _ _ Hx8) as [Hly2 Hwy2]; [lia|done|].
  split_and!; [lia|done|lia|done].
Qed.
End StepLemmas.

(** ** Liveness and the cycle *)

Lemma next_anchor_resume n j :
  0 < n → next_anchor 2 n j = Some (if (j <? n)%nat then j else 0).
Proof.
  intros Hn. simpl. destruct (Nat.ltb_spec j n); [done|].
  by destruct (Nat.ltb_spec 0 n); [|lia].
Qed.

Lemma next_anchor_fuel fuel n j :
  0 < n → 2 ≤ fuel → next_anchor fuel n j = Some (if (j <? n)%nat then j else 0).
Proof.
  intros Hn Hf. destruct fuel as [|[|fuel]]; [lia|lia|]. simpl.
  destruct (Nat.ltb_spec j n); [done|]. by destruct (Nat.ltb_spec 0 n); [|lia].
Qed.

Lemma next_anchor_empty fuel j : next_anchor fuel 0 j = None.
Proof. revert j. induction fuel as [|fuel IH]; intros j; [done|]. simpl. apply IH. Qed.

Section MachineLemmas.
Context {G : Type} `{!RandomInterval G}.

Lemma run_from_yields env cs bs j (g : G) :
  env_wf env cs → 0 < length (image_fnames env) → bs_fits env cs bs →
  let i := if (j <? length (image_fnames env))%nat then j else 0 in
  ∃ X y fr g', run_from 2 bs env j g = Some (Yielded X y, GenSuspended env i fr, g').
Proof.
  intros Hwf Hn Hfit i. unfold run_from. rewrite next_anchor_resume by done. fold i.
  assert (Hi : i < length (image_fnames env)) by (unfold i; destruct (Nat.ltb_spec j (length (image_fnames env))); lia).
  destruct (gen_step_run env cs bs i g Hwf Hi (Hfit i Hi)) as (s & e & sel & g' & _ & _ & ->).
  by eexists _, _, _, _.
Qed.

Lemma gen_run_suspended args env cs k i fr (g : G) :
  env_wf env cs → 0 < length (image_fnames env) → bs_fits env cs (ga_batch_size args) →
  i < length (image_fnames env) →
  ∃ os fr' g', gen_run 2 args k (GenSuspended env i fr) g =
               Some (os, GenSuspended env ((i + k) mod length (image_fnames env)) fr', g') ∧
               length os = k ∧ Forall is_yield os.
Proof.
  intros Hwf Hn Hfit. revert i fr g. induction k as [|k IH]; intros i fr g Hi.
  - exists [], fr, g. rewrite Nat.add_0_r, Nat.mod_small by done. done.
  - simpl. destruct (run_from_yields env cs (ga_batch_size args) (S i) g Hwf Hn Hfit)
      as (X & y & fr1 & g1 & ->).
    set (i1 := if (S i <? length (image_fnames env))%nat then S i else 0).
    assert (Hi1 : i1 < length (image_fnames env)) by (unfold i1; destruct (Nat.ltb_spec (S i) (length (image_fnames env))); lia).
    destruct (IH i1 fr1 g1 Hi1) as (os & fr' & g' & -> & Hlen & Hall).
    exists (Yielded X y :: os), fr', g'. split; [|split; [simpl; lia|by constructor]].
    assert (Hmod : (i1 + k) mod length (image_fnames env) =
                   (i + S k) mod length (image_fnames env)).
    { unfold i1. destruct (Nat.ltb_spec (S i) (length (image_fnames env))).
      - f_equal. lia.
      - replace (i + S k) with (k + 1 * length (image_fnames env)) by lia.
        by rewrite Nat.add_0_l, Nat.Div0.mod_add. }
    by rewrite Hmod.
Qed.

(** C5: a generator over a well-formed, non-empty store whose batch size
    fits every anchor never stops: the first [k + 1] calls of [next()]
    all return a batch, and after them the generator is suspended at
    anchor [k mod DATASET_SIZE]; so the anchors run [0, 1, ..., N-1, 0,
    ...] and after [N] steps the cursor is back where it started. *)
Theorem gen_cycle args env cs k (g : G) :
  gen_setup (ga_train args) (ga_words args) (ga_ranges args) = Ok env →
  env_wf env cs → 0 < length (image_fnames env) → bs_fits env cs (ga_batch_size args) →
  ∃ os fr g', gen_run 2 args (S k) GenCreated g =
              Some (os, GenSuspended env (k mod length (image_fnames env)) fr, g') ∧
              length os = S k ∧ Forall is_yield os.
Proof.
  intros Hsetup Hwf Hn Hfit. simpl. rewrite Hsetup.
  destruct (run_from_yields env cs (ga_batch_size args) 0 g Hwf Hn Hfit) as (X & y & fr0 & g0 & ->).
  destruct (Nat.ltb_spec 0 (length (image_fnames env))); [|lia].
  destruct (gen_run_suspended args env cs k 0 fr0 g0 Hwf Hn Hfit) as (os & fr & g' & -> & Hlen & Hall);
    [done|].
  exists (Yielded X y :: os), fr, g'. split; [done|]. split; [simpl; lia|by constructor].
Qed.

(** C16: over an empty store, the first [next()] never returns: for
    every fuel the [while 1] loop is still spinning without a [yield]. *)
Theorem gen_empty_store_spins args env fuel (g : G) :
  gen_setup (ga_train args) (ga_words args) (ga_ranges args) = Ok env →
  image_fnames env = [] →
  gen_next fuel args GenCreated g = None.
Proof.
  intros Hsetup Hnil. simpl. rewrite Hsetup. unfold run_from. rewrite Hnil.
  by rewrite next_anchor_empty.
Qed.

Lemma run_from_returns fuel bs env j (g : G) :
  0 < length (image_fnames env) → 2 ≤ fuel → is_Some (run_from fuel bs env j g).
Proof.
  intros Hn Hf. unfold run_from. rewrite next_anchor_fuel by done.
  destruct (gen_step env bs _ g) as [g' [fr|e]]; by eexists.
Qed.

(** C31: termination of one [next()]: with a fuel of two passes of
    [while 1] or more, [next()] returns (a batch, an exception or
    [StopIteration]) from a closed generator, from a suspended one over a
    non-empty store, and from a fresh one whose setup fails or yields a
    non-empty store, whatever the data: the loop body always ends and the
    anchor is found within one wrap-around. *)
Theorem gen_next_returns args fuel (g : G) :
  2 ≤ fuel →
  ((∀ env, gen_setup (ga_train args) (ga_words args) (ga_ranges args) = Ok env →
           0 < length (image_fnames env)) → is_Some (gen_next fuel args GenCreated g)) ∧
  (∀ env i fr, 0 < length (image_fnames env) → is_Some (gen_next fuel args (GenSuspended env i fr) g)) ∧
  is_Some (gen_next fuel args GenClosed g).
Proof.
  intros Hf. split_and!; [|intros env i fr Hn; by apply run_from_returns|by eexists].
  intros Hne. simpl. destruct (gen_setup _ _ _) as [env|e] eqn:E; [|by eexists].
  apply run_from_returns; [by apply Hne|done].
Qed.

End MachineLemmas.

(** ** The word mapping *)

Lemma build_word_mapping_from_None i ws m w :
  build_word_mapping_from i ws m !! w = None ↔ (w ∉ ws) ∧ m !! w = None.
Proof.
  revert i m. induction ws as [|x ws IH]; intros i m; simpl.
  - split; [intros; split; [apply not_elem_of_nil|]|intros []]; done.
  - rewrite IH, not_elem_of_cons, lookup_insert_None. naive_solver.
Qed.

Lemma build_word_mapping_from_Some i ws m w k :
  build_word_mapping_from i ws m !! w = Some k →
  (∃ j, k = i + j ∧ ws !! j = Some w ∧ ∀ j', j < j' → ws !! j' ≠ Some w) ∨
  ((w ∉ ws) ∧ m !! w = Some k).
Proof.
  revert i m. induction ws as [|x ws IH]; intros i m Hk; simpl in Hk.
  - right. split; [apply not_elem_of_nil|done].
  - destruct (IH (S i) _ Hk) as [(j & -> & Hj & Hlast)|[Hw Hm]].
    + left. exists (S j). split; [lia|]. split; [done|].
      intros [|j'] ?; [lia|]. simpl. apply Hlast. lia.
    + destruct (decide (x = w)) as [->|Hne].
      * rewrite lookup_insert_eq in Hm. injection Hm as <-. left. exists 0.
        split; [lia|]. split; [done|]. intros [|j'] ? Hj'; [lia|].
        apply Hw. by eapply list_elem_of_lookup_2.
      * rewrite lookup_insert_ne in Hm by done. right. split; [|done].
        rewrite not_elem_of_cons. auto.
Qed.

(** ** The examples *)

Lemma ex_setup : gen_setup ex_train ex_words ex_ranges = Ok ex_env.
Proof. vm_compute. reflexivity. Qed.

Lemma ex_env_wf : env_wf ex_env ex_labels.
Proof.
  split; [vm_compute; reflexivity|]. split; [vm_compute; reflexivity|].
  split; [simpl; lia|]. split.
  - apply Forall_fmap, Forall_forall. intros k _. apply length_replicate.
  - intros c Hc. unfold ex_labels in Hc. repeat (apply elem_of_cons in Hc as [->|Hc]);
      [..|by apply not_elem_of_nil in Hc];
      eexists _, _; (split; [reflexivity|]); (split; [reflexivity|]); apply length_replicate.
Qed.

Lemma ex_bs_fits : bs_fits ex_env ex_labels 2.
Proof.
  intros i Hi. simpl in Hi. destruct i as [|[|[|[|i]]]]; try lia; vm_compute; split; discriminate.
Qed.

Lemma gen_step_ok_witness :
  env_wf ex_env ex_labels ∧ 0 < length (image_fnames ex_env) ∧
  (1 ≤ 2 ≤ Z.of_nat (neg_pool ex_env (ex_labels !!! 0%nat)))%Z ∧
  ∃ s e sel g', class_ranges ex_env !! (ex_labels !!! 0) = Some (s, e) ∧
    select_negatives s e (length (image_fnames ex_env)) 2 123%N = (g', Ok sel) ∧
    gen_step ex_env 2 0 123%N =
      (g', Ok (mk_frame (vrow ex_env <$> 0 :: sel)
                        ((λ k, erow ex_env (ex_labels !!! k)) <$> 0 :: sel) sel)).
Proof.
  split; [apply ex_env_wf|]. split; [simpl; lia|]. split; [apply ex_bs_fits; simpl; lia|].
  apply gen_step_ok; [apply ex_env_wf|simpl; lia|apply ex_bs_fits; simpl; lia].
Defined.

Lemma gen_step_negatives_witness :
  env_wf ex_env ex_labels ∧ 2 < length (image_fnames ex_env) ∧
  (1 ≤ 2 ≤ Z.of_nat (neg_pool ex_env (ex_labels !!! 2%nat)))%Z ∧
  ∃ fr g', gen_step ex_env 2 2 123%N = (g', Ok fr) ∧
    length (fr_selected fr) = Z.to_nat 2 ∧ StronglySorted Nat.lt (fr_selected fr) ∧
    ∀ n, n ∈ fr_selected fr →
      n < length (image_fnames ex_env) ∧ ex_labels !! n ≠ Some (ex_labels !!! 2).
Proof.
  split; [apply ex_env_wf|]. split; [simpl; lia|]. split; [apply ex_bs_fits; simpl; lia|].
  apply gen_step_negatives; [apply ex_env_wf|simpl; lia|apply ex_bs_fits; simpl; lia].
Defined.

Lemma gen_cycle_witness :
  gen_setup (ga_train ex_args) (ga_words ex_args) (ga_ranges ex_args) = Ok ex_env ∧
  env_wf ex_env ex_labels ∧ 0 < length (image_fnames ex_env) ∧
  bs_fits ex_env ex_labels (ga_batch_size ex_args) ∧
  ∃ os fr g', gen_run 2 ex_args 5 GenCreated 123%N =
              Some (os, GenSuspended ex_env (4 mod length (image_fnames ex_env)) fr, g') ∧
              length os = 5 ∧ Forall is_yield os.
Proof.
  split; [apply ex_setup|]. split; [apply ex_env_wf|]. split; [simpl; lia|].
  split; [apply ex_bs_fits|].
  apply (gen_cycle ex_args ex_env ex_labels 4);
    [apply ex_setup|apply ex_env_wf|simpl; lia|apply ex_bs_fits].
Defined.

Lemma gen_step_width_mismatch_witness :
  let env := mk_env ex_fnames ex_ranges (mk_dataset [[1; 2]; [3; 4]]%Z 2 (Some 2)) ex_embeds
                    (<["c" := 2]> (<["b" := 1]> {["a" := 0]})) in
  (0 ≤ 2)%Z ∧ ds_rows (vgg_feats env) !! 0 = Some [1; 2]%Z ∧
  length [1; 2]%Z ≠ X_COLS ∧ length [1; 2]%Z ≠ 1 ∧
  gen_step env 2 0 123%N = (123%N, Err np_broadcast_err).
Proof.
  intros env. split; [lia|]. split; [reflexivity|]. split; [cbv; lia|]. split; [cbv; lia|].
  apply (gen_step_width_mismatch env 2 0 [1; 2]%Z); [lia|reflexivity|cbv; lia|cbv; lia].
Defined.

Lemma gen_step_batch_size_zero_witness :
  env_wf ex_env ex_labels ∧ 0 < length (image_fnames ex_env) ∧
  ∃ g', gen_step ex_env 0 0 123%N = (g', Err (ValueError "need at least one array to concatenate")).
Proof.
  split; [apply ex_env_wf|]. split; [simpl; lia|].
  apply (gen_step_batch_size_zero ex_env ex_labels); [apply ex_env_wf|simpl; lia].
Defined.

Lemma gen_empty_store_spins_witness :
  let args := mk_args 2 (mk_h5file {["data/features" := mk_dataset [] X_COLS None]}
                                    {["data/fnames" := mk_dataset [] 1 None]}) ex_words ex_ranges in
  ∃ env, gen_setup (ga_train args) (ga_words args) (ga_ranges args) = Ok env ∧
    image_fnames env = [] ∧ gen_next 1000 args GenCreated 123%N = None.
Proof.
  intros args. eexists. split; [vm_compute; reflexivity|]. split; [reflexivity|].
  apply gen_empty_store_spins with (env := mk_env [] ex_ranges (mk_dataset [] X_COLS None)
      ex_embeds (<["c" := 2]> (<["b" := 1]> {["a" := 0]}))); [vm_compute; reflexivity|done].
Defined.

(** C20: the word mapping [{l[0]: i for i, l in enumerate(word_names)}]
    has exactly the words of the table as keys, and maps a word to the row
    of its last occurrence: a duplicated word keeps the later row. *)
Theorem build_word_mapping_last ws w :
  (build_word_mapping ws !! w = None ↔ w ∉ ws) ∧
  (∀ k, build_word_mapping ws !! w = Some k →
        ws !! k = Some w ∧ ∀ j, k < j → ws !! j ≠ Some w).
Proof.
  split.
  - unfold build_word_mapping. rewrite build_word_mapping_from_None. set_solver.
  - intros k Hk. destruct (build_word_mapping_from_Some 0 ws ∅ w k Hk)
      as [(j & -> & Hj & Hlast)|[_ Hm]]; [done|by rewrite lookup_empty in Hm].
Qed.

Lemma gen_step_missing_word_witness :
  gen_step (mk_env ex_fnames ex_ranges ex_feats ex_embeds {["b" := 1]}) 2 0 123%N =
    (123%N, Err (KeyError (ex_labels !!! 0))).
Proof.
  apply (gen_step_missing_word _ ex_labels 2 0 (replicate X_COLS 0%Z)).
  - vm_compute. reflexivity.
  - simpl. lia.
  - lia.
  - vm_compute. reflexivity.
  - apply length_replicate.
  - vm_compute. reflexivity.
Defined.

Lemma gen_step_shape_witness :
  let fr := match (gen_step ex_env 2 0 123%N).2 with Ok fr => fr | Err _ => mk_frame [] [] [] end in
  length (fr_X fr) = Z.to_nat (1 + 2) ∧ Forall (λ r, length r = X_COLS) (fr_X fr) ∧
  length (fr_y fr) = Z.to_nat (1 + 2) ∧ Forall (λ r, length r = Y_COLS) (fr_y fr).
Proof.
  intros fr. apply (gen_step_shape ex_env 2 0 123%N (gen_step ex_env 2 0 123%N).1).
  unfold fr. vm_compute. reflexivity.
Defined.

Lemma gen_next_returns_witness :
  2 ≤ 2 ∧
  ((∀ env, gen_setup (ga_train ex_args) (ga_words ex_args) (ga_ranges ex_args) = Ok env →
           0 < length (image_fnames env)) → is_Some (gen_next 2 ex_args GenCreated 123%N)) ∧
  (∀ env i fr, 0 < length (image_fnames env) → is_Some (gen_next 2 ex_args (GenSuspended env i fr) 123%N)) ∧
  is_Some (gen_next 2 ex_args GenClosed 123%N).
Proof. split; [lia|]. apply gen_next_returns. lia. Defined.

End Generator.
