(* ===== verification/Config.v ===== *)
(** * Configuration: [load_configs] (extract_features_and_dump.py, lines 23-52)

    [ConfigParser.RawConfigParser] reads [local.cfg] into sections of
    options; option names pass through [optionxform], which lower-cases
    them, both when the file is read and when an option is asked for.
    [get] falls back on the [DEFAULT] section and raises [NoSectionError]
    or [NoOptionError]; [getint] is
    [int(get(...))], which accepts surrounding whitespace, a sign and
    decimal digits and raises [ValueError] otherwise.  [load_configs]
    assigns the module's globals one statement after the other, so an
    exception leaves the assignments before it in place: it runs in the
    [io] monad over the globals. *)

From S2P Require Import Prelude PyBuiltins.

Module Config.

(** ** The parsed configuration file *)

(** [optionxform]: ASCII lower-casing. *)
Definition ascii_lower (c : Ascii.ascii) : Ascii.ascii :=
  let n := Ascii.nat_of_ascii c in
  if (65 <=? n)%nat && (n <=? 90)%nat then Ascii.ascii_of_nat (n + 32) else c.

Fixpoint str_lower (s : string) : string :=
  match s with
  | EmptyString => EmptyString
  | String c s' => String (ascii_lower c) (str_lower s')
  end.

(** What [read] leaves: the options of the [DEFAULT] section, and the
    other sections' options, option names already passed through
    [optionxform]. *)
Record cfg_file := mk_cfg {
  cfg_defaults : gmap string string;
  cfg_sections : gmap string (gmap string string)
}.

(** [RawConfigParser.get(section, option)] (Python 2.7): an option missing
    from its section is looked up in [DEFAULT]; the [DEFAULT] section
    itself is not one of the sections. *)
Definition cfg_get (cfg : cfg_file) (section option : string) : res string :=
  let opt := str_lower option in
  let from_defaults :=
    match cfg_defaults cfg !! opt with
    | Some v => Ok v
    | None => Err (NoOptionError option section)
    end in
  match cfg_sections cfg !! section with
  | None => if String.eqb section "DEFAULT" then from_defaults else Err (NoSectionError section)
  | Some opts =>
      match opts !! opt with
      | Some v => Ok v
      | None => from_defaults
      end
  end.

(** ** [int(s)] on a string *)

Definition is_py_space (c : Ascii.ascii) : bool :=
  bool_decide (c ∈ [" "; "009"; "010"; "011"; "012"; "013"]%char).

Fixpoint lstrip (s : string) : string :=
  match s with
  | String c s' => if is_py_space c then lstrip s' else s
  | EmptyString => EmptyString
  end.

Fixpoint rstrip (s : string) : string :=
  match s with
  | String c s' =>
      let r := rstrip s' in
      match r with
      | EmptyString => if is_py_space c then EmptyString else String c EmptyString
      | _ => String c r
      end
  | EmptyString => EmptyString
  end.

Definition strip (s : string) : string := rstrip (lstrip s).

Definition digit_value (c : Ascii.ascii) : option Z :=
  let n := Ascii.nat_of_ascii c in
  if (48 <=? n)%nat && (n <=? 57)%nat then Some (Z.of_nat (n - 48)) else None.

(** The value of a non-empty run of decimal digits, read left to right. *)
Fixpoint digits_value (acc : Z) (s : string) : option Z :=
  match s with
  | EmptyString => Some acc
  | String c s' => d ← digit_value c; digits_value (10 * acc + d)%Z s'
  end.

Definition parse_unsigned (s : string) : option Z :=
  match s with
  | EmptyString => None
  | _ => digits_value 0 s
  end.

(** [int(s)] with base 10. *)
Definition py_int (s : string) : res Z :=
  let t := strip s in
  let r := match t with
           | String "-" t' => Z.opp <$> parse_unsigned t'
           | String "+" t' => parse_unsigned t'
           | _ => parse_unsigned t
           end in
  match r with
  | Some z => Ok z
  | None => Err (ValueError ("invalid literal for int() with base 10: " ++ s)%string)
  end.

(** [config.getint(section, option)]. *)
Definition cfg_getint (cfg : cfg_file) (section option : string) : res Z :=
  v ← cfg_get cfg section option; py_int v.

(** ** The module's globals *)

Record globals := mk_globals {
  IMAGE_DIM : option Z;
  WORD_DIM : option Z;
  h5_training : option string;
  h5_validation : option string;
  embeddings_path : option string;
  weights_path : option string;
  VGG_BATCH : option Z;
  images_path : option string;
  dump_path : option string;
  image_class_ranges : option string
}.

Definition no_globals : globals :=
  mk_globals None None None None None None None None None None.

(** One assignment [NAME = expr] of a global. *)
Definition set_IMAGE_DIM v : io globals unit := λ g,
  (mk_globals (Some v) (WORD_DIM g) (h5_training g) (h5_validation g) (embeddings_path g)
     (weights_path g) (VGG_BATCH g) (images_path g) (dump_path g) (image_class_ranges g), Ok ()).
Definition set_WORD_DIM v : io globals unit := λ g,
  (mk_globals (IMAGE_DIM g) (Some v) (h5_training g) (h5_validation g) (embeddings_path g)
     (weights_path g) (VGG_BATCH g) (images_path g) (dump_path g) (image_class_ranges g), Ok ()).
Definition set_h5_training v : io globals unit := λ g,
  (mk_globals (IMAGE_DIM g) (WORD_DIM g) (Some v) (h5_validation g) (embeddings_path g)
     (weights_path g) (VGG_BATCH g) (images_path g) (dump_path g) (image_class_ranges g), Ok ()).
Definition set_h5_validation v : io globals unit := λ g,
  (mk_globals (IMAGE_DIM g) (WORD_DIM g) (h5_training g) (Some v) (embeddings_path g)
     (weights_path g) (VGG_BATCH g) (images_path g) (dump_path g) (image_class_ranges g), Ok ()).
Definition set_embeddings_path v : io globals unit := λ g,
  (mk_globals (IMAGE_DIM g) (WORD_DIM g) (h5_training g) (h5_validation g) (Some v)
     (weights_path g) (VGG_BATCH g) (images_path g) (dump_path g) (image_class_ranges g), Ok ()).
Definition set_weights_path v : io globals unit := λ g,
  (mk_globals (IMAGE_DIM g) (WORD_DIM g) (h5_training g) (h5_validation g) (embeddings_path g)
     (Some v) (VGG_BATCH g) (images_path g) (dump_path g) (image_class_ranges g), Ok ()).
Definition set_VGG_BATCH v : io globals unit := λ g,
  (mk_globals (IMAGE_DIM g) (WORD_DIM g) (h5_training g) (h5_validation g) (embeddings_path g)
     (weights_path g) (Some v) (images_path g) (dump_path g) (image_class_ranges g), Ok ()).
Definition set_images_path v : io globals unit := λ g,
  (mk_globals (IMAGE_DIM g) (WORD_DIM g) (h5_training g) (h5_validation g) (embeddings_path g)
     (weights_path g) (VGG_BATCH g) (Some v) (dump_path g) (image_class_ranges g), Ok ()).
Definition set_dump_path (v : option string) : io globals unit := λ g,
  (mk_globals (IMAGE_DIM g) (WORD_DIM g) (h5_training g) (h5_validation g) (embeddings_path g)
     (weights_path g) (VGG_BATCH g) (images_path g) v (image_class_ranges g), Ok ()).
Definition set_image_class_ranges v : io globals unit := λ g,
  (mk_globals (IMAGE_DIM g) (WORD_DIM g) (h5_training g) (h5_validation g) (embeddings_path g)
     (weights_path g) (VGG_BATCH g) (images_path g) (dump_path g) (Some v), Ok ()).

(** [load_configs(run_type)] (lines 23-52). *)
Definition load_configs (cfg : cfg_file) (run_type : string) : io globals unit :=
  v ← io_lift (cfg_getint cfg "training" "IMAGE_DIM"); set_IMAGE_DIM v;;
  v ← io_lift (cfg_getint cfg "training" "WORD_DIM"); set_WORD_DIM v;;
  v ← io_lift (cfg_get cfg "h5" "h5_training"); set_h5_training v;;
  v ← io_lift (cfg_get cfg "h5" "h5_validation"); set_h5_validation v;;
  v ← io_lift (cfg_get cfg "h5" "h5_embeddings"); set_embeddings_path v;;
  v ← io_lift (cfg_get cfg "other" "WEIGHTS_PATH"); set_weights_path v;;
  v ← io_lift (cfg_getint cfg "training" "VGG_BATCH"); set_VGG_BATCH v;;
  if String.eqb run_type "TRAIN" then
    v ← io_lift (cfg_get cfg "data location" "TRAINING_DATA_FOLDER_CLEAN"); set_images_path v;;
    g ← io_get; set_dump_path (h5_training g);;
    v ← io_lift (cfg_get cfg "other" "TRAINING_CLASS_RANGES"); set_image_class_ranges v
  else if String.eqb run_type "VALID" then
    v ← io_lift (cfg_get cfg "data location" "VALIDATION_DATA_FOLDER_CLEAN"); set_images_path v;;
    g ← io_get; set_dump_path (h5_validation g);;
    v ← io_lift (cfg_get cfg "other" "VALIDATION_CLASS_RANGES"); set_image_class_ranges v
  else io_raise (ValueError "Argument Must be TRAIN/VALID").

(** [RawConfigParser.read] on the parsed [(section, [(option, value)])]
    headers and lines, in file order: option names pass through
    [optionxform], a later line for the same option overrides an earlier
    one, a repeated section header adds to the same section, and
    [DEFAULT] goes to the defaults. *)
Definition cfg_add_option (opts : gmap string string) (ov : string * string) : gmap string string :=
  <[str_lower ov.1 := ov.2]> opts.

Definition cfg_add_section (cfg : cfg_file) (sec : string * list (string * string)) : cfg_file :=
  if String.eqb sec.1 "DEFAULT" then mk_cfg (foldl cfg_add_option (cfg_defaults cfg) sec.2) (cfg_sections cfg)
  else mk_cfg (cfg_defaults cfg)
         (<[sec.1 := foldl cfg_add_option (default ∅ (cfg_sections cfg !! sec.1)) sec.2]> (cfg_sections cfg)).

Definition cfg_read (sections : list (string * list (string * string))) : cfg_file :=
  foldl cfg_add_section (mk_cfg ∅ ∅) sections.

(** The seven reads every run type does succeed. *)
Definition common_ok (cfg : cfg_file) : bool :=
  is_ok (cfg_getint cfg "training" "IMAGE_DIM") && is_ok (cfg_getint cfg "training" "WORD_DIM") &&
  is_ok (cfg_get cfg "h5" "h5_training") && is_ok (cfg_get cfg "h5" "h5_validation") &&
  is_ok (cfg_get cfg "h5" "h5_embeddings") && is_ok (cfg_get cfg "other" "WEIGHTS_PATH") &&
  is_ok (cfg_getint cfg "training" "VGG_BATCH").

Definition res_to_option {A} (r : res A) : option A :=
  match r with Ok a => Some a | Err _ => None end.

(** A configuration file, for the examples. *)
Definition ex_cfg : cfg_file :=
  cfg_read [("training", [("IMAGE_DIM", " 4096"); ("WORD_DIM", "50"); ("VGG_BATCH", "2")]);
            ("h5", [("h5_training", "train.h5"); ("h5_validation", "valid.h5");
                    ("h5_embeddings", "words.h5")]);
            ("other", [("WEIGHTS_PATH", "vgg16.h5"); ("TRAINING_CLASS_RANGES", "tr.pkl");
                       ("VALIDATION_CLASS_RANGES", "va.pkl")]);
            ("data location", [("TRAINING_DATA_FOLDER_CLEAN", "root");
                               ("VALIDATION_DATA_FOLDER_CLEAN", "vroot")])]%string.

(** ** Lemmas *)

#[local] Arguments cfg_get : simpl never.
#[local] Arguments cfg_getint : simpl never.
#[local] Arguments String.eqb : simpl never.

(** The seven reads common to both run types, after [unfold]ing the
    monad: each one succeeds or the whole call raises with the run paths
    untouched. *)
Ltac common_reads :=
  unfold load_configs, mbind, io_bind, io_lift, io_get, io_raise;
  destruct (cfg_getint _ "training" "IMAGE_DIM") as [?|?e] eqn:?; simpl;
  [destruct (cfg_getint _ "training" "WORD_DIM") as [?|?e] eqn:?; simpl|];
  [destruct (cfg_get _ "h5" "h5_training") as [?|?e] eqn:?; simpl| |];
  [destruct (cfg_get _ "h5" "h5_validation") as [?|?e] eqn:?; simpl| | |];
  [destruct (cfg_get _ "h5" "h5_embeddings") as [?|?e] eqn:?; simpl| | | |];
  [destruct (cfg_get _ "other" "WEIGHTS_PATH") as [?|?e] eqn:?; simpl| | | | |];
  [destruct (cfg_getint _ "training" "VGG_BATCH") as [?|?e] eqn:?; simpl| | | | | |].

(** A successful [load_configs("TRAIN")] has read both training
    options. *)
Lemma load_configs_train_reads cfg g g' :
  load_configs cfg "TRAIN" g = (g', Ok ()) →
  is_ok (cfg_get cfg "data location" "TRAINING_DATA_FOLDER_CLEAN") = true ∧
  is_ok (cfg_get cfg "other" "TRAINING_CLASS_RANGES") = true.
Proof.
  remember "TRAIN"%string as rt eqn:Hrt.
  assert (Ht : String.eqb rt "TRAIN" = true) by (subst rt; vm_compute; reflexivity).
  common_reads; rewrite ?Ht; try discriminate.
  destruct (cfg_get _ "data location" "TRAINING_DATA_FOLDER_CLEAN"); simpl; [|discriminate].
  by destruct (cfg_get _ "other" "TRAINING_CLASS_RANGES").
Qed.

(** C27: a run type other than ["TRAIN"] and ["VALID"] makes
    [load_configs] raise; the paths of the run ([images_path],
    [dump_path], [image_class_ranges]) keep the values of the previous
    call, while the globals read before the check have been updated; with
    the common options present the exception is the [ValueError] of
    line 52. *)
Theorem load_configs_bad_run_type cfg rt g :
  rt ≠ "TRAIN"%string → rt ≠ "VALID"%string →
  ∃ g' e, load_configs cfg rt g = (g', Err e) ∧
    images_path g' = images_path g ∧ dump_path g' = dump_path g ∧
    image_class_ranges g' = image_class_ranges g ∧
    (common_ok cfg = true → e = ValueError "Argument Must be TRAIN/VALID").
Proof.
  intros Htr Hva.
  assert (Hrt : String.eqb rt "TRAIN" = false ∧ String.eqb rt "VALID" = false).
  { split; by apply String.eqb_neq. }
  destruct Hrt as [Ht Hv].
  common_reads; rewrite ?Ht, ?Hv; (eexists _, _; split; [reflexivity|]; split_and!; try reflexivity;
    unfold common_ok; intros Hok; rewrite ?Heqr, ?Heqr0, ?Heqr1, ?Heqr2, ?Heqr3, ?Heqr4, ?Heqr5 in Hok;
    simpl in Hok; rewrite ?andb_false_r in Hok; done).
Qed.

(** C28: with every option present, [load_configs("TRAIN")] succeeds and
    selects the training paths: [dump_path] is the [h5_training] global,
    and [IMAGE_DIM] is the option [image_dim] read through [optionxform]. *)
Theorem load_configs_train cfg g ip cr :
  common_ok cfg = true →
  cfg_get cfg "data location" "TRAINING_DATA_FOLDER_CLEAN" = Ok ip →
  cfg_get cfg "other" "TRAINING_CLASS_RANGES" = Ok cr →
  ∃ g', load_configs cfg "TRAIN" g = (g', Ok ()) ∧
    images_path g' = Some ip ∧ dump_path g' = h5_training g' ∧
    h5_training g' = res_to_option (cfg_get cfg "h5" "h5_training") ∧
    IMAGE_DIM g' = res_to_option (cfg_getint cfg "training" "IMAGE_DIM") ∧
    image_class_ranges g' = Some cr.
Proof.
  intros Hok Hip Hcr. unfold common_ok in Hok.
  remember "TRAIN"%string as rt eqn:Hrt.
  assert (Ht : String.eqb rt "TRAIN" = true) by (subst rt; vm_compute; reflexivity).
  common_reads; rewrite ?Ht; rewrite ?Heqr, ?Heqr0, ?Heqr1, ?Heqr2, ?Heqr3, ?Heqr4, ?Heqr5 in Hok;
    simpl in Hok; rewrite ?andb_false_r in Hok; try discriminate.
  rewrite Hip, Hcr. simpl. eexists. split; [reflexivity|]. simpl.
  split_and!; reflexivity.
Qed.

Lemma load_configs_train_witness :
  common_ok ex_cfg = true ∧
  cfg_get ex_cfg "data location" "TRAINING_DATA_FOLDER_CLEAN" = Ok "root"%string ∧
  cfg_get ex_cfg "other" "TRAINING_CLASS_RANGES" = Ok "tr.pkl"%string ∧
  ∃ g', load_configs ex_cfg "TRAIN" no_globals = (g', Ok ()) ∧
    images_path g' = Some "root"%string ∧ dump_path g' = h5_training g' ∧
    h5_training g' = res_to_option (cfg_get ex_cfg "h5" "h5_training") ∧
    IMAGE_DIM g' = res_to_option (cfg_getint ex_cfg "training" "IMAGE_DIM") ∧
    image_class_ranges g' = Some "tr.pkl"%string.
Proof.
  split; [vm_compute; reflexivity|]. split; [vm_compute; reflexivity|].
  split; [vm_compute; reflexivity|].
  apply load_configs_train; vm_compute; reflexivity.
Defined.

Lemma load_configs_bad_run_type_witness :
  "TEST"%string ≠ "TRAIN"%string ∧ "TEST"%string ≠ "VALID"%string ∧
  ∃ g' e, load_configs ex_cfg "TEST" no_globals = (g', Err e) ∧
    images_path g' = images_path no_globals ∧ dump_path g' = dump_path no_globals ∧
    image_class_ranges g' = image_class_ranges no_globals ∧
    (common_ok ex_cfg = true → e = ValueError "Argument Must be TRAIN/VALID").
Proof.
  split; [discriminate|]. split; [discriminate|].
  apply load_configs_bad_run_type; discriminate.
Defined.

End Config.
