(* ===== verification/Vgg.v ===== *)
(** * VGG16 feature extractor: [define_model] (lines 163-212)

    [define_model] stacks Keras layers on an [Input] of shape
    [(3, 224, 224)], wraps them in a [Model] and loads pretrained weights
    by layer name.  What the code decides is the architecture: the kinds,
    names, sizes and order of the layers.  The model keeps that list and
    runs Keras's shape inference over it, layer by layer as Python calls
    them: a [Conv2D] with [padding='same'] keeps the spatial size, a
    [MaxPooling2D] with the default [padding='valid'] floors it by the
    stride and is refused by the TensorFlow backend on an input smaller
    than the window, [Flatten] refuses an input with a zero dimension,
    [Dense] maps the last axis.  Which axis holds the channels is the
    backend's [image_data_format] (from [keras.json], outside the program),
    a parameter here.  [Model(...)] refuses duplicate layer names, and
    [load_weights(path, by_name=True)] opens the file ([IOError] when it
    is missing) and, for each layer of the file that the model has by
    name, checks the number and then the shapes of the weights.  The
    numeric forward pass (weights and activations) is not modelled: the
    driver receives it as its [predict] parameter.  A negative unit count,
    which TensorFlow refuses when it creates the weights, is not refused
    here; in [define_model] only a negative [IMAGE_DIM] gives one. *)

From S2P Require Import Prelude.

Module Vgg.

Local Open Scope Z_scope.

(** ** Keras layers *)

Inductive data_format := ChannelsFirst | ChannelsLast.
Inductive padding := Same | Valid.
Inductive activation := Relu | Linear.

#[export] Instance data_format_eq_dec : EqDecision data_format.
Proof. solve_decision. Defined.
#[export] Instance padding_eq_dec : EqDecision padding.
Proof. solve_decision. Defined.
#[export] Instance activation_eq_dec : EqDecision activation.
Proof. solve_decision. Defined.

(** The layer classes [define_model] uses, with the arguments it passes;
    [Conv2D]'s strides and [MaxPooling2D]'s padding take Keras's defaults
    [(1, 1)] and ['valid']. *)
Inductive layer :=
  | Conv2D (name : string) (filters : Z) (kernel : Z * Z) (act : activation) (pad : padding)
  | MaxPooling2D (name : string) (pool : Z * Z) (strides : Z * Z)
  | Flatten (name : string)
  | Dense (name : string) (units : Z) (act : activation).

Definition layer_name (l : layer) : string :=
  match l with
  | Conv2D n _ _ _ _ | MaxPooling2D n _ _ | Flatten n | Dense n _ _ => n
  end.

(** ** Shape inference *)

(** [conv_utils.conv_output_length] for a dilation of 1, with the
    backend's refusal of a ['valid'] window larger than its input
    ("Negative dimension size caused by subtracting ..."). *)
Definition conv_output_length (len filter : Z) (pad : padding) (stride : Z) : res Z :=
  match pad with
  | Same => Ok ((len + stride - 1) / stride)
  | Valid =>
      if len <? filter then Err (ValueError "Negative dimension size")
      else Ok ((len - filter + 1 + stride - 1) / stride)
  end.

(** The spatial axes and the channel axis of a 3-d (batch-free) shape. *)
Definition split_image_shape (df : data_format) (s : list Z) : res (Z * Z * Z) :=
  match df, s with
  | ChannelsFirst, [c; h; w] => Ok (c, h, w)
  | ChannelsLast, [h; w; c] => Ok (c, h, w)
  | _, _ => Err (ValueError "Input 0 is incompatible with layer: expected ndim=4")
  end.

Definition join_image_shape (df : data_format) (c h w : Z) : list Z :=
  match df with ChannelsFirst => [c; h; w] | ChannelsLast => [h; w; c] end.

(** [compute_output_shape] of each layer, on the shape without the batch
    axis. *)
Definition layer_output_shape (df : data_format) (l : layer) (s : list Z) : res (list Z) :=
  match l with
  | Conv2D _ filters (kh, kw) _ pad =>
      '(_, h, w) ← split_image_shape df s;
      h' ← conv_output_length h kh pad 1;
      w' ← conv_output_length w kw pad 1;
      Ok (join_image_shape df filters h' w')
  | MaxPooling2D _ (ph, pw) (sh, sw) =>
      '(c, h, w) ← split_image_shape df s;
      h' ← conv_output_length h ph Valid sh;
      w' ← conv_output_length w pw Valid sw;
      Ok (join_image_shape df c h' w')
  | Flatten _ =>
      if bool_decide (0 ∈ s) then Err (ValueError "The shape of the input to Flatten is not fully defined")
      else Ok [foldr Z.mul 1 s]
  | Dense _ units _ =>
      match s with
      | [] => Err (ValueError "Input 0 is incompatible with layer: expected min_ndim=2")
      | _ => Ok (removelast s ++ [units])
      end
  end.

(** The shapes of the weights a layer creates in [build] ([use_bias=True]):
    kernel then bias. *)
Definition layer_weight_shapes (df : data_format) (l : layer) (s : list Z) : list (list Z) :=
  match l with
  | Conv2D _ filters (kh, kw) _ _ =>
      let cin := match split_image_shape df s with Ok (c, _, _) => c | Err _ => 0 end in
      [[kh; kw; cin; filters]; [filters]]
  | Dense _ units _ => [[default 0 (last s); units]; [units]]
  | _ => []
  end.

(** Calling the layers in order, as [x = Layer(...)(x)] does: the output
    shape, and each layer's name and weight shapes. *)
Fixpoint build_layers (df : data_format) (s : list Z) (ls : list layer)
    : res (list Z * list (string * list (list Z))) :=
  match ls with
  | [] => Ok (s, [])
  | l :: ls' =>
      s' ← layer_output_shape df l s;
      '(out, ws) ← build_layers df s' ls';
      Ok (out, (layer_name l, layer_weight_shapes df l s) :: ws)
  end.

(** ** [define_model] *)

(** The layer stack of lines 171-200. *)
Definition vgg16_layers (IMAGE_DIM : Z) : list layer :=
  [ Conv2D "block1_conv1" 64 (3, 3) Relu Same; Conv2D "block1_conv2" 64 (3, 3) Relu Same;
    MaxPooling2D "block1_pool" (2, 2) (2, 2);
    Conv2D "block2_conv1" 128 (3, 3) Relu Same; Conv2D "block2_conv2" 128 (3, 3) Relu Same;
    MaxPooling2D "block2_pool" (2, 2) (2, 2);
    Conv2D "block3_conv1" 256 (3, 3) Relu Same; Conv2D "block3_conv2" 256 (3, 3) Relu Same;
    Conv2D "block3_conv3" 256 (3, 3) Relu Same;
    MaxPooling2D "block3_pool" (2, 2) (2, 2);
    Conv2D "block4_conv1" 512 (3, 3) Relu Same; Conv2D "block4_conv2" 512 (3, 3) Relu Same;
    Conv2D "block4_conv3" 512 (3, 3) Relu Same;
    MaxPooling2D "block4_pool" (2, 2) (2, 2);
    Conv2D "block5_conv1" 512 (3, 3) Relu Same; Conv2D "block5_conv2" 512 (3, 3) Relu Same;
    Conv2D "block5_conv3" 512 (3, 3) Relu Same;
    MaxPooling2D "block5_pool" (2, 2) (2, 2);
    Flatten "flatten";
    Dense "fc1" IMAGE_DIM Relu; Dense "fc2" IMAGE_DIM Relu ]%string.

(** A built Keras model: its layers' names and weight shapes, in order,
    and its output shape without the batch axis. *)
Record keras_model := mk_keras_model {
  km_weights : list (string * list (list Z));
  km_output_shape : list Z
}.

(** [Model(inputs=img_input, outputs=x, name="vgg16")]: layer names must
    be unique. *)
Definition keras_Model (df : data_format) (input_shape : list Z) (ls : list layer) : res keras_model :=
  '(out, ws) ← build_layers df input_shape ls;
  if bool_decide (NoDup (layer_name <$> ls)) then Ok (mk_keras_model ws out)
  else Err (ValueError "All layer names should be unique").

(** A weights file: its layer names in the file's order, each with the
    shapes of its saved weights. *)
Definition weights_file : Type := list (string * list (list Z)).

(** [load_weights(path, by_name=True)]: the file must exist; every layer
    of the file the model has by name must have as many weights as the
    model's layer (checked in the file's order), and the values are then
    assigned, which fails on a shape mismatch. *)
Definition load_weights_by_name (m : keras_model) (f : option weights_file) : res keras_model :=
  match f with
  | None => Err (IOError "Unable to open file")
  | Some wf =>
      let matched := omap (λ '(n, saved), (λ ws, (saved, ws)) <$> list_to_map (M := gmap string _)
                                                   (km_weights m) !! n) wf in
      if bool_decide (Forall (λ '(saved, ws), length saved = length ws) matched) then
        if bool_decide (Forall (λ '(saved, ws), saved = ws) matched) then Ok m
        else Err (ValueError "Cannot assign to variable: shapes are incompatible")
      else Err (ValueError "Layer expects a different number of weights than the saved weights")
  end.

(** [define_model(path)] (lines 163-212), on the backend's data format,
    the global [IMAGE_DIM] and the file at [path].
    [convert_all_kernels_in_model] flips the convolution kernels' values
    in place and changes no shape. *)
Definition define_model (df : data_format) (IMAGE_DIM : Z) (weights : option weights_file)
    : res keras_model :=
  m ← keras_Model df [3; 224; 224] (vgg16_layers IMAGE_DIM);
  load_weights_by_name m weights.

(** What the driver's environment fixes for Keras: the data format of
    [keras.json] and the weights files on disk. *)
Record keras_env := mk_keras_env {
  k_data_format : data_format;
  k_weights : string → option weights_file
}.

(** The number of trainable parameters, [model.count_params()]. *)
Definition weights_count (ws : list (list Z)) : Z := foldr (λ s acc, foldr Z.mul 1 s + acc) 0 ws.
Definition count_params (m : keras_model) : Z :=
  foldr (λ nw acc, weights_count nw.2 + acc) 0 (km_weights m).

(** The weight shapes of the VGG16 stack truncated after [fc2], on [c]
    input channels, [flat] inputs to [fc1] and a fully connected width
    [d]. *)
Definition vgg16_weight_shapes (c flat d : Z) : list (string * list (list Z)) :=
  [ ("block1_conv1", [[3; 3; c; 64]; [64]]); ("block1_conv2", [[3; 3; 64; 64]; [64]]);
    ("block1_pool", []);
    ("block2_conv1", [[3; 3; 64; 128]; [128]]); ("block2_conv2", [[3; 3; 128; 128]; [128]]);
    ("block2_pool", []);
    ("block3_conv1", [[3; 3; 128; 256]; [256]]); ("block3_conv2", [[3; 3; 256; 256]; [256]]);
    ("block3_conv3", [[3; 3; 256; 256]; [256]]); ("block3_pool", []);
    ("block4_conv1", [[3; 3; 256; 512]; [512]]); ("block4_conv2", [[3; 3; 512; 512]; [512]]);
    ("block4_conv3", [[3; 3; 512; 512]; [512]]); ("block4_pool", []);
    ("block5_conv1", [[3; 3; 512; 512]; [512]]); ("block5_conv2", [[3; 3; 512; 512]; [512]]);
    ("block5_conv3", [[3; 3; 512; 512]; [512]]); ("block5_pool", []);
    ("flatten", []); ("fc1", [[flat; d]; [d]]); ("fc2", [[d; d]; [d]]) ]%string.

(** The pretrained weights file of VGG16 (ImageNet, 3 x 224 x 224 inputs)
    for a fully connected width [d]; the published file has [d = 4096]. *)
Definition vgg16_weights (d : Z) : weights_file := vgg16_weight_shapes 3 25088 d.

(** ** Shape inference of the VGG16 stack *)

Lemma conv3_shape n f a c h w :
  layer_output_shape ChannelsFirst (Conv2D n f (3, 3) a Same) [c; h; w] = Ok [f; h; w].
Proof. cbn. by rewrite !Z.div_1_r, !Z.add_simpl_r. Qed.
Lemma pool_len len : conv_output_length len 2 Valid 2 = if len <? 2 then Err (ValueError "Negative dimension size") else Ok (len / 2).
Proof. unfold conv_output_length. destruct (len <? 2); [done|]. do 2 f_equal. lia. Qed.
Lemma pool2_shape n c h w :
  layer_output_shape ChannelsFirst (MaxPooling2D n (2, 2) (2, 2)) [c; h; w] =
    if bool_decide (2 ≤ h ∧ 2 ≤ w) then Ok [c; h / 2; w / 2]
    else Err (ValueError "Negative dimension size").
Proof.
  cbn -[conv_output_length]. rewrite !pool_len.
  destruct (Z.ltb_spec h 2), (Z.ltb_spec w 2); cbn;
    rewrite ?bool_decide_false, ?bool_decide_true by lia; done.
Qed.
Lemma half_ge k x : 2 * k ≤ x → k ≤ x / 2.
Proof. intros. apply Z.div_le_lower_bound; lia. Qed.
Lemma half_le k x : k ≤ x / 2 → 2 * k ≤ x.
Proof. intros. pose proof (Z.mul_div_le x 2). lia. Qed.
Local Ltac vgg_step :=
  first [ rewrite conv3_shape, res_bind_ret
        | rewrite pool2_shape;
          match goal with
          | |- context [bool_decide (2 ≤ ?a ∧ 2 ≤ ?b)] =>
              destruct (bool_decide_reflect (2 ≤ a ∧ 2 ≤ b)); [rewrite res_bind_ret|]
          end ].
Lemma half_nz x : 2 ≤ x → x / 2 ≠ 0.
Proof. intros. pose proof (half_ge 1 x). lia. Qed.
Lemma pool4_ge x : 2 ≤ x / 2 / 2 / 2 / 2 → 32 ≤ x.
Proof. intros H. do 4 apply half_le in H. lia. Qed.
Lemma flatten3_shape df n c a b :
  c ≠ 0 → a ≠ 0 → b ≠ 0 → layer_output_shape df (Flatten n) [c; a; b] = Ok [c * a * b].
Proof.
  intros. cbn -[bool_decide]. rewrite bool_decide_false; [do 2 f_equal; lia|].
  rewrite !elem_of_cons, elem_of_nil. lia.
Qed.
Lemma dense1_shape df n u a x : layer_output_shape df (Dense n u a) [x] = Ok [u].
Proof. done. Qed.
Lemma vgg16_names_NoDup D : NoDup (layer_name <$> vgg16_layers D).
Proof. apply (bool_decide_unpack _). by vm_compute. Qed.
Lemma div2_5 x : x / 2 / 2 / 2 / 2 / 2 = x / 32.
Proof. rewrite !Z.div_div by lia. reflexivity. Qed.
(** A stack fails as soon as a prefix of it fails: the layers after it
    are never called. *)
Lemma build_layers_app_err df s l1 l2 e :
  build_layers df s l1 = Err e → build_layers df s (l1 ++ l2) = Err e.
Proof.
  revert s. induction l1 as [|l l1 IH]; intros s H; [done|]. simpl in *.
  destruct (layer_output_shape df l s) as [s'|]; simpl in *; [|done].
  destruct (build_layers df s' l1) as [[]|] eqn:E; simpl in H; [done|]. injection H as ->. by rewrite (IH _ E).
Qed.

Lemma keras_Model_vgg16 c h w D :
  keras_Model ChannelsFirst [c; h; w] (vgg16_layers D) =
    if bool_decide (32 ≤ h ∧ 32 ≤ w)
    then Ok (mk_keras_model (vgg16_weight_shapes c (512 * (h / 32) * (w / 32)) D) [D])
    else Err (ValueError "Negative dimension size").
Proof.
  unfold keras_Model. cbn [vgg16_layers build_layers]. repeat vgg_step.
  all: try (rewrite (bool_decide_false (32 ≤ h ∧ 32 ≤ w)); [done|]; intros [??];
    match goal with H : ¬ (_ ∧ _) |- _ => apply H end; split; repeat apply half_ge; lia).
  rewrite flatten3_shape, res_bind_ret, dense1_shape, res_bind_ret, dense1_shape by
      (first [lia | apply half_nz; lia]).
    cbn. rewrite bool_decide_true by apply (vgg16_names_NoDup D).
    rewrite bool_decide_true by (split; apply pool4_ge; lia).
    by rewrite !div2_5.
Qed.
Lemma load_vgg16_weights D d :
  load_weights_by_name (mk_keras_model (vgg16_weight_shapes 3 25088 D) [D]) (Some (vgg16_weights d)) =
    if bool_decide (D = d) then Ok (mk_keras_model (vgg16_weights d) [d])
    else Err (ValueError "Cannot assign to variable: shapes are incompatible").
Proof.
  unfold load_weights_by_name.
  match goal with |- context [omap ?f ?wf] => remember (omap f wf) as matched eqn:Hm end.
  vm_compute in Hm. subst matched.
  rewrite bool_decide_true by (repeat constructor).
  destruct (decide (D = d)) as [<-|HD].
  - rewrite (bool_decide_true (D = D)) by done.
    rewrite bool_decide_true; [reflexivity|].
    repeat (apply Forall_cons; split; [reflexivity|]). apply Forall_nil. done.
  - rewrite (bool_decide_false (D = d)) by done. rewrite bool_decide_false; [done|].
    intros HF. rewrite !Forall_cons in HF. naive_solver.
Qed.

(** C32: the shape [define_model]'s layers infer on a channels-first input
    [(c, h, w)]: the stack builds exactly when both spatial sizes are at
    least 32 (each of the five poolings halves them, and the backend
    refuses a window larger than its input); the model's output is one
    vector of [IMAGE_DIM] features, and [fc1] takes the
    [512 * (h / 32) * (w / 32)] values [Flatten] produces. *)
Theorem vgg16_output_shape c h w D :
  keras_Model ChannelsFirst [c; h; w] (vgg16_layers D) =
    if bool_decide (32 ≤ h ∧ 32 ≤ w)
    then Ok (mk_keras_model (vgg16_weight_shapes c (512 * (h / 32) * (w / 32)) D) [D])
    else Err (ValueError "Negative dimension size").
Proof. apply keras_Model_vgg16. Qed.

(** C33: [define_model] on the channels-first backend with the pretrained
    VGG16 weights of width [d] succeeds exactly when [IMAGE_DIM = d]: the
    model then outputs [d] features and its weights have the file's
    shapes; any other [IMAGE_DIM] fails when the weights of [fc1] are
    assigned; a missing weights file raises [IOError]. *)
Theorem define_model_pretrained D d :
  define_model ChannelsFirst D (Some (vgg16_weights d)) =
    (if bool_decide (D = d) then Ok (mk_keras_model (vgg16_weights d) [d])
     else Err (ValueError "Cannot assign to variable: shapes are incompatible")) ∧
  define_model ChannelsFirst D None = Err (IOError "Unable to open file").
Proof.
  unfold define_model. rewrite keras_Model_vgg16, bool_decide_true by lia.
  change (512 * (224 / 32) * (224 / 32)) with 25088. rewrite !res_bind_ret.
  split; [apply load_vgg16_weights | done].
Qed.

(** C34: on a backend whose [image_data_format] is ['channels_last'] (the
    Keras default), the input [(3, 224, 224)] is read as a 3 x 224 image
    with 224 channels, and [define_model] raises [ValueError] at
    [block2_pool], whatever [IMAGE_DIM] and weights file. *)
Theorem define_model_channels_last D wf :
  define_model ChannelsLast D wf = Err (ValueError "Negative dimension size").
Proof.
  unfold define_model, keras_Model.
  change (vgg16_layers D) with (take 6 (vgg16_layers 0) ++ drop 6 (vgg16_layers D)).
  by rewrite (build_layers_app_err _ _ _ _ (ValueError "Negative dimension size")) by (by vm_compute).
Qed.

(** The published VGG16 network truncated after [fc2] has 134,260,544
    parameters. *)
Example define_model_params :
  (count_params <$> define_model ChannelsFirst 4096 (Some (vgg16_weights 4096))) = Ok 134260544.
Proof. by vm_compute. Qed.

End Vgg.
