(* ===== verification/Extraction.v ===== *)
(** * Extraction Driver: [create_indices] and [main] (extract_features_and_dump.py, lines 214-302)

    [main] loads the configuration for the run type given on the command
    line, checks the image folder and the store file, lists the image
    files in [os.walk] order, opens the store for appending, creates its
    two tables when they are missing, and for each chunk [(i, j)] of
    [create_indices(len(files), VGG_BATCH)] loads the chunk's images, runs
    the feature extractor once and appends with [dump_to_h5].  It then
    rebuilds the class ranges over every name of the store, pickles them,
    and closes the store.

    The world [main] acts on holds the globals, the HDF5 files by path,
    the pickles written, the directories, the [os.walk] listing, and the
    store files still open.  The network is built by [define_model]
    (Vgg.v) on the Keras environment, a section variable with the image
    loader and the extractor's forward pass.  [script_main] is the script
    run as a program: the import-time [load_configs()] (line 55), then
    [main()] (lines 304-305). *)

From S2P Require Import Prelude PyBuiltins FeatureStore ClassIndex Config Vgg.
Import FeatureStore ClassIndex Config Vgg.

Module Extraction.

(** ** [create_indices] (lines 214-217) *)

Definition create_indices (total_length batch_size : Z) : res (list (Z * Z)) :=
  let batch_size := if (total_length <=? batch_size)%Z then (total_length - 1)%Z else batch_size in
  starts ← py_xrange 0 total_length batch_size;
  ends ← py_xrange batch_size (total_length + batch_size) batch_size;
  Ok (py_izip starts ends).

(** The rows of chunk [(i, j)] after [j = min(j, len(list_of_files))]:
    [range(i, j)] (lines 274 and 279). *)
Definition chunk_rows (n : nat) (ij : Z * Z) : list nat :=
  seq (Z.to_nat ij.1) (Z.to_nat (Z.min ij.2 (Z.of_nat n) - ij.1)).

(** [dir_fnames] from the [os.walk] listing [(dirpath, filenames)]
    (lines 246-250). *)
Definition collect_files (walk : list (string * list string)) : list string :=
  concat ((λ '(dirpath, filenames),
             if bool_decide (filenames = []) then []
             else os_path_join dirpath <$> filenames) <$> walk).

(** ** The world *)

Record world := mk_world {
  w_globals : globals;
  w_h5 : gmap string h5file;
  w_pickles : gmap string (gmap string (nat * nat));
  w_dirs : list string;
  w_walk : string → list (string * list string);
  w_open : list string
}.

(** Run an operation on the globals / on the HDF5 file at [path]. *)
Definition on_globals {A} (m : io globals A) : io world A :=
  λ w, let '(g', r) := m (w_globals w) in
       (mk_world g' (w_h5 w) (w_pickles w) (w_dirs w) (w_walk w) (w_open w), r).

Definition on_file {A} (path : string) (m : io h5file A) : io world A :=
  λ w, let '(f', r) := m (w_h5 w !!! path) in
       (mk_world (w_globals w) (<[path := f']> (w_h5 w)) (w_pickles w) (w_dirs w) (w_walk w)
                 (w_open w), r).

(** [h5py.File(path, "r+")], [hf.close()], [pickle.dump(x, open(path, "w"))]. *)
Definition h5_open (path : string) : io world unit :=
  λ w, (mk_world (w_globals w) (w_h5 w) (w_pickles w) (w_dirs w) (w_walk w) (path :: w_open w), Ok ()).
Definition h5_close (path : string) : io world unit :=
  λ w, (mk_world (w_globals w) (w_h5 w) (w_pickles w) (w_dirs w) (w_walk w)
                 (filter (λ p, p ≠ path) (w_open w)), Ok ()).
Definition pickle_dump (path : string) (x : gmap string (nat * nat)) : io world unit :=
  λ w, (mk_world (w_globals w) (w_h5 w) (<[path := x]> (w_pickles w)) (w_dirs w) (w_walk w)
                 (w_open w), Ok ()).

(** A global the code reads: [NameError] if never assigned. *)
Definition global {A} (name : string) (o : option A) : res A :=
  match o with Some a => Ok a | None => Err (NameError name) end.

Definition py_assert (b : bool) (msg : string) : res unit :=
  if b then Ok () else Err (AssertionError msg).

Section Driver.

(** [image.load_img] followed by [img_to_array] (may raise), and
    [model.predict(preprocess_input(np.array(images)))]. *)
Context {image : Type} (load_img : string → res image) (predict : list image → list (list Z)).
Context (keras : keras_env).

(** One chunk (lines 274-293). *)
Definition process_chunk (IMAGE_DIM : Z) (files : list string) (ij : Z * Z) : io h5file unit :=
  dump_names ← io_lift (res_mapM (list_get files) (chunk_rows (length files) ij));
  loaded ← io_lift (res_mapM load_img dump_names);
  dump_to_h5 IMAGE_DIM dump_names (predict loaded).

(** The end of [main()] (lines 270-302), once the store is open with its
    two tables: the chunk loop, then the class ranges of every stored
    name, the pickle and [hf.close()]. *)
Definition extract_and_dump (IMAGE_DIM VGG_BATCH : Z) (dump_path ranges_path : string)
    (list_of_files : list string) : io world unit :=
  chunks ← io_lift (create_indices (Z.of_nat (length list_of_files)) VGG_BATCH);
  io_for chunks (λ ij, on_file dump_path (process_chunk IMAGE_DIM list_of_files ij));;
  fnames_h5 ← on_file dump_path (get_str "data/fnames");
  names ← io_lift (read_first_column fnames_h5);
  class_ranges ← io_lift (get_class_ranges names);
  pickle_dump ranges_path class_ranges;;
  h5_close dump_path.

(** [main()] (lines 220-302). *)
Definition extraction_main (argv : list string) (cfg : cfg_file) : io world unit :=
  run_type ← io_lift (list_get argv 1);
  on_globals (load_configs cfg run_type);;
  w ← io_get;
  images_path ← io_lift (global "images_path" (images_path (w_globals w)));
  dump_path ← io_lift (global "dump_path" (dump_path (w_globals w)));
  IMAGE_DIM ← io_lift (global "IMAGE_DIM" (IMAGE_DIM (w_globals w)));
  VGG_BATCH ← io_lift (global "VGG_BATCH" (VGG_BATCH (w_globals w)));
  ranges_path ← io_lift (global "image_class_ranges" (image_class_ranges (w_globals w)));
  io_lift (py_assert (bool_decide (images_path ∈ w_dirs w)) "---path is not a folder--");;
  io_lift (py_assert (bool_decide (dump_path ∈ dom (w_h5 w))) "---path is not a file--");;
  weights_path ← io_lift (global "weights_path" (weights_path (w_globals w)));
  io_lift (define_model (k_data_format keras) IMAGE_DIM (k_weights keras weights_path));;
  let list_of_files := collect_files (w_walk w images_path) in
  h5_open dump_path;;
  on_file dump_path (create_or_get_float "data/features" IMAGE_DIM);;
  on_file dump_path (create_or_get_str "data/fnames" 1);;
  extract_and_dump IMAGE_DIM VGG_BATCH dump_path ranges_path list_of_files.

(** Running the script (lines 304-305): importing the module first runs
    [load_configs()] with its default run type ["TRAIN"] (line 55), then
    [main()] loads the configuration again for [sys.argv[1]]. *)
Definition script_main (argv : list string) (cfg : cfg_file) : io world unit :=
  on_globals (load_configs cfg "TRAIN");;
  extraction_main argv cfg.

End Driver.

(** ** The spec's end-to-end scenario *)

(** [root/classA/1.jpg], [root/classA/2.jpg], [root/classB/3.jpg], an
    extractor returning the constant vector [ex_v], [VGG_BATCH = 2]. *)
Definition ex_v : list Z := [1; 2; 3]%Z.
Definition ex_argv : list string := ["extract_features_and_dump.py"; "TRAIN"]%string.
Definition ex_cfg : cfg_file :=
  cfg_read [("training", [("IMAGE_DIM", "3"); ("WORD_DIM", "50"); ("VGG_BATCH", "2")]);
            ("h5", [("h5_training", "store.h5"); ("h5_validation", "valid.h5");
                    ("h5_embeddings", "words.h5")]);
            ("other", [("WEIGHTS_PATH", "vgg16.h5"); ("TRAINING_CLASS_RANGES", "ranges.pkl");
                       ("VALIDATION_CLASS_RANGES", "va.pkl")]);
            ("data location", [("TRAINING_DATA_FOLDER_CLEAN", "root");
                               ("VALIDATION_DATA_FOLDER_CLEAN", "vroot")])]%string.
Definition ex_walk (p : string) : list (string * list string) :=
  if String.eqb p "root" then
    [("root", []); ("root/classA", ["1.jpg"; "2.jpg"]); ("root/classB", ["3.jpg"])]%string
  else [].
Definition ex_world : world :=
  mk_world no_globals {["store.h5" := mk_h5file ∅ ∅]}%string ∅ ["root"%string] ex_walk [].

(** A channels-first backend with the VGG16 weights of width [d] at
    [vgg16.h5]. *)
Definition ex_keras (d : Z) : keras_env :=
  mk_keras_env ChannelsFirst (λ p, if String.eqb p "vgg16.h5" then Some (vgg16_weights d) else None).

(** The same folder with a single image. *)
Definition ex_walk1 (p : string) : list (string * list string) :=
  if String.eqb p "root" then [("root", []); ("root/classA", ["1.jpg"])]%string else [].
Definition ex_world1 : world :=
  mk_world no_globals {["store.h5" := mk_h5file ∅ ∅]}%string ∅ ["root"%string] ex_walk1 [].

(** ** [create_indices] *)

Lemma zip_fmap_same {A B C} (f : A → B) (g : A → C) (l : list A) :
  zip (f <$> l) (g <$> l) = (λ x, (f x, g x)) <$> l.
Proof. induction l as [|x l IH]; [done|]. rewrite !fmap_cons. simpl. f_equal. apply IH. Qed.

(** Consecutive chunks of width [e] cover [0 .. min(c*e, n)). *)
Lemma concat_chunks (e n c : nat) :
  0 < e →
  concat ((λ k, seq (k * e) (Nat.min (S k * e) n - k * e)) <$> seq 0 c) = seq 0 (Nat.min (c * e) n).
Proof.
  intros He. induction c as [|c IH]; [done|].
  rewrite seq_S, fmap_app, concat_app, IH. simpl. rewrite app_nil_r.
  destruct (decide (n ≤ c * e)).
  - rewrite !Nat.min_r by lia. replace (n - c * e) with 0 by lia. by rewrite app_nil_r.
  - rewrite (Nat.min_l (c * e)) by lia.
    replace (Nat.min (e + c * e) n) with (c * e + (Nat.min (e + c * e) n - c * e)) at 2 by lia.
    by rewrite seq_app.
Qed.

(** With [e] the effective batch size, [create_indices] returns the pairs
    [(k*e, (k+1)*e)] for [k < ceil(n/e)]. *)
Lemma create_indices_pairs (n b : Z) :
  let e := if (n <=? b)%Z then (n - 1)%Z else b in
  (0 < e)%Z →
  create_indices n b =
    Ok ((λ k : nat, (Z.of_nat k * e, e + Z.of_nat k * e)%Z) <$>
        seq 0 (Z.to_nat ((n + e - 1) / e))).
Proof.
  intros e He. unfold create_indices. fold e. unfold py_xrange.
  destruct (Z.eqb_spec e 0); [lia|]. simpl.
  unfold xrange_len. destruct (Z.ltb_spec 0 e); [|lia].
  replace (n + e - e + e - 1)%Z with (n + e - 1)%Z by lia.
  replace (n - 0 + e - 1)%Z with (n + e - 1)%Z by lia.
  unfold py_izip. rewrite zip_fmap_same. do 2 f_equal.
Qed.

(** The chunks of [create_indices] on at least two files and a positive batch size. *)
Lemma create_indices_chunks (n : nat) (b : Z) :
  2 ≤ n → (1 ≤ b)%Z →
  ∃ chunks, create_indices (Z.of_nat n) b = Ok chunks ∧
    concat (chunk_rows n <$> chunks) = seq 0 n ∧
    Forall (λ ij, 0 < length (chunk_rows n ij) ≤ Z.to_nat b) chunks.
Proof.
  intros Hn Hb.
  set (e := if (Z.of_nat n <=? b)%Z then (Z.of_nat n - 1)%Z else b).
  assert (He : (1 ≤ e ≤ b)%Z) by (unfold e; destruct (Z.leb_spec (Z.of_nat n) b); lia).
  set (c := Z.to_nat ((Z.of_nat n + e - 1) / e)).
  assert (Hce : n ≤ c * Z.to_nat e).
  { unfold c. pose proof (Z.div_mod (Z.of_nat n + e - 1) e ltac:(lia)).
    pose proof (Z.mod_pos_bound (Z.of_nat n + e - 1) e ltac:(lia)).
    assert (0 ≤ (Z.of_nat n + e - 1) / e)%Z by (apply Z.div_pos; lia). nia. }
  rewrite (create_indices_pairs (Z.of_nat n) b) by (fold e; lia). fold e. fold c.
  eexists. split; [reflexivity|].
  assert (Hrow : ∀ k, chunk_rows n (Z.of_nat k * e, e + Z.of_nat k * e)%Z =
                      seq (k * Z.to_nat e) (Nat.min (S k * Z.to_nat e) n - k * Z.to_nat e)).
  { intros k. unfold chunk_rows. simpl. f_equal; lia. }
  split.
  - rewrite <-list_fmap_compose. unfold compose.
    rewrite (list_fmap_ext _ (λ k, seq (k * Z.to_nat e) (Nat.min (S k * Z.to_nat e) n - k * Z.to_nat e)));
      [|intros; apply Hrow].
    rewrite concat_chunks by lia. f_equal. lia.
  - apply Forall_fmap, Forall_forall. intros k Hk%elem_of_seq. simpl.
    rewrite Hrow, length_seq. split; [|lia].
    assert (k * Z.to_nat e < n); [|lia].
    destruct (decide (n ≤ k * Z.to_nat e)); [|lia].
    exfalso. unfold c in Hk.
    assert (Z.of_nat k < (Z.of_nat n + e - 1) / e)%Z by lia.
    assert (Z.of_nat k * e ≤ Z.of_nat n - 1)%Z; [|nia].
    apply Z.lt_le_pred in H. rewrite Z.mul_comm.
    pose proof (Z.mul_div_le (Z.of_nat n + e - 1) e ltac:(lia)). nia.
Qed.

(** C12: for at least two files and a positive [VGG_BATCH], the chunks
    [range(i, min(j, n))] of [create_indices(n, VGG_BATCH)] are non-empty,
    at most [VGG_BATCH] long, and together list every file index once, in
    order. *)
Theorem create_indices_cover (n : nat) (b : Z) :
  2 ≤ n → (1 ≤ b)%Z →
  ∃ chunks, create_indices (Z.of_nat n) b = Ok chunks ∧
    concat (chunk_rows n <$> chunks) = seq 0 n ∧
    Forall (λ ij, 0 < length (chunk_rows n ij) ≤ Z.to_nat b) chunks.
Proof. apply create_indices_chunks. Qed.

Lemma create_indices_cover_witness :
  2 ≤ 5 ∧ (1 ≤ 2)%Z ∧
  ∃ chunks, create_indices (Z.of_nat 5) 2 = Ok chunks ∧
    concat (chunk_rows 5 <$> chunks) = seq 0 5 ∧
    Forall (λ ij, 0 < length (chunk_rows 5 ij) ≤ Z.to_nat 2) chunks.
Proof. split; [lia|]. split; [lia|]. apply create_indices_cover; lia. Defined.

(** C13: when the effective batch size is 0 — one file with
    [VGG_BATCH >= 1], or [VGG_BATCH = 0] — [create_indices] raises: the
    clamp [batch_size = total_length - 1] turns a one-file folder into a
    zero step for [xrange]. *)
Theorem create_indices_zero_step (n b : Z) :
  (n = 1 ∧ 1 ≤ b)%Z ∨ (b = 0 ∧ 1 ≤ n)%Z →
  create_indices n b = Err (ValueError "xrange() arg 3 must not be zero").
Proof.
  intros Hnb. unfold create_indices, py_xrange.
  destruct (Z.leb_spec n b).
  - destruct (Z.eqb_spec (n - 1) 0); [done|lia].
  - destruct (Z.eqb_spec b 0); [done|lia].
Qed.

Lemma create_indices_zero_step_witness :
  ((1 = 1 ∧ 1 ≤ 64)%Z ∨ (64 = 0 ∧ 1 ≤ 1)%Z) ∧
  create_indices 1 64 = Err (ValueError "xrange() arg 3 must not be zero").
Proof. split; [left; lia|]. apply create_indices_zero_step. left; lia. Defined.

(** ** [main] on any folder *)

Lemma io_for_on_file {A} p (body : A → io h5file unit) xs w f0 :
  w_h5 w !! p = Some f0 →
  io_for xs (λ x, on_file p (body x)) w =
    let '(f', r) := io_for xs body f0 in
    (mk_world (w_globals w) (<[p := f']> (w_h5 w)) (w_pickles w) (w_dirs w) (w_walk w) (w_open w), r).
Proof.
  revert w f0. induction xs as [|x xs IH]; intros w f0 Hp; simpl.
  - rewrite insert_id by done. by destruct w.
  - rewrite !io_bind_run. unfold on_file at 1. rewrite (lookup_total_correct _ _ _ Hp).
    destruct (body x f0) as [f1 [[]|e]]; [|done].
    rewrite (IH _ f1) by (simpl; apply lookup_insert_eq). simpl.
    destruct (io_for xs body f1) as [f' r]. by rewrite insert_insert_eq.
Qed.

Section DriverLemmas.
Context {image : Type} (load_img : string → res image) (predict : list image → list (list Z)).
Context (keras : keras_env).
Context (img : string → image) (extract : image → list Z).
Hypothesis Hpredict : ∀ imgs, predict imgs = extract <$> imgs.

Lemma process_chunk_run dim files ij f :
  store_wf "data/features" "data/fnames" dim f →
  (∀ k, k ∈ chunk_rows (length files) ij → k < length files) →
  (∀ x, x ∈ files → load_img x = Ok (img x) ∧ length (extract (img x)) = dim) →
  process_chunk load_img predict (Z.of_nat dim) files ij f =
    (appended "data/features" "data/fnames" ((λ k, files !!! k) <$> chunk_rows (length files) ij)
       ((λ x, extract (img x)) <$> ((λ k, files !!! k) <$> chunk_rows (length files) ij)) f, Ok ()).
Proof.
  intros Hwf Hk Hfiles. set (names := (λ k, files !!! k) <$> chunk_rows (length files) ij).
  assert (Hin : ∀ x, x ∈ names → x ∈ files).
  { intros x (k & -> & Hk')%list_elem_of_fmap. apply list_elem_of_lookup_total_2. by apply Hk. }
  unfold process_chunk.
  rewrite (io_lift_bind_ok _ _ names).
  2:{ apply res_mapM_ok. intros k Hk'. apply list_get_ok. by apply Hk. }
  rewrite (io_lift_bind_ok _ _ (img <$> names)).
  2:{ apply res_mapM_ok. intros x Hx. by apply Hfiles, Hin. }
  rewrite Hpredict, <-list_fmap_compose. apply dump_pair_appended; [done|by rewrite !length_fmap|].
  apply Forall_fmap, Forall_forall. intros x Hx. by apply Hfiles, Hin.
Qed.

Lemma chunks_run dim files chunks f :
  store_wf "data/features" "data/fnames" dim f →
  concat (chunk_rows (length files) <$> chunks) = seq 0 (length files) →
  (∀ x, x ∈ files → load_img x = Ok (img x) ∧ length (extract (img x)) = dim) →
  io_for chunks (process_chunk load_img predict (Z.of_nat dim) files) f =
    (appended "data/features" "data/fnames" files ((λ x, extract (img x)) <$> files) f, Ok ()).
Proof.
  intros Hwf Hcover Hfiles.
  set (nm := λ ij, (λ k, files !!! k) <$> chunk_rows (length files) ij).
  destruct (io_for_fold (store_wf "data/features" "data/fnames" dim)
              (λ f ij, appended "data/features" "data/fnames" (nm ij) ((λ x, extract (img x)) <$> nm ij) f)
              (process_chunk load_img predict (Z.of_nat dim) files) chunks) with (s := f)
    as [-> _]; [|done|].
  { intros ij s Hij Hs.
    assert (Hk : ∀ k, k ∈ chunk_rows (length files) ij → k < length files).
    { intros k Hk. apply (elem_of_seq 0 (length files) k). rewrite <-Hcover.
      apply (elem_of_concat_intro _ (chunk_rows (length files) ij)); [done|].
      by apply list_elem_of_fmap_2. }
    split; [by apply process_chunk_run|].
    apply appended_wf; [done|by rewrite length_fmap|].
    apply Forall_fmap, Forall_forall. intros x (k & -> & Hk')%list_elem_of_fmap.
    apply Hfiles, list_elem_of_lookup_total_2. by apply Hk. }
  rewrite foldl_appended. unfold nm.
  rewrite (concat_fmap_fmap (λ x, extract (img x)) (λ ij, (λ k, files !!! k) <$> chunk_rows (length files) ij)).
  rewrite (concat_fmap_fmap (λ k, files !!! k)), Hcover, fmap_lookup_total_seq. done.
Qed.

(** [main] up to the open store with its tables created: the
    configuration, the global reads, the two asserts and [define_model]
    succeed, then [h5py.File] and the two [create_or_get]s. *)
Lemma extraction_main_prefix argv cfg w rt g dim b ip dp rp wp km f0 :
  argv !! 1 = Some rt →
  load_configs cfg rt (w_globals w) = (g, Ok ()) →
  images_path g = Some ip → dump_path g = Some dp → IMAGE_DIM g = Some (Z.of_nat dim) →
  VGG_BATCH g = Some b → image_class_ranges g = Some rp →
  ip ∈ w_dirs w → w_h5 w !! dp = Some f0 → weights_path g = Some wp →
  define_model (k_data_format keras) (Z.of_nat dim) (k_weights keras wp) = Ok km →
  extraction_main load_img predict keras argv cfg w =
    extract_and_dump load_img predict (Z.of_nat dim) b dp rp (collect_files (w_walk w ip))
      (mk_world g (<[dp := with_tables dim f0]> (w_h5 w)) (w_pickles w) (w_dirs w) (w_walk w)
                (dp :: w_open w)).
Proof.
  intros Hargv Hload Hip Hdp Hdim Hb Hrp Hdir Hf0 Hwp Hkm. unfold extraction_main.
  rewrite (io_lift_bind_ok _ _ rt) by (unfold list_get; by rewrite Hargv).
  rewrite io_bind_run. unfold on_globals at 1. rewrite Hload. cbn [fst snd].
  rewrite io_bind_run. unfold io_get at 1. cbv beta iota.
  rewrite (io_lift_bind_ok _ _ ip) by (simpl; by rewrite Hip).
  rewrite (io_lift_bind_ok _ _ dp) by (simpl; by rewrite Hdp).
  rewrite (io_lift_bind_ok _ _ (Z.of_nat dim)) by (simpl; by rewrite Hdim).
  rewrite (io_lift_bind_ok _ _ b) by (simpl; by rewrite Hb).
  rewrite (io_lift_bind_ok _ _ rp) by (simpl; by rewrite Hrp).
  rewrite (io_lift_bind_ok _ _ ()) by (unfold py_assert; by rewrite bool_decide_true).
  rewrite (io_lift_bind_ok _ _ ()).
  2:{ unfold py_assert. rewrite bool_decide_true; [done|]. simpl. apply elem_of_dom. by exists f0. }
  rewrite (io_lift_bind_ok _ _ wp) by (simpl; by rewrite Hwp).
  rewrite (io_lift_bind_ok _ _ km) by done.
  rewrite io_bind_run. unfold h5_open at 1. cbv beta iota.
  rewrite io_bind_run. unfold on_file at 1. cbn [w_h5 w_globals w_pickles w_dirs w_walk w_open].
  rewrite (lookup_total_correct _ _ _ Hf0).
  destruct (create_or_get_float_ok "data/features" (Z.of_nat dim) f0) as [d1 ->]; [lia|].
  cbv beta iota.
  rewrite io_bind_run. unfold on_file at 1. cbn [w_h5 w_globals w_pickles w_dirs w_walk w_open].
  rewrite lookup_total_insert_eq.
  destruct (create_or_get_str_ok "data/fnames" 1 (create_or_get_float "data/features" (Z.of_nat dim) f0).1)
    as [d2 ->]; [lia|].
  cbv beta iota. fold (with_tables dim f0). by rewrite insert_insert_eq.
Qed.

(** The run of [main] statement by statement, on a world where its checks pass. *)
Lemma extraction_main_run argv cfg w rt g dim b ip dp rp wp km f0 names0 m :
  argv !! 1 = Some rt →
  load_configs cfg rt (w_globals w) = (g, Ok ()) →
  images_path g = Some ip → dump_path g = Some dp → IMAGE_DIM g = Some (Z.of_nat dim) →
  VGG_BATCH g = Some b → image_class_ranges g = Some rp →
  ip ∈ w_dirs w → w_h5 w !! dp = Some f0 → store_ready dim f0 → stored_names f0 = Ok names0 →
  weights_path g = Some wp →
  define_model (k_data_format keras) (Z.of_nat dim) (k_weights keras wp) = Ok km →
  (1 ≤ b)%Z → 2 ≤ length (collect_files (w_walk w ip)) →
  (∀ x, x ∈ collect_files (w_walk w ip) → load_img x = Ok (img x) ∧ length (extract (img x)) = dim) →
  get_class_ranges (names0 ++ collect_files (w_walk w ip)) = Ok m →
  extraction_main load_img predict keras argv cfg w =
    (mk_world g
       (<[dp := appended "data/features" "data/fnames" (collect_files (w_walk w ip))
                 ((λ x, extract (img x)) <$> collect_files (w_walk w ip)) (with_tables dim f0)]> (w_h5 w))
       (<[rp := m]> (w_pickles w)) (w_dirs w) (w_walk w) (filter (λ p, p ≠ dp) (dp :: w_open w)),
     Ok ()).
Proof.
  intros Hargv Hload Hip Hdp Hdim Hb Hrp Hdir Hf0 Hready Hnames0 Hwp Hkm Hb1 Hn Hfiles Hm.
  rewrite (extraction_main_prefix argv cfg w rt g dim b ip dp rp wp km f0) by done.
  set (files := collect_files (w_walk w ip)) in *. unfold extract_and_dump.
  destruct (create_indices_chunks (length files) b Hn Hb1) as (chunks & Hch & Hcover & _).
  rewrite (io_lift_bind_ok _ _ chunks) by done.
  rewrite io_bind_run, (io_for_on_file _ _ _ _ (with_tables dim f0)) by (simpl; apply lookup_insert_eq).
  pose proof (with_tables_wf dim f0 Hready) as Hwf.
  rewrite (chunks_run dim files chunks) by done. cbv beta iota.
  cbn [w_h5 w_globals w_pickles w_dirs w_walk w_open].
  destruct Hwf as (X & F & HX & HF & _).
  assert (HnF : read_first_column F = Ok names0).
  { pose proof (stored_names_with_tables dim f0 names0 Hready Hnames0) as Hs.
    unfold stored_names in Hs. by rewrite HF in Hs. }
  rewrite io_bind_run. unfold on_file at 1. cbn [w_h5 w_globals w_pickles w_dirs w_walk w_open].
  rewrite lookup_total_insert_eq, (get_str_appended _ _ _ _ _ F) by done. cbv beta iota.
  rewrite (io_lift_bind_ok _ _ (names0 ++ files)) by (by apply read_first_column_app).
  rewrite (io_lift_bind_ok _ _ m) by done.
  rewrite !insert_insert_eq. reflexivity.
Qed.

(** C6: the refinement theorem of the driver: for any configuration,
    folder and store on which the checks pass, with at least two images,
    a positive [VGG_BATCH], images that load, and a row-wise extractor of
    width [IMAGE_DIM], [main] succeeds; the store (its tables created if
    they were missing) ends with its old rows followed by one row per
    image in [os.walk] order, holding the extractor's vector and the
    path; the pickle is [get_class_ranges] of every name of the store;
    the store is closed; the globals are those [load_configs] set. *)
Theorem extraction_main_spec argv cfg w rt g dim b ip dp rp wp km f0 names0 m :
  argv !! 1 = Some rt →
  load_configs cfg rt (w_globals w) = (g, Ok ()) →
  images_path g = Some ip → dump_path g = Some dp → IMAGE_DIM g = Some (Z.of_nat dim) →
  VGG_BATCH g = Some b → image_class_ranges g = Some rp →
  ip ∈ w_dirs w → w_h5 w !! dp = Some f0 → store_ready dim f0 → stored_names f0 = Ok names0 →
  weights_path g = Some wp →
  define_model (k_data_format keras) (Z.of_nat dim) (k_weights keras wp) = Ok km →
  (1 ≤ b)%Z → 2 ≤ length (collect_files (w_walk w ip)) →
  (∀ x, x ∈ collect_files (w_walk w ip) → load_img x = Ok (img x) ∧ length (extract (img x)) = dim) →
  get_class_ranges (names0 ++ collect_files (w_walk w ip)) = Ok m →
  extraction_main load_img predict keras argv cfg w =
    (mk_world g
       (<[dp := appended "data/features" "data/fnames" (collect_files (w_walk w ip))
                 ((λ x, extract (img x)) <$> collect_files (w_walk w ip)) (with_tables dim f0)]> (w_h5 w))
       (<[rp := m]> (w_pickles w)) (w_dirs w) (w_walk w) (filter (λ p, p ≠ dp) (dp :: w_open w)),
     Ok ()).
Proof. apply extraction_main_run. Qed.

(** C14: with exactly one image and [VGG_BATCH >= 0], [main] raises
    [ValueError] from [create_indices] (the clamp makes the step 0) after
    it has opened the store and created its tables: the store holds the
    (possibly new) empty tables, no pickle is written, and the store is
    left open, since [hf.close()] is not reached; the spec's scoped
    acquisition (close on every exit path) does not hold. *)
Theorem extraction_single_image argv cfg w rt g dim b ip dp rp wp km f0 :
  argv !! 1 = Some rt →
  load_configs cfg rt (w_globals w) = (g, Ok ()) →
  images_path g = Some ip → dump_path g = Some dp → IMAGE_DIM g = Some (Z.of_nat dim) →
  VGG_BATCH g = Some b → image_class_ranges g = Some rp →
  ip ∈ w_dirs w → w_h5 w !! dp = Some f0 → weights_path g = Some wp →
  define_model (k_data_format keras) (Z.of_nat dim) (k_weights keras wp) = Ok km →
  (0 ≤ b)%Z → length (collect_files (w_walk w ip)) = 1 →
  extraction_main load_img predict keras argv cfg w =
    (mk_world g (<[dp := with_tables dim f0]> (w_h5 w)) (w_pickles w) (w_dirs w) (w_walk w)
              (dp :: w_open w),
     Err (ValueError "xrange() arg 3 must not be zero")).
Proof.
  intros Hargv Hload Hip Hdp Hdim Hb Hrp Hdir Hf0 Hwp Hkm Hb0 Hn.
  rewrite (extraction_main_prefix argv cfg w rt g dim b ip dp rp wp km f0) by done.
  unfold extract_and_dump. rewrite Hn.
  by rewrite (io_lift_bind_err _ _ (ValueError "xrange() arg 3 must not be zero"))
    by (apply create_indices_zero_step; lia).
Qed.

(** C35: when [define_model] raises (a channels-last backend, a missing
    weights file, an [IMAGE_DIM] that does not fit the weights), [main]
    raises the same exception before it opens the store: no file, table or
    pickle is touched; only the globals [load_configs] set remain. *)
Theorem extraction_main_model_error argv cfg w rt g D b ip dp rp wp e :
  argv !! 1 = Some rt →
  load_configs cfg rt (w_globals w) = (g, Ok ()) →
  images_path g = Some ip → dump_path g = Some dp → IMAGE_DIM g = Some D →
  VGG_BATCH g = Some b → image_class_ranges g = Some rp →
  ip ∈ w_dirs w → dp ∈ dom (w_h5 w) → weights_path g = Some wp →
  define_model (k_data_format keras) D (k_weights keras wp) = Err e →
  extraction_main load_img predict keras argv cfg w =
    (mk_world g (w_h5 w) (w_pickles w) (w_dirs w) (w_walk w) (w_open w), Err e).
Proof.
  intros Hargv Hload Hip Hdp HD Hb Hrp Hdir Hf0 Hwp He. unfold extraction_main.
  rewrite (io_lift_bind_ok _ _ rt) by (unfold list_get; by rewrite Hargv).
  rewrite io_bind_run. unfold on_globals at 1. rewrite Hload. cbn [fst snd].
  rewrite io_bind_run. unfold io_get at 1. cbv beta iota.
  rewrite (io_lift_bind_ok _ _ ip) by (simpl; by rewrite Hip).
  rewrite (io_lift_bind_ok _ _ dp) by (simpl; by rewrite Hdp).
  rewrite (io_lift_bind_ok _ _ D) by (simpl; by rewrite HD).
  rewrite (io_lift_bind_ok _ _ b) by (simpl; by rewrite Hb).
  rewrite (io_lift_bind_ok _ _ rp) by (simpl; by rewrite Hrp).
  rewrite !(io_lift_bind_ok _ _ ()) by (unfold py_assert; by rewrite bool_decide_true).
  rewrite (io_lift_bind_ok _ _ wp) by (simpl; by rewrite Hwp).
  by rewrite (io_lift_bind_err _ _ e).
Qed.

(** C26: every successful run of the script, for either run type, has
    read the training options [TRAINING_DATA_FOLDER_CLEAN] and
    [TRAINING_CLASS_RANGES]: the import-time [load_configs()] reads them,
    so a configuration written for validation only makes a ["VALID"] run
    fail. *)
Theorem script_main_reads_train argv cfg w :
  (script_main load_img predict keras argv cfg w).2 = Ok () →
  is_ok (cfg_get cfg "data location" "TRAINING_DATA_FOLDER_CLEAN") = true ∧
  is_ok (cfg_get cfg "other" "TRAINING_CLASS_RANGES") = true.
Proof.
  unfold script_main. rewrite io_bind_run. unfold on_globals at 1.
  destruct (load_configs cfg "TRAIN" (w_globals w)) as [g [[]|e]] eqn:E; [|done].
  intros _. by apply (load_configs_train_reads _ (w_globals w) g).
Qed.

End DriverLemmas.

Lemma extraction_main_spec_witness :
  extraction_main (image := unit) (λ _, Ok ()) (λ imgs, (λ _, ex_v) <$> imgs) (ex_keras 3) ex_argv ex_cfg
    ex_world =
    (mk_world (load_configs ex_cfg "TRAIN" (w_globals ex_world)).1
       (<["store.h5" := appended "data/features" "data/fnames" (collect_files (ex_walk "root"))
                          ((λ x, ex_v) <$> collect_files (ex_walk "root")) (with_tables 3 (mk_h5file ∅ ∅))]>
          (w_h5 ex_world))
       (<["ranges.pkl" := <["classB" := (2, 2)]> {["classA" := (0, 1)]}]> (w_pickles ex_world))
       (w_dirs ex_world) (w_walk ex_world)
       (filter (λ p, p ≠ "store.h5") ("store.h5" :: w_open ex_world)), Ok ())%string.
Proof.
  apply (@extraction_main_spec unit (λ _, Ok ()) (λ imgs, (λ _, ex_v) <$> imgs) (ex_keras 3) (λ _, ())
           (λ _, ex_v) (λ imgs, eq_refl) ex_argv ex_cfg ex_world "TRAIN" _ 3 2 "root" "store.h5" "ranges.pkl"
           "vgg16.h5" (mk_keras_model (vgg16_weights 3) [3%Z]) (mk_h5file ∅ ∅) []); try (vm_compute; reflexivity).
  - apply list_elem_of_In. left. reflexivity.
  - right. split; reflexivity.
  - lia.
  - vm_compute. lia.
  - intros x _. split; reflexivity.
Defined.

Lemma extraction_single_image_witness :
  extraction_main (image := unit) (λ _, Ok ()) (λ imgs, (λ _, ex_v) <$> imgs) (ex_keras 3) ex_argv ex_cfg
    ex_world1 =
    (mk_world (load_configs ex_cfg "TRAIN" (w_globals ex_world1)).1
       (<["store.h5" := with_tables 3 (mk_h5file ∅ ∅)]> (w_h5 ex_world1)) (w_pickles ex_world1)
       (w_dirs ex_world1) (w_walk ex_world1) ("store.h5" :: w_open ex_world1),
     Err (ValueError "xrange() arg 3 must not be zero"))%string.
Proof.
  apply (@extraction_single_image unit (λ _, Ok ()) (λ imgs, (λ _, ex_v) <$> imgs) (ex_keras 3)
           ex_argv ex_cfg ex_world1 "TRAIN" _ 3 2 "root" "store.h5" "ranges.pkl" "vgg16.h5"
           (mk_keras_model (vgg16_weights 3) [3%Z]) (mk_h5file ∅ ∅)); try (vm_compute; reflexivity).
  - apply list_elem_of_In. left. reflexivity.
  - lia.
Defined.

Lemma extraction_main_model_error_witness :
  extraction_main (image := unit) (λ _, Ok ()) (λ imgs, (λ _, ex_v) <$> imgs)
    (mk_keras_env ChannelsLast (k_weights (ex_keras 3))) ex_argv ex_cfg ex_world =
    (mk_world (load_configs ex_cfg "TRAIN" (w_globals ex_world)).1 (w_h5 ex_world) (w_pickles ex_world)
       (w_dirs ex_world) (w_walk ex_world) (w_open ex_world), Err (ValueError "Negative dimension size")).
Proof.
  apply (@extraction_main_model_error unit (λ _, Ok ()) (λ imgs, (λ _, ex_v) <$> imgs)
           (mk_keras_env ChannelsLast (k_weights (ex_keras 3))) ex_argv ex_cfg ex_world "TRAIN" _ 3%Z 2%Z
           "root" "store.h5" "ranges.pkl" "vgg16.h5"); try (vm_compute; reflexivity).
  apply list_elem_of_In. left. reflexivity.
Defined.

Lemma script_main_reads_train_witness :
  (script_main (image := unit) (λ _, Ok ()) (λ imgs, (λ _, ex_v) <$> imgs) (ex_keras 3) ex_argv ex_cfg ex_world).2
    = Ok () ∧
  is_ok (cfg_get ex_cfg "data location" "TRAINING_DATA_FOLDER_CLEAN") = true ∧
  is_ok (cfg_get ex_cfg "other" "TRAINING_CLASS_RANGES") = true.
Proof.
  assert (H : (script_main (image := unit) (λ _, Ok ()) (λ imgs, (λ _, ex_v) <$> imgs) (ex_keras 3) ex_argv
                 ex_cfg ex_world).2 = Ok ()) by (vm_compute; reflexivity).
  split; [exact H|]. exact (script_main_reads_train _ _ _ _ _ _ H).
Defined.

(** A validation run whose configuration has every option [main] reads
    for ["VALID"] but no training folder fails with [NoOptionError] from
    the import-time [load_configs()], before [main] starts. *)
Example script_main_valid_only :
  let cfg := cfg_read [("training", [("IMAGE_DIM", "3"); ("WORD_DIM", "50"); ("VGG_BATCH", "2")]);
                       ("h5", [("h5_training", "store.h5"); ("h5_validation", "store.h5");
                               ("h5_embeddings", "words.h5")]);
                       ("other", [("WEIGHTS_PATH", "vgg16.h5"); ("VALIDATION_CLASS_RANGES", "ranges.pkl")]);
                       ("data location", [("VALIDATION_DATA_FOLDER_CLEAN", "root")])]%string in
  (extraction_main (image := unit) (λ _, Ok ()) (λ imgs, (λ _, ex_v) <$> imgs) (ex_keras 3)
     ["extract_features_and_dump.py"; "VALID"]%string cfg ex_world).2 = Ok () ∧
  (script_main (image := unit) (λ _, Ok ()) (λ imgs, (λ _, ex_v) <$> imgs) (ex_keras 3)
     ["extract_features_and_dump.py"; "VALID"]%string cfg ex_world).2 =
    Err (NoOptionError "TRAINING_DATA_FOLDER_CLEAN" "data location").
Proof. vm_compute. split; reflexivity. Qed.

End Extraction.
