(* ===== verification/Model.v ===== *)
(** * The evaluation model: [FullModel] (simplified_complete_model.py)

    [FullModel] chains the VGG16 [fc2] extractor and a trained caption
    model, recompiled with [custom_distance_function] as its loss, so that
    [predict(x)] returns that "loss" for the image [x] and the fixed
    caption.  [custom_distance_function] (lines 37-65) splits each row of
    [y_pred] into an image part (the first [WORD_DIM] columns) and a word
    part (the rest), keeps the first row of each, divides each by its
    Euclidean norm, multiplies them cell by cell and sums: the cosine
    similarity of the two parts of the first row.

    Tensors are lists of rows of reals; Keras' slicing, [K.sum],
    [K.square], [K.sqrt] and the broadcasting of [*] and [/] are written
    out.  Reals stand for float32 without rounding, overflow or NaN: in
    particular [x / 0] is a real here, where TensorFlow gives [inf] or
    [nan], so the theorems assume non-zero norms.  The two networks are
    section variables: [top_predict] (VGG16 up to [fc2]) and [rnn_forward]
    (the loaded caption model).  [TEST] (lines 81-94) runs the model on
    one image with two captions, on the backend's data format. *)

From S2P Require Import Prelude Vgg.
Import Vgg.
From Stdlib Require Import Reals Lra.

Module FullModel.

Local Open Scope R_scope.

(** ** Tensors *)

Definition tensor : Type := list (list R).

(** [K.sum] of a row. *)
Definition row_sum (r : list R) : R := fold_right Rplus 0 r.

(** The Euclidean norm and the dot product of two rows. *)
Definition norm (r : list R) : R := sqrt (row_sum (Rsqr <$> r)).
Definition dot (a b : list R) : R := row_sum (zip_with Rmult a b).

(** A binary operation on two rows with TensorFlow's broadcasting: equal
    lengths, or one side of length 1. *)
Definition broadcast2 (f : R → R → R) (a b : list R) : res (list R) :=
  if (length a =? length b)%nat then Ok (zip_with f a b)
  else match a, b with
       | [x], _ => Ok (f x <$> b)
       | _, [y] => Ok ((λ x, f x y) <$> a)
       | _, _ => Err (ValueError "Incompatible shapes")
       end.

(** The same on two matrices, broadcasting rows as well. *)
Definition tmap2 (f : R → R → R) (a b : tensor) : res tensor :=
  if (length a =? length b)%nat then res_mapM (λ rs, broadcast2 f rs.1 rs.2) (zip a b)
  else match a, b with
       | [r], _ => res_mapM (broadcast2 f r) b
       | _, [s] => res_mapM (λ r, broadcast2 f r s) a
       | _, _ => Err (ValueError "Incompatible shapes")
       end.

(** ** [custom_distance_function] (lines 37-65) *)

Section Loss.
(** [self.WORD_DIM = 300] (line 20). *)
Definition WORD_DIM : nat := 300.

(** [x[:, :WORD_DIM]], [x[:, WORD_DIM:]], [x[0:1, :]]. *)
Definition select_images (x : tensor) : tensor := take WORD_DIM <$> x.
Definition select_words (x : tensor) : tensor := drop WORD_DIM <$> x.
Definition slice_first (x : tensor) : tensor := take 1 x.

(** [l2 = sqrt(sum(square(x), axis=1, keepdims=True))], [l2norm = x / l2(x)]. *)
Definition l2 (x : tensor) : tensor := (λ r, [norm r]) <$> x.
Definition l2norm (x : tensor) : res tensor := tmap2 Rdiv x (l2 x).

Definition custom_distance_function (y_true y_pred : tensor) : res R :=
  let image_vectors := select_images y_pred in
  let word_vectors := select_words y_pred in
  let correct_image := slice_first image_vectors in
  let correct_word := slice_first word_vectors in
  correct_image ← l2norm correct_image;
  correct_word ← l2norm correct_word;
  p ← tmap2 Rmult correct_image correct_word;
  let cost_images := row_sum <$> p in
  Ok (row_sum cost_images).
End Loss.

(** ** [FullModel.__init__] and [predict] (lines 18-35, 67-78) *)

Section Predict.
Context {image : Type}.
(** [VGG16(...)] cut at [fc2], and the caption model's forward pass on
    [[top_op, caption]]; both are external networks. *)
Context (top_predict : image → tensor) (rnn_forward : tensor → list nat → tensor).

Record full_model := mk_full_model { fm_caption : list nat }.

(** The two asserts of [__init__]: the caption has shape [(1, 20)] and the
    caption model's file exists.  Loading and compiling the networks
    cannot fail in the model. *)
Definition full_model_init (caption_shape : list nat) (caption : list nat) (rnn_file_exists : bool)
    : res full_model :=
  if bool_decide (caption_shape = [1; 20]%nat) then
    if rnn_file_exists then Ok (mk_full_model caption)
    else Err (AssertionError "Provided incorect location to rnn model")
  else Err (AssertionError "Incorrect shape of captions").

(** [predict(x)]: the shape assert, the extractor, then [test_on_batch],
    which returns the compiled loss on [y_true = np.zeros(1)]. *)
Definition predict (m : full_model) (x_shape : list nat) (x : image) : res R :=
  if bool_decide (x_shape = [1; 3; 224; 224]%nat) then
    custom_distance_function [[0]] (rnn_forward (top_predict x) (fm_caption m))
  else Err (AssertionError "Incorrect input dims").
(** ** The [TEST] harness (lines 81-94) *)

(** The two captions of [TEST], as word indices padded to 20. *)
Definition cap_input : list nat := ([8; 214; 23; 1; 626] ++ replicate 15 0)%nat.
Definition cap_random : list nat := ([8; 199; 23; 1] ++ replicate 16 0)%nat.

(** [image.img_to_array] of a 224 x 224 RGB image, in the backend's data
    format. *)
Definition img_to_array_shape (df : data_format) : list nat :=
  match df with ChannelsFirst => [3; 224; 224]%nat | ChannelsLast => [224; 224; 3]%nat end.

(** [TEST()]: load the image (through [load_img], [img_to_array],
    [expand_dims] and [preprocess_input]), build the model with the first
    caption, print its [predict], assign [model.caption] and print
    [predict] again.  The result is the pair of printed values. *)
Definition TEST (df : data_format) (load_img : string → res image) (rnn_file_exists : bool)
    : res (R * R) :=
  x ← load_img "/Users/tejaswin.p/Downloads/eating_pizza_in_park.jpg";
  let x_shape := 1%nat :: img_to_array_shape df in
  model ← full_model_init [1; 20]%nat cap_input rnn_file_exists;
  correct ← predict model x_shape x;
  let model := {| fm_caption := cap_random |} in
  random ← predict model x_shape x;
  Ok (correct, random).

End Predict.

(** ** Lemmas on rows *)

Lemma row_sum_cons (x : R) (r : list R) : row_sum (x :: r) = x + row_sum r.
Proof. reflexivity. Qed.

Lemma row_sum_nonneg_sq (r : list R) : 0 <= row_sum (Rsqr <$> r).
Proof.
  induction r as [|x r IH]; [simpl; lra|]. rewrite fmap_cons, row_sum_cons.
  pose proof (Rle_0_sqr x). lra.
Qed.

Lemma norm_sqr (r : list R) : Rsqr (norm r) = row_sum (Rsqr <$> r).
Proof. unfold norm. apply Rsqr_sqrt, row_sum_nonneg_sq. Qed.

Lemma norm_nonneg (r : list R) : 0 <= norm r.
Proof. apply sqrt_pos. Qed.

(** Dividing by a scalar broadcasts over the row, whatever its length. *)
Lemma broadcast2_div_scalar (a : list R) (n : R) :
  broadcast2 Rdiv a [n] = Ok ((λ x, x / n) <$> a).
Proof. unfold broadcast2. by destruct a as [|x [|y a]]. Qed.

Lemma l2norm_row (a : list R) : l2norm [a] = Ok [(λ x, x / norm a) <$> a].
Proof. unfold l2norm, tmap2, l2. simpl. by rewrite broadcast2_div_scalar. Qed.

Lemma tmap2_row (f : R → R → R) (u v : list R) :
  length u = length v → tmap2 f [u] [v] = Ok [zip_with f u v].
Proof.
  intros Huv. unfold tmap2, broadcast2. simpl.
  by rewrite (proj2 (Nat.eqb_eq _ _) Huv).
Qed.

Lemma dot_scale (a b : list R) (n m : R) :
  n <> 0 → m <> 0 →
  row_sum (zip_with Rmult ((λ x, x / n) <$> a) ((λ x, x / m) <$> b)) = dot a b / (n * m).
Proof.
  intros Hn Hm. unfold dot. revert b. induction a as [|x a IH]; intros [|y b];
    rewrite ?fmap_cons; simpl zip_with; rewrite ?row_sum_cons; try (simpl; field; lra).
  rewrite IH. field. lra.
Qed.

Lemma row_sum_sq_scale (a : list R) (n : R) :
  n <> 0 → row_sum (Rsqr <$> ((λ x, x / n) <$> a)) = row_sum (Rsqr <$> a) / Rsqr n.
Proof.
  intros Hn. induction a as [|x a IH]; [simpl; unfold Rdiv; ring|].
  rewrite !fmap_cons, !row_sum_cons, IH. unfold Rsqr. field. lra.
Qed.

(** [sum((u + s v)^2) = sum(u^2) + s^2 sum(v^2) + 2 s u.v] on rows of one
    length. *)
Lemma row_sum_sq_comb (u v : list R) (s : R) :
  length u = length v →
  row_sum (Rsqr <$> zip_with (λ x y, x + s * y) u v) =
  row_sum (Rsqr <$> u) + Rsqr s * row_sum (Rsqr <$> v) + 2 * s * dot u v.
Proof.
  unfold dot. revert v. induction u as [|x u IH]; intros [|y v] Hl; simpl in Hl; try lia.
  - simpl. unfold Rsqr. ring.
  - simpl zip_with. rewrite !fmap_cons, !row_sum_cons, IH by lia. unfold Rsqr. ring.
Qed.

(** Cauchy-Schwarz for two unit rows. *)
Lemma dot_unit_bounds (u v : list R) :
  length u = length v → row_sum (Rsqr <$> u) = 1 → row_sum (Rsqr <$> v) = 1 →
  -1 <= dot u v <= 1.
Proof.
  intros Hl Hu Hv.
  pose proof (row_sum_nonneg_sq (zip_with (λ x y, x + 1 * y) u v)) as Hp.
  pose proof (row_sum_nonneg_sq (zip_with (λ x y, x + -1 * y) u v)) as Hm.
  rewrite row_sum_sq_comb in Hp, Hm by done. rewrite Hu, Hv in Hp, Hm.
  unfold Rsqr in *. lra.
Qed.

Lemma row_sum_sq_unit (a : list R) :
  norm a <> 0 → row_sum (Rsqr <$> ((λ x, x / norm a) <$> a)) = 1.
Proof.
  intros Hn. rewrite row_sum_sq_scale, <-norm_sqr by done. unfold Rsqr. field. done.
Qed.

Lemma norm_replicate (n : nat) (x : R) : norm (replicate n x) = sqrt (INR n * Rsqr x).
Proof.
  unfold norm. f_equal. induction n as [|n IH]; [simpl; ring|].
  rewrite replicate_S, fmap_cons, row_sum_cons, IH, S_INR. ring.
Qed.

(** ** The loss *)

(** The loss only reads the first row of [y_pred] and ignores [y_true]:
    it is the sum of the products of the two normalised halves. *)
Lemma loss_first_row y_true (r : list R) rest :
  length (drop WORD_DIM r) = length (take WORD_DIM r) →
  custom_distance_function y_true (r :: rest) =
    Ok (row_sum (zip_with Rmult ((λ x, x / norm (take WORD_DIM r)) <$> take WORD_DIM r)
                               ((λ x, x / norm (drop WORD_DIM r)) <$> drop WORD_DIM r))).
Proof.
  intros Hl. unfold custom_distance_function, select_images, select_words, slice_first.
  rewrite !fmap_cons. simpl take. rewrite !l2norm_row. simpl.
  rewrite tmap2_row by (by rewrite !length_fmap). simpl. by rewrite Rplus_0_r.
Qed.

(** C23: on a first row of [2 * WORD_DIM] cells whose halves are non-zero,
    [custom_distance_function] is the cosine similarity of the image half
    and the word half of the first row of [y_pred]; [y_true] and the
    other rows play no part.  It is a similarity, not a distance: the
    closer the caption, the larger the "loss". *)
Theorem custom_distance_cosine y_true (r : list R) rest :
  length r = (2 * WORD_DIM)%nat →
  norm (take WORD_DIM r) <> 0 → norm (drop WORD_DIM r) <> 0 →
  custom_distance_function y_true (r :: rest) =
    Ok (dot (take WORD_DIM r) (drop WORD_DIM r) / (norm (take WORD_DIM r) * norm (drop WORD_DIM r))).
Proof.
  intros Hr Ha Hb. rewrite loss_first_row by (rewrite length_drop, length_take; lia).
  by rewrite dot_scale.
Qed.

(** C24: under the same conditions the value is in [[-1, 1]]
    (Cauchy-Schwarz on the normalised halves). *)
Theorem custom_distance_bounds y_true (r : list R) rest :
  length r = (2 * WORD_DIM)%nat →
  norm (take WORD_DIM r) <> 0 → norm (drop WORD_DIM r) <> 0 →
  ∃ c, custom_distance_function y_true (r :: rest) = Ok c ∧ -1 <= c <= 1.
Proof.
  intros Hr Ha Hb. eexists. split.
  { apply loss_first_row. rewrite length_drop, length_take. lia. }
  apply dot_unit_bounds; [by rewrite !length_fmap, length_drop, length_take; lia|..];
    by apply row_sum_sq_unit.
Qed.

(** C25: a first row of any other width [WORD_DIM + k] with [k] neither
    [WORD_DIM] nor 1 makes the product [correct_image * correct_word]
    fail to broadcast. *)
Theorem custom_distance_incompatible y_true (r : list R) rest :
  (WORD_DIM <= length r)%nat → length r ≠ (2 * WORD_DIM)%nat → length r ≠ S WORD_DIM →
  custom_distance_function y_true (r :: rest) = Err (ValueError "Incompatible shapes").
Proof.
  intros H1 H2 H3. unfold custom_distance_function, select_images, select_words, slice_first.
  rewrite !fmap_cons. simpl take. rewrite !l2norm_row. simpl.
  unfold tmap2, broadcast2. simpl. rewrite !length_fmap, length_take, length_drop.
  destruct (Nat.eqb_spec (WORD_DIM `min` length r) (length r - WORD_DIM)); [lia|].
  destruct (take WORD_DIM r) as [|x [|y l]] eqn:E.
  - apply (f_equal length) in E. rewrite length_take in E. cbn [length] in E. unfold WORD_DIM in *. lia.
  - apply (f_equal length) in E. rewrite length_take in E. cbn [length] in E. unfold WORD_DIM in *. lia.
  - simpl. destruct (drop WORD_DIM r) as [|z [|w l']] eqn:E'; try done.
    apply (f_equal length) in E'. rewrite length_drop in E'. cbn [length] in E'. unfold WORD_DIM in *. lia.
Qed.

Lemma ones_halves_nonzero :
  norm (take WORD_DIM (replicate (2 * WORD_DIM) 1)) <> 0 ∧
  norm (drop WORD_DIM (replicate (2 * WORD_DIM) 1)) <> 0.
Proof.
  rewrite take_replicate, drop_replicate, !norm_replicate, Rsqr_1, !Rmult_1_r.
  split; apply Rgt_not_eq, sqrt_lt_R0, lt_0_INR; unfold WORD_DIM; lia.
Qed.

Lemma custom_distance_cosine_witness :
  custom_distance_function [[0]] [replicate (2 * WORD_DIM) 1] =
    Ok (dot (take WORD_DIM (replicate (2 * WORD_DIM) 1)) (drop WORD_DIM (replicate (2 * WORD_DIM) 1)) /
        (norm (take WORD_DIM (replicate (2 * WORD_DIM) 1)) * norm (drop WORD_DIM (replicate (2 * WORD_DIM) 1)))).
Proof. apply custom_distance_cosine; [apply length_replicate|apply ones_halves_nonzero..]. Defined.

Lemma custom_distance_bounds_witness :
  ∃ c, custom_distance_function [[0]] [replicate (2 * WORD_DIM) 1] = Ok c ∧ -1 <= c <= 1.
Proof. apply custom_distance_bounds; [apply length_replicate|apply ones_halves_nonzero..]. Defined.

Lemma custom_distance_incompatible_witness :
  custom_distance_function [[0]] [replicate 400 1] = Err (ValueError "Incompatible shapes").
Proof.
  apply custom_distance_incompatible; rewrite length_replicate; unfold WORD_DIM; lia.
Defined.

Section TestHarness.
Context {image : Type} (top_predict : image → tensor) (rnn_forward : tensor → list nat → tensor).

(** [TEST] on a channels-first backend prints the loss of the image
    against the first caption and then against the caption assigned to
    [model.caption]: the assignment is seen by the second [predict].  On
    a channels-last backend [img_to_array] gives [(1, 224, 224, 3)] and
    the first [predict] fails its shape assert. *)
Theorem TEST_runs (load_img : string → res image) x :
  load_img "/Users/tejaswin.p/Downloads/eating_pizza_in_park.jpg"%string = Ok x →
  TEST top_predict rnn_forward ChannelsFirst load_img true =
    (c ← custom_distance_function [[0]] (rnn_forward (top_predict x) cap_input);
     r ← custom_distance_function [[0]] (rnn_forward (top_predict x) cap_random);
     Ok (c, r)) ∧
  TEST top_predict rnn_forward ChannelsLast load_img true = Err (AssertionError "Incorrect input dims").
Proof.
  intros Hx. unfold TEST. rewrite Hx. simpl. unfold predict. simpl. split; [|done].
  by destruct (custom_distance_function _ _).
Qed.

End TestHarness.

End FullModel.
