(* ===== verification/Pipeline.v ===== *)
(** * The pipeline: extraction feeds the generator

    [main] writes the training store and the pickled class ranges; the
    batch generator's setup reads them back (lines 76-90): [gen_open]
    opens the files [data_generator] names through the globals
    ([h5_training], [embeddings_path]) and its [image_class_ranges]
    argument, in the world [main] leaves.  This file proves the contract
    between the two: when [main] has run on a world
    where its checks pass, the generator's environment built from the
    store and the pickle [main] left is well formed ([env_wf]) as soon as
    the extractor's width is the 4096 [data_generator] hard-codes and
    every class has an embedding, so the generator's theorems apply to
    the store [main] produced. *)

From S2P Require Import Prelude PyBuiltins FeatureStore ClassIndex Sampler Generator Config Vgg Extraction.
Import FeatureStore ClassIndex Generator Config Vgg Extraction.

Module Pipeline.

(** [h5py.File(path, "r")] and [pickle.load(open(path))] in the world:
    a missing file raises [IOError]. *)
Definition h5_read (w : world) (path : string) : res h5file :=
  match w_h5 w !! path with
  | Some f => Ok f
  | None => Err (IOError ("Unable to open file " ++ path))
  end.

Definition pickle_load (w : world) (path : string) : res (gmap string (nat * nat)) :=
  match w_pickles w !! path with
  | Some m => Ok m
  | None => Err (IOError ("No such file or directory: " ++ path))
  end.

(** The setup of [data_generator(batch_size, image_class_ranges)]
    (lines 76-88) on the world, in the order of the code: the names of
    the training store, the pickle, the features, then the embedding
    store. *)
Definition gen_open (w : world) (image_class_ranges : string) : res gen_env :=
  tr ← global "h5_training" (h5_training (w_globals w));
  fp ← h5_read w tr;
  fn ← read_str fp "data/fnames";
  image_fnames ← read_first_column fn;
  class_ranges ← pickle_load w image_class_ranges;
  vgg_feats ← read_float fp "data/features";
  ep ← global "embeddings_path" (embeddings_path (w_globals w));
  wordF ← h5_read w ep;
  embeddings ← read_float wordF "data/word_embeddings";
  wn ← read_str wordF "data/word_names";
  names ← read_first_column wn;
  Ok (mk_env image_fnames class_ranges vgg_feats embeddings (build_word_mapping names)).

(** ** Fixtures: the spec's folder with a 4096-wide extractor, and an
    embedding store with one row per class. *)
Definition ex_cfg4096 : cfg_file :=
  cfg_read [("training", [("IMAGE_DIM", "4096"); ("WORD_DIM", "50"); ("VGG_BATCH", "2")]);
            ("h5", [("h5_training", "store.h5"); ("h5_validation", "valid.h5");
                    ("h5_embeddings", "words.h5")]);
            ("other", [("WEIGHTS_PATH", "vgg16.h5"); ("TRAINING_CLASS_RANGES", "ranges.pkl");
                       ("VALIDATION_CLASS_RANGES", "va.pkl")]);
            ("data location", [("TRAINING_DATA_FOLDER_CLEAN", "root");
                               ("VALIDATION_DATA_FOLDER_CLEAN", "vroot")])]%string.

Definition ex_class_words : h5file :=
  mk_h5file {["data/word_embeddings" := mk_dataset [replicate Y_COLS 0%Z; replicate Y_COLS 1%Z] Y_COLS None]}
            {["data/word_names" := mk_dataset [["classA"]; ["classB"]] 1 None]}%string.

(** When the files exist, opening them is [gen_setup] on their contents. *)
Lemma gen_open_setup w p tr train pk ep words :
  h5_training (w_globals w) = Some tr → w_h5 w !! tr = Some train → w_pickles w !! p = Some pk →
  embeddings_path (w_globals w) = Some ep → w_h5 w !! ep = Some words →
  gen_open w p = gen_setup train words pk.
Proof.
  intros Htr Htrain Hpk Hep Hwords. unfold gen_open, gen_setup.
  rewrite (res_bind_ok_eq _ _ tr) by (unfold global; by rewrite Htr).
  rewrite (res_bind_ok_eq _ _ train) by (unfold h5_read; by rewrite Htrain).
  destruct (read_str train _); simpl; [|done].
  destruct (read_first_column _); simpl; [|done].
  rewrite (res_bind_ok_eq _ _ pk) by (unfold pickle_load; by rewrite Hpk).
  destruct (read_float train _); simpl; [|done].
  rewrite (res_bind_ok_eq _ _ ep) by (unfold global; by rewrite Hep).
  by rewrite (res_bind_ok_eq _ _ words) by (unfold h5_read; by rewrite Hwords).
Qed.

(** The spec's folder, with the embedding store at [words.h5]. *)
Definition ex_world_words : world :=
  mk_world no_globals (<["words.h5" := ex_class_words]> {["store.h5" := mk_h5file ∅ ∅]})%string ∅
    ["root"%string] ex_walk [].

Section Pipeline.
Context {image : Type} (load_img : string → res image) (predict : list image → list (list Z)).
Context (keras : keras_env).
Context (img : string → image) (extract : image → list Z).
Hypothesis Hpredict : ∀ imgs, predict imgs = extract <$> imgs.

(** C30: the pickle [main] writes is [get_class_ranges] of the names the
    generator reads back, the feature table has one row per name, each as
    wide as [X] expects: the generator's environment over [main]'s output
    is well formed, given embeddings for every class. *)
Theorem pipeline_env_wf argv cfg w rt g dim b ip dp rp wp km f0 names0 cs ep words E W ws :
  argv !! 1 = Some rt →
  load_configs cfg rt (w_globals w) = (g, Ok ()) →
  images_path g = Some ip → dump_path g = Some dp → IMAGE_DIM g = Some (Z.of_nat dim) →
  VGG_BATCH g = Some b → image_class_ranges g = Some rp →
  ip ∈ w_dirs w → w_h5 w !! dp = Some f0 → store_ready dim f0 → stored_names f0 = Ok names0 →
  weights_path g = Some wp →
  define_model (k_data_format keras) (Z.of_nat dim) (k_weights keras wp) = Ok km →
  (1 ≤ b)%Z → 2 ≤ length (collect_files (w_walk w ip)) →
  (∀ x, x ∈ collect_files (w_walk w ip) → load_img x = Ok (img x) ∧ length (extract (img x)) = dim) →
  dim = X_COLS →
  h5_training g = Some dp → embeddings_path g = Some ep → ep ≠ dp → w_h5 w !! ep = Some words →
  class_labels (names0 ++ collect_files (w_walk w ip)) = Ok cs →
  read_float words "data/word_embeddings" = Ok E → read_str words "data/word_names" = Ok W →
  read_first_column W = Ok ws →
  (∀ c, c ∈ cs → ∃ idx r, build_word_mapping ws !! c = Some idx ∧
                          ds_rows E !! idx = Some r ∧ length r = Y_COLS) →
  let w' := (extraction_main load_img predict keras argv cfg w).1 in
  ∃ env, gen_open w' rp = Ok env ∧
    env_wf env cs ∧ image_fnames env = names0 ++ collect_files (w_walk w ip).
Proof.
  intros Hargv Hload Hip Hdp Hdim Hb Hrp Hdir Hf0 Hready Hnames0 Hwp Hkm Hb1 Hn Hfiles HX Htr Hep Hne
    Hwords Hcs HE HW Hws Hemb w'.
  set (files := collect_files (w_walk w ip)) in *.
  destruct (get_class_ranges_refines _ _ Hcs) as (m & Hm & _).
  subst w'. rewrite (extraction_main_run load_img predict keras img extract Hpredict argv cfg w rt g dim b ip dp
                       rp wp km f0 names0 m) by done.
  cbn [fst]. rewrite (gen_open_setup _ rp dp
    (appended "data/features" "data/fnames" files ((λ x, extract (img x)) <$> files) (with_tables dim f0))
    m ep words); cbn [w_globals w_h5 w_pickles]; [|done|apply lookup_insert_eq|apply lookup_insert_eq|done|].
  2:{ by rewrite lookup_insert_ne by congruence. }
  pose proof (with_tables_wf dim f0 Hready) as (X & F & HXt & HFt & [HrX _] & _ & HcX & _ & HlenXF).
  pose proof (stored_names_with_tables dim f0 names0 Hready Hnames0) as Hs.
  unfold stored_names in Hs. rewrite HFt in Hs.
  unfold gen_setup, read_str, read_float.
  rewrite (get_str_appended _ _ _ _ _ F) by done. cbn [snd]. rewrite res_bind_ret.
  rewrite (res_bind_ok_eq _ _ _ (read_first_column_app F names0 files _ _ Hs)).
  rewrite (get_float_appended _ _ _ _ _ X) by done. cbn [snd]. rewrite res_bind_ret.
  unfold read_float, read_str in HE, HW. rewrite HE, HW. simpl. rewrite Hws. simpl.
  eexists. split; [reflexivity|]. split; [|done].
  split_and!; simpl; try done.
  - rewrite !length_app, length_fmap, HlenXF, <-(res_mapM_length _ _ _ Hs). unfold files. lia.
  - apply Forall_app. split; [by rewrite HcX, HX in HrX|].
    apply Forall_fmap, Forall_forall. intros x Hx. rewrite <-HX. by apply Hfiles.
Qed.

End Pipeline.

Lemma pipeline_env_wf_witness :
  let w' := (extraction_main (image := unit) (λ _, Ok ()) (λ imgs, (λ _, replicate X_COLS 1%Z) <$> imgs)
               (ex_keras 4096) ex_argv ex_cfg4096 ex_world_words).1 in
  ∃ env, gen_open w' "ranges.pkl" = Ok env ∧
    env_wf env ["classA"; "classA"; "classB"] ∧ image_fnames env = [] ++ collect_files (ex_walk "root")%string.
Proof.
  apply (@pipeline_env_wf unit (λ _, Ok ()) (λ imgs, (λ _, replicate X_COLS 1%Z) <$> imgs) (ex_keras 4096)
           (λ _, ())
           (λ _, replicate X_COLS 1%Z) (λ imgs, eq_refl) ex_argv ex_cfg4096 ex_world_words "TRAIN"
           (load_configs ex_cfg4096 "TRAIN" (w_globals ex_world_words)).1 X_COLS 2 "root" "store.h5" "ranges.pkl"
           "vgg16.h5" (mk_keras_model (vgg16_weights 4096) [4096%Z]) (mk_h5file ∅ ∅) [] ["classA"; "classA"; "classB"] "words.h5" ex_class_words
           (mk_dataset [replicate Y_COLS 0%Z; replicate Y_COLS 1%Z] Y_COLS None)
           (mk_dataset [["classA"]; ["classB"]] 1 None) ["classA"; "classB"]);
    try (vm_compute; reflexivity).
  - apply list_elem_of_In. left. reflexivity.
  - right. split; reflexivity.
  - lia.
  - vm_compute. lia.
  - intros x _. split; [reflexivity|apply length_replicate].
  - discriminate.
  - intros c Hc. apply list_elem_of_In in Hc. simpl in Hc.
    destruct Hc as [<-|[<-|[<-|[]]]];
      [exists 0, (replicate Y_COLS 0%Z)|exists 0, (replicate Y_COLS 0%Z)|exists 1, (replicate Y_COLS 1%Z)];
      split_and!; (vm_compute; reflexivity) || apply length_replicate.
Defined.

End Pipeline.
